(** * Data aggregation layer of the crypto trading agents

    A shallow embedding of the three upstream clients of
    [tradingagents/dataflows]:

    - [coingecko_utils.py]   (class [CoinGeckoUtils]),
    - [onchain_utils.py]     (class [OnChainUtils]),
    - [cryptonews_utils.py]  (class [CryptoNewsUtils]),

    of the tools of [crypto_interface.py], of [crypto_config.py] and of
    the tool selection of the analysts, together with the properties the
    specification states about them.

    Conventions of the embedding.
    - Python text is a [string] holding its UTF-8 bytes.  [upper] and
      [lower] are Python's on ASCII text, on sharp s and on long s; a
      property that rests on a law of letter case is stated for ASCII
      text ([is_ascii]).
    - A JSON payload is a [pyval]; numbers are exact ([Z] and [Q]), the
      rounding of binary floating point is not represented.
    - A Python exception is the [Raise] outcome of a computation in the
      monad [M]; [try ... except] is [try_except].
    - The network is a parameter [w : World]: what each upstream answers.
      Every dispatched request is appended to the [trace] of the state.
    - The wall clock is the [clock] field of the state; [time.sleep d]
      advances it by [d], a dispatched request by the latency of the
      upstream.
    - An f-string is a [text]: literal pieces and numeric replacement
      fields kept as (format spec, value), since their digits are those of
      binary floating point. *)

From Stdlib Require Import ZArith QArith Lqa Lia List Bool Ascii String Sorted.
From stdpp Require Import base gmap strings.
Import ListNotations.

Set Warnings "-register-all".

Local Open Scope Z_scope.

(** ** Python text *)

Module PyStr.

Definition is_lower (c : ascii) : bool :=
  let n := nat_of_ascii c in (97 <=? n)%nat && (n <=? 122)%nat.

Definition is_upper (c : ascii) : bool :=
  let n := nat_of_ascii c in (65 <=? n)%nat && (n <=? 90)%nat.

Definition upper_char (c : ascii) : ascii :=
  if is_lower c then ascii_of_nat (nat_of_ascii c - 32) else c.

Definition lower_char (c : ascii) : ascii :=
  if is_upper c then ascii_of_nat (nat_of_ascii c + 32) else c.

(** Text is held as its UTF-8 bytes: a byte below 128 is an ASCII
    character. *)
Definition is_ascii_char (c : ascii) : bool :=
  match c with
  | Ascii _ _ _ _ _ _ _ high => negb high
  end.

(** [s.isascii()] *)
Fixpoint is_ascii (s : string) : bool :=
  match s with
  | EmptyString => true
  | String c s' => is_ascii_char c && is_ascii s'
  end.

Definition long_s : string := String "197" (String "191" EmptyString).
Definition kelvin_sign : string :=
  String "226" (String "132" (String "170" EmptyString)).

(** [s.upper()]: the ASCII letters, and the two characters whose upper
    case is ASCII text, sharp s (to SS) and long s (to S).  The other
    characters outside ASCII are kept as they are, which is Python's
    mapping for the Kelvin sign and for every character without case; the
    cased ones among them are outside this model. *)
Fixpoint upper (s : string) : string :=
  match s with
  | EmptyString => EmptyString
  | String c s' =>
      match c, s' with
      | "195"%char, String "159"%char s'' => String "S" (String "S" (upper s''))
      | "197"%char, String "191"%char s'' => String "S" (upper s'')
      | _, _ => String (upper_char c) (upper s')
      end
  end.

(** [s.lower()]: the ASCII letters.  Sharp s and long s are lowercase
    already; the characters outside ASCII that Python does map (the Kelvin
    sign to k among them) are outside this model. *)
Fixpoint lower (s : string) : string :=
  match s with
  | EmptyString => EmptyString
  | String c s' => String (lower_char c) (lower s')
  end.

(** [s.startswith(p)] *)
Fixpoint startswith (p s : string) : bool :=
  match p, s with
  | EmptyString, _ => true
  | String a p', String b s' => if Ascii.eqb a b then startswith p' s' else false
  | String _ _, EmptyString => false
  end.

(** [needle in hay] on two texts *)
Fixpoint contains (needle hay : string) : bool :=
  startswith needle hay ||
  match hay with
  | EmptyString => false
  | String _ hay' => contains needle hay'
  end.

(** Python's whitespace for [strip] and [int], ASCII part. *)
Definition is_space (c : ascii) : bool :=
  let n := nat_of_ascii c in
  ((9 <=? n)%nat && (n <=? 13)%nat) || ((28 <=? n)%nat && (n <=? 32)%nat).

Fixpoint lstrip (s : string) : string :=
  match s with
  | EmptyString => EmptyString
  | String c s' => if is_space c then lstrip s' else s
  end.

Fixpoint rstrip (s : string) : string :=
  match s with
  | EmptyString => EmptyString
  | String c s' =>
      match rstrip s' with
      | EmptyString => if is_space c then EmptyString else String c EmptyString
      | r => String c r
      end
  end.

(** [s.strip()] *)
Definition strip (s : string) : string := lstrip (rstrip s).

(** [s[:n]] for a non-negative literal [n] *)
Fixpoint take (n : nat) (s : string) : string :=
  match n, s with
  | S n', String c s' => String c (take n' s')
  | _, _ => EmptyString
  end.

Definition digit_of (c : ascii) : option Z :=
  let n := nat_of_ascii c in
  if (48 <=? n)%nat && (n <=? 57)%nat then Some (Z.of_nat (n - 48)) else None.

Fixpoint digits_from (acc : Z) (s : string) : option Z :=
  match s with
  | EmptyString => Some acc
  | String c s' =>
      match digit_of c with
      | Some d => digits_from (10 * acc + d) s'
      | None => None
      end
  end.

Definition unsigned_of (s : string) : option Z :=
  match s with
  | EmptyString => None
  | _ => digits_from 0 s
  end.

(** The decimal integers of [int(s)]: blanks around an optional sign
    and a non-empty run of ASCII digits.  The other spellings [int]
    accepts (underscores between digits, digits outside ASCII) are not
    part of the model and count as rejected. *)
Definition parse_int (s : string) : option Z :=
  match strip s with
  | String "-" r => option_map Z.opp (unsigned_of r)
  | String "+" r => unsigned_of r
  | r => unsigned_of r
  end.

Fixpoint split_at_dot (s : string) : string * option string :=
  match s with
  | EmptyString => (EmptyString, None)
  | String c s' =>
      if Ascii.eqb c "."%char then (EmptyString, Some s')
      else let '(a, b) := split_at_dot s' in (String c a, b)
  end.

Definition unsigned_decimal (s : string) : option Q :=
  match split_at_dot s with
  | (a, None) => option_map inject_Z (unsigned_of a)
  | (a, Some b) =>
      match a, b with
      | EmptyString, EmptyString => None
      | _, _ =>
          match digits_from 0 a, digits_from 0 b with
          | Some i, Some f =>
              Some (inject_Z i + inject_Z f / inject_Z (10 ^ Z.of_nat (String.length b)))%Q
          | _, _ => None
          end
      end
  end.

(** The plain decimals of [float(s)]: blanks around an optional sign,
    digits, and an optional fraction.  Exponents, the special values and
    underscores are not part of the model and count as rejected. *)
Definition parse_float (s : string) : option Q :=
  match strip s with
  | String "-" r => option_map Qopp (unsigned_decimal r)
  | String "+" r => unsigned_decimal r
  | r => unsigned_decimal r
  end.

End PyStr.

(** ** Python values, exceptions and f-strings *)

Module Py.

(** What [json()] returns, and what the clients build from it. *)
Inductive pyval : Type :=
| VNone
| VBool (b : bool)
| VInt (z : Z)
| VFloat (q : Q)
| VStr (s : string)
| VList (l : list pyval)
| VDict (d : list (string * pyval)).

Inductive exn : Type :=
| KeyError (key : string)
| IndexError
| TypeError
| ValueError
| AttributeError
| RequestException.

(** Outcome of running a piece of Python. *)
Inductive Res (A : Type) : Type :=
| Ok (a : A)
| Raise (e : exn).
Arguments Ok {A} a.
Arguments Raise {A} e.

(** A piece of an f-string: literal text, or a number still to be
    rendered under its format spec. *)
Inductive piece : Type :=
| Lit (s : string)
| Fld (spec : string) (v : pyval).

Definition text := list piece.

Fixpoint lookup (k : string) (d : list (string * pyval)) : option pyval :=
  match d with
  | [] => None
  | (k', v) :: d' => if String.eqb k k' then Some v else lookup k d'
  end.

(** [bool(v)], the test of [if v] and [not v] *)
Definition truthy (v : pyval) : bool :=
  match v with
  | VNone => false
  | VBool b => b
  | VInt z => negb (z =? 0)
  | VFloat q => negb (Qeq_bool q 0)
  | VStr s => negb (String.eqb s "")
  | VList l => match l with [] => false | _ => true end
  | VDict d => match d with [] => false | _ => true end
  end.

Definition is_str (v : pyval) (s : string) : bool :=
  match v with VStr s' => String.eqb s' s | _ => false end.

(** [k in v] for a text [k] *)
Definition contains_key (k : string) (v : pyval) : Res bool :=
  match v with
  | VDict d => Ok (match lookup k d with Some _ => true | None => false end)
  | VList l => Ok (existsb (fun x => is_str x k) l)
  | VStr s => Ok (PyStr.contains k s)
  | _ => Raise TypeError
  end.

(** [v[k]] for a text [k] *)
Definition getitem (v : pyval) (k : string) : Res pyval :=
  match v with
  | VDict d => match lookup k d with Some x => Ok x | None => Raise (KeyError k) end
  | _ => Raise TypeError
  end.

(** [v[0]] *)
Definition getitem0 (v : pyval) : Res pyval :=
  match v with
  | VList (x :: _) => Ok x
  | VList [] => Raise IndexError
  | VStr (String c _) => Ok (VStr (String c EmptyString))
  | VStr EmptyString => Raise IndexError
  | VDict _ => Raise (KeyError "0")
  | _ => Raise TypeError
  end.

(** [len(v)] *)
Definition len (v : pyval) : Res Z :=
  match v with
  | VList l => Ok (Z.of_nat (List.length l))
  | VDict d => Ok (Z.of_nat (List.length d))
  | VStr s => Ok (Z.of_nat (String.length s))
  | _ => Raise TypeError
  end.

(** [v.get(k, default)] *)
Definition get (v : pyval) (k : string) (default : pyval) : Res pyval :=
  match v with
  | VDict d => Ok (match lookup k d with Some x => x | None => default end)
  | _ => Raise AttributeError
  end.

(** [l[:n]] on a list: a negative [n] counts from the end. *)
Definition slice_to {A : Type} (n : Z) (l : list A) : list A :=
  if n <? 0 then firstn (Z.to_nat (Z.of_nat (List.length l) + n)) l
  else firstn (Z.to_nat n) l.

Definition chars (s : string) : list ascii := list_ascii_of_string s.

(** [v[:n]] *)
Definition slice (v : pyval) (n : Z) : Res pyval :=
  match v with
  | VList l => Ok (VList (slice_to n l))
  | VStr s => Ok (VStr (string_of_list_ascii (slice_to n (chars s))))
  | _ => Raise TypeError
  end.

(** The items a [for] loop takes from [v]. *)
Definition iter (v : pyval) : Res (list pyval) :=
  match v with
  | VList l => Ok l
  | VStr s => Ok (map (fun c => VStr (String c EmptyString)) (chars s))
  | VDict d => Ok (map (fun kv => VStr (fst kv)) d)
  | _ => Raise TypeError
  end.

(** [int(v)] *)
Definition int (v : pyval) : Res Z :=
  match v with
  | VInt z => Ok z
  | VBool b => Ok (if b then 1 else 0)
  | VFloat q => Ok (Z.quot (Qnum q) (Z.pos (Qden q)))
  | VStr s => match PyStr.parse_int s with Some z => Ok z | None => Raise ValueError end
  | _ => Raise TypeError
  end.

(** [float(v)] *)
Definition float (v : pyval) : Res Q :=
  match v with
  | VInt z => Ok (inject_Z z)
  | VBool b => Ok (if b then 1%Q else 0%Q)
  | VFloat q => Ok q
  | VStr s => match PyStr.parse_float s with Some q => Ok q | None => Raise ValueError end
  | _ => Raise TypeError
  end.

Definition as_number (v : pyval) : option Q :=
  match v with
  | VInt z => Some (inject_Z z)
  | VBool b => Some (if b then 1%Q else 0%Q)
  | VFloat q => Some q
  | _ => None
  end.

(** [v / d] for a float literal [d] that is not zero *)
Definition div (v : pyval) (d : Q) : Res pyval :=
  match as_number v with
  | Some q => Ok (VFloat (q / d))
  | None => Raise TypeError
  end.

(** [a * b] where [a] is a float *)
Definition mul_float (a : Q) (v : pyval) : Res pyval :=
  match as_number v with
  | Some q => Ok (VFloat (a * q))
  | None => Raise TypeError
  end.

(** [format(v, spec)], one replacement field of an f-string.  Numbers
    accept every spec used by the clients (the [OverflowError] of an
    integer beyond the range of a float under an ['f'] code is not
    represented); text accepts only the empty spec (a [','] or an ['f']
    code is a [ValueError]); [None], lists and dicts reject a non-empty
    spec with a [TypeError]. *)
Definition format (v : pyval) (spec : string) : Res piece :=
  match v with
  | VInt _ | VFloat _ | VBool _ => Ok (Fld spec v)
  | VStr s => if String.eqb spec "" then Ok (Lit s) else Raise ValueError
  | VNone | VList _ | VDict _ =>
      if String.eqb spec "" then Ok (Fld "" v) else Raise TypeError
  end.

(** [t.strip()] on an f-string: rendered numbers carry no blanks, so
    only literal pieces at the two ends lose theirs. *)
Fixpoint lstrip (t : text) : text :=
  match t with
  | Lit s :: t' =>
      match PyStr.lstrip s with
      | EmptyString => lstrip t'
      | s' => Lit s' :: t'
      end
  | _ => t
  end.

Fixpoint rstrip (t : text) : text :=
  match t with
  | [] => []
  | p :: t' =>
      match rstrip t', p with
      | [], Lit s =>
          match PyStr.rstrip s with
          | EmptyString => []
          | s' => [Lit s']
          end
      | r, _ => p :: r
      end
  end.

Definition strip (t : text) : text := lstrip (rstrip t).

Definition rbind {A B} (r : Res A) (k : A -> Res B) : Res B :=
  match r with
  | Ok a => k a
  | Raise e => Raise e
  end.

(** [[f x for x in xs]], stopping at the first exception. *)
Fixpoint traverse {A B : Type} (f : A -> Res B) (xs : list A) : Res (list B) :=
  match xs with
  | [] => Ok []
  | x :: xs' => rbind (f x) (fun y => rbind (traverse f xs') (fun ys => Ok (y :: ys)))
  end.

(** Literal part of an f-string. *)
Definition lit (s : string) : Res piece := Ok (Lit s).

(** The line break inside a literal. *)
Definition nl : string := String "010"%char EmptyString.
Definition eol : Res piece := lit nl.

(** A text without replacement fields. *)
Definition plain (s : string) : text := [Lit s].

(** Replacement field [{e:spec}]: evaluate [e], then format it. *)
Definition fld (e : Res pyval) (spec : string) : Res piece :=
  rbind e (fun v => format v spec).

(** An f-string: its parts are evaluated from left to right and the
    first exception ends the evaluation. *)
Fixpoint fstring (parts : list (Res piece)) : Res text :=
  match parts with
  | [] => Ok []
  | p :: ps => rbind p (fun x => rbind (fstring ps) (fun t => Ok (x :: t)))
  end.

(** Adjacent literal pieces read as one. *)
Fixpoint flatten (t : text) : text :=
  match t with
  | Lit a :: t' =>
      match flatten t' with
      | Lit b :: r => Lit (a +:+ b) :: r
      | r => Lit a :: r
      end
  | p :: t' => p :: flatten t'
  | [] => []
  end.

End Py.

(** ** The process: clock, network, and the monad of client code *)

Module Net.
Import Py.

Record Request : Type := mkRequest {
  url : text;
  params : list (string * pyval);
  headers : list (string * string)
}.

(** A request on the wire, stamped with the clock at dispatch. *)
Record Dispatch : Type := mkDispatch {
  at_time : Q;
  request : Request
}.

(** One entry of a parsed feed ([feedparser] yields text fields). *)
Record Entry : Type := mkEntry {
  e_title : option string;
  e_link : option string;
  e_published : option string;
  e_summary : option string
}.

(** The upstreams.  [http_json r] is the payload of
    [requests.get], [raise_for_status] and [json] in sequence, [None]
    when one of them raises (transport error or timeout, status of 400
    and above, or a body that is not JSON: all are
    [RequestException]s).  [http_text r] is [requests.get(...).text],
    [None] on a transport error.  [feed_entries u] is
    [feedparser.parse(u).entries], [None] when parsing raises.
    [latency r] is the time the exchange takes, in microseconds. *)
Record World : Type := mkWorld {
  http_json : Request -> option pyval;
  http_text : Request -> option string;
  feed_entries : string -> option (list Entry);
  latency : Request -> N
}.

(** The state a method runs in: the object's own fields, the wall
    clock in seconds, and the requests dispatched so far. *)
Record State (Self : Type) : Type := mkState {
  self : Self;
  clock : Q;
  trace : list Dispatch
}.
Arguments mkState {Self} _ _ _.
Arguments self {Self} _.
Arguments clock {Self} _.
Arguments trace {Self} _.

Definition M (Self A : Type) : Type := State Self -> Res A * State Self.

Section Monad.
Context {Self : Type}.

Definition ret {A} (a : A) : M Self A := fun st => (Ok a, st).

Definition bind {A B} (m : M Self A) (k : A -> M Self B) : M Self B :=
  fun st =>
    match m st with
    | (Ok a, st') => k a st'
    | (Raise e, st') => (Raise e, st')
    end.

Definition raise {A} (e : exn) : M Self A := fun st => (Raise e, st).

(** A pure step that may raise. *)
Definition lift {A} (r : Res A) : M Self A := fun st => (r, st).

(** [try: body  except <class>: handler] *)
Definition try_except {A} (body : M Self A) (catches : exn -> bool)
           (handler : exn -> M Self A) : M Self A :=
  fun st =>
    match body st with
    | (Raise e, st') => if catches e then handler e st' else (Raise e, st')
    | r => r
    end.

Definition get_self : M Self Self := fun st => (Ok (self st), st).

Definition set_self (s : Self) : M Self unit :=
  fun st => (Ok tt, mkState s (clock st) (trace st)).

(** [time.time()] *)
Definition time_time : M Self Q := fun st => (Ok (clock st), st).

(** [time.sleep(d)] *)
Definition time_sleep (d : Q) : M Self unit :=
  fun st => (Ok tt, mkState (self st) (clock st + d)%Q (trace st)).

Definition seconds (us : N) : Q := (inject_Z (Z.of_N us) / 1000000)%Q.

Definition dispatch (w : World) (r : Request) : M Self unit :=
  fun st =>
    (Ok tt, mkState (self st)
                    (clock st + seconds (latency w r))%Q
                    (trace st ++ [mkDispatch (clock st) r])).

(** [r = requests.get(...); r.raise_for_status(); r.json()] *)
Definition fetch_json (w : World) (r : Request) : M Self pyval :=
  bind (dispatch w r) (fun _ =>
    match http_json w r with
    | Some v => ret v
    | None => raise RequestException
    end).

(** [requests.get(...).text] *)
Definition fetch_text (w : World) (r : Request) : M Self string :=
  bind (dispatch w r) (fun _ =>
    match http_text w r with
    | Some s => ret s
    | None => raise RequestException
    end).

(** [feedparser.parse(url).entries] *)
Definition fetch_feed (w : World) (u : string) : M Self (list Entry) :=
  bind (dispatch w (mkRequest (plain u) [] [])) (fun _ =>
    match feed_entries w u with
    | Some es => ret es
    | None => raise RequestException
    end).

(** [for x in xs: body x] *)
Fixpoint for_each {A} (xs : list A) (body : A -> M Self unit) : M Self unit :=
  match xs with
  | [] => ret tt
  | x :: xs' => bind (body x) (fun _ => for_each xs' body)
  end.

(** A loop that appends to a list: [acc] is the list so far. *)
Fixpoint for_append {A B} (xs : list A) (acc : list B)
         (body : A -> M Self (list B)) : M Self (list B) :=
  match xs with
  | [] => ret acc
  | x :: xs' => bind (body x) (fun ys => for_append xs' (acc ++ ys) body)
  end.

End Monad.

Definition only_request_exception (e : exn) : bool :=
  match e with RequestException => true | _ => false end.

(** [except Exception] and the bare [except] *)
Definition any_exception (e : exn) : bool := true.

(** [if not key], [key or os.getenv(...)]: an empty credential counts
    as none. *)
Definition configured (key : option string) : bool :=
  match key with
  | Some k => negb (String.eqb k "")
  | None => false
  end.

End Net.

Declare Scope py_scope.
Delimit Scope py_scope with py.
Notation "x <- m ;; k" := (Net.bind m (fun x => k))
  (at level 100, m at next level, right associativity) : py_scope.
Notation "m ;;; k" := (Net.bind m (fun _ => k))
  (at level 100, right associativity) : py_scope.

(** ** [coingecko_utils.py]: class [CoinGeckoUtils] *)

Module CoinGecko.
Import Py Net.
Local Open Scope py_scope.

Record Self : Type := mkSelf {
  api_key : option string;
  last_request_time : Q;
  rate_limit_delay : Q
}.

Definition BASE_URL : string := "https://api.coingecko.com/api/v3".

Definition SYMBOL_TO_ID : gmap string string :=
  list_to_map
    [ ("BTC", "bitcoin"); ("ETH", "ethereum"); ("SOL", "solana");
      ("MATIC", "matic-network"); ("AVAX", "avalanche-2");
      ("BNB", "binancecoin"); ("ADA", "cardano"); ("DOT", "polkadot");
      ("LINK", "chainlink"); ("UNI", "uniswap"); ("ATOM", "cosmos");
      ("XRP", "ripple"); ("DOGE", "dogecoin"); ("SHIB", "shiba-inu");
      ("LTC", "litecoin"); ("BCH", "bitcoin-cash"); ("NEAR", "near");
      ("APT", "aptos"); ("ARB", "arbitrum"); ("OP", "optimism") ].

(** [__init__]: [env] is [os.getenv("COINGECKO_API_KEY")]. *)
Definition init (key env : option string) : Self :=
  {| api_key := if configured key then key else env;
     last_request_time := 0;
     rate_limit_delay := 12 # 10 |}.

Definition set_last (t : Q) (me : Self) : Self :=
  {| api_key := api_key me;
     last_request_time := t;
     rate_limit_delay := rate_limit_delay me |}.

Definition _rate_limit : M Self unit :=
  current_time <- time_time ;;
  me <- get_self ;;
  let time_since_last_request := (current_time - last_request_time me)%Q in
  (if Qlt_le_dec time_since_last_request (rate_limit_delay me)
   then time_sleep (rate_limit_delay me - time_since_last_request)%Q
   else ret tt) ;;;
  now <- time_time ;;
  set_self (set_last now me).

(** [headers], with the key when there is one *)
Definition auth_headers (me : Self) : list (string * string) :=
  match api_key me with
  | Some k => if configured (Some k) then [("x-cg-pro-api-key", k)] else []
  | None => []
  end.

Section Client.
Variable w : World.

Definition _make_request (endpoint : text) (params : list (string * pyval))
  : M Self pyval :=
  _rate_limit ;;;
  me <- get_self ;;
  let url := flatten (Lit BASE_URL :: endpoint) in
  try_except (fetch_json w (mkRequest url params (auth_headers me)))
             only_request_exception
             (fun _ => ret (VDict [])).

(** [data and key in data and len(data[key]) > 0] *)
Definition has_items (data : pyval) (key : string) : Res bool :=
  if truthy data then
    rbind (contains_key key data) (fun present =>
      if present then
        rbind (getitem data key) (fun items =>
          rbind (len items) (fun n => Ok (0 <? n)))
      else Ok false)
  else Ok false.

Definition get_coin_id (symbol : string) : M Self pyval :=
  let symbol := PyStr.upper symbol in
  match SYMBOL_TO_ID !! symbol with
  | Some id => ret (VStr id)
  | None =>
      data <- _make_request (plain "/search") [("query", VStr symbol)] ;;
      found <- lift (has_items data "coins") ;;
      if found then
        lift (rbind (getitem data "coins") (fun coins =>
                rbind (getitem0 coins) (fun first => getitem first "id")))
      else ret (VStr (PyStr.lower symbol))
  end.

(** [min(xs, key=f)]: the first element whose key is least. *)
Fixpoint min_from {A : Type} (key : A -> Z) (best : A) (xs : list A) : A :=
  match xs with
  | [] => best
  | x :: xs' => min_from key (if key x <? key best then x else best) xs'
  end.

Definition min_by {A : Type} (key : A -> Z) (xs : list A) : Res A :=
  match xs with
  | [] => Raise ValueError
  | x :: xs' => Ok (min_from key x xs')
  end.

Definition valid_days : list Z := [1; 7; 14; 30; 90; 180; 365].

(** The horizon sent to the candle endpoint for [days]. *)
Definition days_param (days : Z) : Res Z :=
  min_by (fun x => Z.abs (x - days)) valid_days.

(** A cell of a data frame: a value, or pandas' NaN. *)
Inductive cell : Type :=
| Val (v : pyval)
| NaN.

Record Candle : Type := mkCandle {
  timestamp : Q;
  open : cell;
  high : cell;
  low : cell;
  close : cell
}.

(** A row of the returned frame, indexed by [timestamp]. *)
Record Row : Type := mkRow {
  candle : Candle;
  volume : cell
}.

(** The frame; [[]] is [pd.DataFrame()]. *)
Definition DataFrame : Type := list Row.

(** A millisecond timestamp for [pd.to_datetime(..., unit="ms")].  The
    bound of [datetime64] and the NaT of a null are not represented: every
    number is accepted, everything else rejected. *)
Definition to_datetime (v : pyval) : Res Q :=
  match v with
  | VInt z => Ok (inject_Z z)
  | VFloat q => Ok q
  | _ => Raise ValueError
  end.

(** [pd.DataFrame(data, columns=[timestamp, open, high, low, close])]
    then [to_datetime] and [set_index]: [data] is a list of rows of
    five values.  pandas rejects rows of another width.  What it makes
    of a payload that is not a list of rows (a frame without rows, from
    a dict) is not represented: such a payload is rejected with the same
    [ValueError]. *)
Definition ohlc_frame (data : pyval) : Res (list Candle) :=
  match data with
  | VList rows =>
      traverse (fun row =>
        match row with
        | VList [t; o; h; l; c] =>
            rbind (to_datetime t) (fun t' =>
              Ok (mkCandle t' (Val o) (Val h) (Val l) (Val c)))
        | _ => Raise ValueError
        end) rows
  | _ => Raise ValueError
  end.

(** [pd.DataFrame(points, columns=[timestamp, volume])], likewise; the
    empty frame pandas makes of a null is not represented either. *)
Definition volume_frame (points : pyval) : Res (list (Q * cell)) :=
  match points with
  | VList rows =>
      traverse (fun row =>
        match row with
        | VList [t; v] => rbind (to_datetime t) (fun t' => Ok (t', Val v))
        | _ => Raise ValueError
        end) rows
  | _ => Raise ValueError
  end.

(** [df.join(volume_df, how="left")] on the timestamp index: every
    row of [df] is kept in order, once per matching row of
    [volume_df], and with NaN when there is none. *)
Definition join_left (df : list Candle) (volume_df : list (Q * cell)) : DataFrame :=
  flat_map (fun c =>
    match List.filter (fun tv => Qeq_bool (fst tv) (timestamp c)) volume_df with
    | [] => [mkRow c NaN]
    | matches => map (fun tv => mkRow c (snd tv)) matches
    end) df.

(** [df["volume"] = 0] *)
Definition with_zero_volume (df : list Candle) : DataFrame :=
  map (fun c => mkRow c (Val (VInt 0))) df.

Definition get_price_history (symbol : string) (days : Z) (vs_currency : string)
  : M Self DataFrame :=
  coin_id <- get_coin_id symbol ;;
  days_param <- lift (days_param days) ;;
  id <- lift (format coin_id "") ;;
  data <- _make_request
            [Lit "/coins/"; id; Lit "/ohlc"]
            [("vs_currency", VStr vs_currency); ("days", VInt days_param)] ;;
  if negb (truthy data) then ret [] else
  df <- lift (ohlc_frame data) ;;
  volume_data <- _make_request
            [Lit "/coins/"; id; Lit "/market_chart"]
            [("vs_currency", VStr vs_currency); ("days", VInt (Z.min days 365))] ;;
  has_volumes <- lift (if truthy volume_data
                       then contains_key "total_volumes" volume_data
                       else Ok false) ;;
  if has_volumes then
    volume_df <- lift (rbind (getitem volume_data "total_volumes") volume_frame) ;;
    ret (join_left df volume_df)
  else
    ret (with_zero_volume df).

Definition neutral_fear_greed : pyval :=
  VDict [ ("value", VInt 50);
          ("value_classification", VStr "Neutral");
          ("timestamp", VStr "");
          ("time_until_update", VStr "") ].

Definition FNG_URL : string := "https://api.alternative.me/fng/".

Definition get_fear_greed_index : M Self pyval :=
  answered <-
    try_except
      (data <- fetch_json w (mkRequest (plain FNG_URL) [] []) ;;
       found <- lift (has_items data "data") ;;
       if found then
         latest <- lift (rbind (getitem data "data") getitem0) ;;
         value <- lift (rbind (get latest "value" (VInt 50)) int) ;;
         classification <- lift (get latest "value_classification" (VStr "Neutral")) ;;
         stamp <- lift (get latest "timestamp" (VStr "")) ;;
         until <- lift (get latest "time_until_update" (VStr "")) ;;
         ret (Some (VDict [ ("value", VInt value);
                            ("value_classification", classification);
                            ("timestamp", stamp);
                            ("time_until_update", until) ]))
       else ret None)
      any_exception
      (fun _ => ret None) ;;
  match answered with
  | Some d => ret d
  | None => ret neutral_fear_greed
  end.

(** [d.get(k1, {}).get(k2, 0)] *)
Definition get2 (d : pyval) (k1 k2 : string) : Res pyval :=
  rbind (get d k1 (VDict [])) (fun inner => get inner k2 (VInt 0)).

Definition get_global_market_data : M Self pyval :=
  data <- _make_request (plain "/global") [] ;;
  absent <- lift (if negb (truthy data) then Ok true
                  else rbind (contains_key "data" data) (fun c => Ok (negb c))) ;;
  if (absent : bool) then ret (VDict []) else
  global_data <- lift (getitem data "data") ;;
  active <- lift (get global_data "active_cryptocurrencies" (VInt 0)) ;;
  markets <- lift (get global_data "markets" (VInt 0)) ;;
  cap <- lift (get2 global_data "total_market_cap" "usd") ;;
  vol <- lift (get2 global_data "total_volume" "usd") ;;
  change <- lift (get global_data "market_cap_change_percentage_24h_usd" (VInt 0)) ;;
  btc <- lift (get2 global_data "market_cap_percentage" "btc") ;;
  eth <- lift (get2 global_data "market_cap_percentage" "eth") ;;
  ret (VDict [ ("active_cryptocurrencies", active);
               ("markets", markets);
               ("total_market_cap_usd", cap);
               ("total_volume_usd", vol);
               ("market_cap_change_percentage_24h", change);
               ("btc_dominance", btc);
               ("eth_dominance", eth) ]).

Definition global_overview (global_data fear_greed : pyval) : Res text :=
  fstring
    [ eol;
      lit "=== Global Crypto Market Overview ==="; eol;
      eol;
      lit "Total Market Cap: $";
      fld (getitem global_data "total_market_cap_usd") ",.0f"; eol;
      lit "24h Market Cap Change: ";
      fld (getitem global_data "market_cap_change_percentage_24h") "+.2f";
      lit "%"; eol;
      lit "Total 24h Volume: $";
      fld (getitem global_data "total_volume_usd") ",.0f"; eol;
      eol;
      lit "Market Dominance:"; eol;
      lit "  Bitcoin: "; fld (getitem global_data "btc_dominance") ".2f";
      lit "%"; eol;
      lit "  Ethereum: "; fld (getitem global_data "eth_dominance") ".2f";
      lit "%"; eol;
      eol;
      lit "Active Cryptocurrencies: ";
      fld (getitem global_data "active_cryptocurrencies") ","; eol;
      lit "Active Markets: "; fld (getitem global_data "markets") ","; eol;
      eol;
      lit "Fear & Greed Index: "; fld (getitem fear_greed "value") "";
      lit "/100 (";
      fld (getitem fear_greed "value_classification") ""; lit ")"; eol ].

Definition get_global_market_summary : M Self text :=
  global_data <- get_global_market_data ;;
  fear_greed <- get_fear_greed_index ;;
  if negb (truthy global_data) then
    ret (plain "Could not fetch global market data")
  else
    summary <- lift (global_overview global_data fear_greed) ;;
    ret (strip (flatten summary)).

(** [d.get(k1, {}).get(k2, default)] *)
Definition get2_or (d : pyval) (k1 k2 : string) (default : pyval) : Res pyval :=
  rbind (get d k1 (VDict [])) (fun inner => get inner k2 default).

Definition coin_params : list (string * pyval) :=
  [ ("localization", VStr "false");
    ("tickers", VStr "false");
    ("market_data", VStr "true");
    ("community_data", VStr "false");
    ("developer_data", VStr "false") ].

(** The dict [get_current_price] builds, entry by entry. *)
Definition price_data (symbol vs_currency : string) (data market_data : pyval)
  : Res pyval :=
  rbind (get data "name" (VStr "")) (fun name =>
  rbind (get2_or market_data "current_price" vs_currency (VInt 0)) (fun current_price =>
  rbind (get2_or market_data "market_cap" vs_currency (VInt 0)) (fun market_cap =>
  rbind (get market_data "market_cap_rank" (VInt 0)) (fun market_cap_rank =>
  rbind (get2_or market_data "total_volume" vs_currency (VInt 0)) (fun total_volume =>
  rbind (get market_data "price_change_24h" (VInt 0)) (fun change_24h =>
  rbind (get market_data "price_change_percentage_24h" (VInt 0)) (fun pct_24h =>
  rbind (get market_data "price_change_percentage_7d" (VInt 0)) (fun pct_7d =>
  rbind (get market_data "price_change_percentage_30d" (VInt 0)) (fun pct_30d =>
  rbind (get market_data "circulating_supply" (VInt 0)) (fun circulating =>
  rbind (get market_data "total_supply" (VInt 0)) (fun total_supply =>
  rbind (get market_data "max_supply" (VInt 0)) (fun max_supply =>
  rbind (get2_or market_data "ath" vs_currency (VInt 0)) (fun ath =>
  rbind (get2_or market_data "ath_change_percentage" vs_currency (VInt 0)) (fun ath_change =>
  rbind (get2_or market_data "ath_date" vs_currency (VStr "")) (fun ath_date =>
  rbind (get2_or market_data "atl" vs_currency (VInt 0)) (fun atl =>
  rbind (get2_or market_data "atl_change_percentage" vs_currency (VInt 0)) (fun atl_change =>
  rbind (get2_or market_data "atl_date" vs_currency (VStr "")) (fun atl_date =>
    Ok (VDict [ ("symbol", VStr (PyStr.upper symbol));
                ("name", name);
                ("current_price", current_price);
                ("market_cap", market_cap);
                ("market_cap_rank", market_cap_rank);
                ("total_volume", total_volume);
                ("price_change_24h", change_24h);
                ("price_change_percentage_24h", pct_24h);
                ("price_change_percentage_7d", pct_7d);
                ("price_change_percentage_30d", pct_30d);
                ("circulating_supply", circulating);
                ("total_supply", total_supply);
                ("max_supply", max_supply);
                ("ath", ath);
                ("ath_change_percentage", ath_change);
                ("ath_date", ath_date);
                ("atl", atl);
                ("atl_change_percentage", atl_change);
                ("atl_date", atl_date) ]))))))))))))))))))).

Definition get_current_price (symbol vs_currency : string) : M Self pyval :=
  coin_id <- get_coin_id symbol ;;
  id <- lift (format coin_id "") ;;
  data <- _make_request [Lit "/coins/"; id] coin_params ;;
  absent <- lift (if negb (truthy data) then Ok true
                  else rbind (contains_key "market_data" data) (fun c => Ok (negb c))) ;;
  if (absent : bool) then ret (VDict []) else
  market_data <- lift (getitem data "market_data") ;;
  lift (price_data symbol vs_currency data market_data).

(** [v[:10] if v else 'N/A'] *)
Definition date_str (v : pyval) : Res pyval :=
  if truthy v then slice v 10 else Ok (VStr "N/A").

Definition market_overview (price_data : pyval) : Res text :=
  rbind (rbind (getitem price_data "max_supply") (fun max_supply =>
           if truthy max_supply
           then fld (getitem price_data "max_supply") ",.0f"
           else lit "Unlimited")) (fun max_supply_str =>
  rbind (rbind (getitem price_data "ath_date") date_str) (fun ath_date_str =>
  rbind (rbind (getitem price_data "atl_date") date_str) (fun atl_date_str =>
  fstring
    [ eol;
      lit "=== "; fld (getitem price_data "name") "";
      lit " ("; fld (getitem price_data "symbol") "";
      lit ") Market Data ==="; eol;
      eol;
      lit "Current Price: $"; fld (getitem price_data "current_price") ",.2f"; eol;
      lit "Market Cap: $"; fld (getitem price_data "market_cap") ",.0f";
      lit " (Rank #"; fld (getitem price_data "market_cap_rank") "";
      lit ")"; eol;
      lit "24h Volume: $"; fld (getitem price_data "total_volume") ",.0f"; eol;
      eol;
      lit "Price Changes:"; eol;
      lit "  24h: "; fld (getitem price_data "price_change_percentage_24h") "+.2f";
      lit "%"; eol;
      lit "  7d:  "; fld (getitem price_data "price_change_percentage_7d") "+.2f";
      lit "%"; eol;
      lit "  30d: "; fld (getitem price_data "price_change_percentage_30d") "+.2f";
      lit "%"; eol;
      eol;
      lit "Supply:"; eol;
      lit "  Circulating: "; fld (getitem price_data "circulating_supply") ",.0f"; eol;
      lit "  Total: "; fld (getitem price_data "total_supply") ",.0f"; eol;
      lit "  Max: "; Ok max_supply_str; eol;
      eol;
      lit "All-Time High: $"; fld (getitem price_data "ath") ",.2f";
      lit " ("; fld (getitem price_data "ath_change_percentage") "+.2f";
      lit "% from ATH)"; eol;
      lit "  Date: "; fld (Ok ath_date_str) ""; eol;
      eol;
      lit "All-Time Low: $"; fld (getitem price_data "atl") ",.2f";
      lit " ("; fld (getitem price_data "atl_change_percentage") "+.2f";
      lit "% from ATL)"; eol;
      lit "  Date: "; fld (Ok atl_date_str) ""; eol ]))).

(** [days] is not used by the method. *)
Definition get_market_data_summary (symbol : string) (days : Z) : M Self text :=
  price_data <- get_current_price symbol "usd" ;;
  if negb (truthy price_data) then
    ret (flatten [Lit "Could not fetch market data for "; Lit symbol])
  else
    summary <- lift (market_overview price_data) ;;
    ret (strip (flatten summary)).

(** The dict built from one item of the trending payload. *)
Definition trending_entry (item : pyval) : Res pyval :=
  rbind (get item "item" (VDict [])) (fun coin =>
  rbind (get coin "symbol" (VStr "")) (fun symbol =>
  rbind (get coin "name" (VStr "")) (fun name =>
  rbind (get coin "market_cap_rank" (VInt 0)) (fun rank =>
  rbind (get coin "price_btc" (VInt 0)) (fun price =>
    Ok (VDict [ ("symbol", symbol);
                ("name", name);
                ("market_cap_rank", rank);
                ("price_btc", price) ])))))).

Definition get_trending_coins (limit : Z) : M Self (list pyval) :=
  data <- _make_request (plain "/search/trending") [] ;;
  absent <- lift (if negb (truthy data) then Ok true
                  else rbind (contains_key "coins" data) (fun c => Ok (negb c))) ;;
  if (absent : bool) then ret [] else
  items <- lift (rbind (getitem data "coins") (fun v =>
                   rbind (slice v limit) iter)) ;;
  lift (traverse trending_entry items).

End Client.

(** The module's convenience functions build a client of their own at
    each call; [env] is [os.getenv("COINGECKO_API_KEY")]. *)
Section Convenience.
Variable w : World.
Variable env : option string.

Definition fresh {A} (m : M Self A) : M Self A :=
  fun st => m (mkState (init None env) (clock st) (trace st)).

Definition get_crypto_price_history (symbol : string) (days : Z) : M Self DataFrame :=
  fresh (get_price_history w symbol days "usd").

Definition get_crypto_current_price (symbol : string) : M Self pyval :=
  fresh (get_current_price w symbol "usd").

Definition get_crypto_market_summary (symbol : string) : M Self text :=
  fresh (get_market_data_summary w symbol 7).

End Convenience.

End CoinGecko.

(** ** [onchain_utils.py]: class [OnChainUtils] *)

Module OnChain.
Import Py Net.
Local Open Scope py_scope.

Record Self : Type := mkSelf {
  cryptocompare_key : option string;
  etherscan_key : option string;
  glassnode_key : option string;
  last_request_time : gmap string Q;
  rate_limit_delay : Q
}.

Definition or_env (key env : option string) : option string :=
  if configured key then key else env.

(** [__init__]: the [env_*] are the three [os.getenv] readings. *)
Definition init (cc es gn env_cc env_es env_gn : option string) : Self :=
  {| cryptocompare_key := or_env cc env_cc;
     etherscan_key := or_env es env_es;
     glassnode_key := or_env gn env_gn;
     last_request_time := ∅;
     rate_limit_delay := 1 |}.

Definition set_last (api_name : string) (t : Q) (me : Self) : Self :=
  {| cryptocompare_key := cryptocompare_key me;
     etherscan_key := etherscan_key me;
     glassnode_key := glassnode_key me;
     last_request_time := <[api_name := t]> (last_request_time me);
     rate_limit_delay := rate_limit_delay me |}.

Definition _rate_limit (api_name : string) : M Self unit :=
  current_time <- time_time ;;
  me <- get_self ;;
  let last_time := default 0%Q (last_request_time me !! api_name) in
  let time_since_last := (current_time - last_time)%Q in
  (if Qlt_le_dec time_since_last (rate_limit_delay me)
   then time_sleep (rate_limit_delay me - time_since_last)%Q
   else ret tt) ;;;
  now <- time_time ;;
  set_self (set_last api_name now me).

(** Python's [a if c else b] over three congestion levels. *)
Definition congestion (n high low : Z) : pyval :=
  VStr (if high <? n then "High" else if n <? low then "Low" else "Medium").

Definition mappings : gmap string Z :=
  list_to_map
    [ ("BTC", 1182); ("ETH", 7605); ("SOL", 699785);
      ("MATIC", 321992); ("AVAX", 893373) ].

Definition _get_cryptocompare_coin_id (symbol : string) : Z :=
  default 0 (mappings !! PyStr.upper symbol).

(** [datetime.fromtimestamp(v)]: the instant is kept as its number of
    seconds; only the rejection of values that are not numbers is
    represented, not that of numbers out of the range of the platform. *)
Definition fromtimestamp (v : pyval) : Res pyval :=
  match as_number v with
  | Some _ => Ok v
  | None => Raise TypeError
  end.

(** [a >= b] on numbers *)
Definition ge (v : pyval) (b : Q) : Res bool :=
  match as_number v with
  | Some a => Ok (Qle_bool b a)
  | None => Raise TypeError
  end.

(** [a * b] on numbers (the repetition of a sequence by an [int] is
    not represented) *)
Definition mul (a b : pyval) : Res pyval :=
  match as_number a, as_number b with
  | Some x, Some y => Ok (VFloat (x * y))
  | _, _ => Raise TypeError
  end.

Section Client.
Variable w : World.

Definition _make_request (url : string) (params : list (string * pyval))
           (api_name : string) : M Self pyval :=
  _rate_limit api_name ;;;
  try_except (fetch_json w (mkRequest (plain url) params []))
             only_request_exception
             (fun _ => ret (VDict [])).

(** *** Bitcoin *)

Definition get_bitcoin_network_stats : M Self pyval :=
  data <- _make_request "https://blockchain.info/stats?format=json" []
                        "blockchain.com" ;;
  if negb (truthy data) then ret (VDict []) else
  let field k := lift (get data k (VInt 0)) in
  let scaled k := lift (rbind (get data k (VInt 0)) (fun v => div v 100000000)) in
  price <- field "market_price_usd" ;;
  hash_rate <- field "hash_rate" ;;
  difficulty <- field "difficulty" ;;
  sent <- scaled "total_btc_sent" ;;
  n_tx <- field "n_tx" ;;
  n_blocks <- field "n_blocks_total" ;;
  minutes <- field "minutes_between_blocks" ;;
  totalbc <- scaled "totalbc" ;;
  volume <- field "estimated_transaction_volume_usd" ;;
  blocks_size <- field "blocks_size" ;;
  revenue <- field "miners_revenue_usd" ;;
  stamp <- field "timestamp" ;;
  ret (VDict [ ("market_price_usd", price);
               ("hash_rate", hash_rate);
               ("difficulty", difficulty);
               ("total_btc_sent", sent);
               ("n_transactions", n_tx);
               ("n_blocks_total", n_blocks);
               ("minutes_between_blocks", minutes);
               ("totalbc", totalbc);
               ("estimated_transaction_volume_usd", volume);
               ("blocks_size", blocks_size);
               ("miners_revenue_usd", revenue);
               ("timestamp", stamp) ]).

Definition MEMPOOL_URL : string := "https://blockchain.info/q/unconfirmedcount".

Definition get_bitcoin_mempool_info : M Self pyval :=
  try_except
    (body <- fetch_text w (mkRequest (plain MEMPOOL_URL) [] []) ;;
     unconfirmed_count <- lift (int (VStr body)) ;;
     ret (VDict [ ("unconfirmed_transactions", VInt unconfirmed_count);
                  ("mempool_size_mb",
                   VFloat (inject_Z unconfirmed_count * (5 # 10000)));
                  ("congestion_level",
                   congestion unconfirmed_count 10000 2000) ]))
    any_exception
    (fun _ => ret (VDict [])).

(** [tx.get("out", [{}])[0].get("value", 0) / 1e8 if tx.get("out") else 0] *)
Definition first_output_btc (tx : pyval) : Res pyval :=
  rbind (get tx "out" VNone) (fun out =>
    if truthy out then
      rbind (get tx "out" (VList [VDict []])) (fun outs =>
        rbind (getitem0 outs) (fun first =>
          rbind (get first "value" (VInt 0)) (fun v => div v 100000000)))
    else Ok (VInt 0)).

Definition get_bitcoin_large_transactions (min_value_btc : Q)
  : M Self (list pyval) :=
  data <- _make_request
            "https://blockchain.info/unconfirmed-transactions?format=json" []
            "blockchain.com" ;;
  absent <- lift (if negb (truthy data) then Ok true
                  else rbind (contains_key "txs" data) (fun c => Ok (negb c))) ;;
  if (absent : bool) then ret [] else
  txs <- lift (rbind (get data "txs" (VList [])) (fun v =>
                 rbind (slice v 20) iter)) ;;
  for_append txs [] (fun tx =>
    value_btc <- lift (first_output_btc tx) ;;
    large <- lift (ge value_btc min_value_btc) ;;
    if (large : bool) then
      hash <- lift (get tx "hash" (VStr "")) ;;
      stats <- get_bitcoin_network_stats ;;
      value_usd <- lift (rbind (get stats "market_price_usd" (VInt 0))
                               (mul value_btc)) ;;
      time <- lift (rbind (get tx "time" (VInt 0)) fromtimestamp) ;;
      size <- lift (get tx "size" (VInt 0)) ;;
      ret [VDict [ ("hash", hash);
                   ("value_btc", value_btc);
                   ("value_usd", value_usd);
                   ("time", time);
                   ("size", size) ]]
    else ret []).

(** *** Ethereum *)

Definition ETHERSCAN_URL : string := "https://api.etherscan.io/api".

Definition key_required (what : string) : pyval :=
  VDict [("error", VStr (what +:+ " API key required"))].

Definition key_text (key : option string) : string :=
  match key with Some k => k | None => "" end.

(** [not data or data.get("status") != "1"] *)
Definition not_status_1 (data : pyval) : Res bool :=
  if negb (truthy data) then Ok true
  else rbind (get data "status" VNone) (fun s => Ok (negb (is_str s "1"))).

Definition get_ethereum_gas_stats : M Self pyval :=
  me <- get_self ;;
  if negb (configured (etherscan_key me)) then ret (key_required "Etherscan") else
  data <- _make_request ETHERSCAN_URL
            [ ("module", VStr "gastracker");
              ("action", VStr "gasoracle");
              ("apikey", VStr (key_text (etherscan_key me))) ]
            "etherscan" ;;
  failed <- lift (not_status_1 data) ;;
  if (failed : bool) then ret (VDict []) else
  result <- lift (get data "result" (VDict [])) ;;
  safe <- lift (rbind (get result "SafeGasPrice" (VInt 0)) int) ;;
  propose <- lift (rbind (get result "ProposeGasPrice" (VInt 0)) int) ;;
  fast <- lift (rbind (get result "FastGasPrice" (VInt 0)) int) ;;
  base_fee <- lift (rbind (get result "suggestBaseFee" (VInt 0)) float) ;;
  ratio <- lift (get result "gasUsedRatio" (VStr "")) ;;
  fast' <- lift (rbind (get result "FastGasPrice" (VInt 0)) int) ;;
  ret (VDict [ ("safe_gas_price", VInt safe);
               ("propose_gas_price", VInt propose);
               ("fast_gas_price", VInt fast);
               ("suggested_base_fee", VFloat base_fee);
               ("gas_used_ratio", ratio);
               ("network_congestion", congestion fast' 50 20) ]).

Definition get_ethereum_supply_stats : M Self pyval :=
  me <- get_self ;;
  if negb (configured (etherscan_key me)) then ret (key_required "Etherscan") else
  let params action :=
    [ ("module", VStr "stats");
      ("action", VStr action);
      ("apikey", VStr (key_text (etherscan_key me))) ] in
  data <- _make_request ETHERSCAN_URL (params "ethsupply") "etherscan" ;;
  failed <- lift (not_status_1 data) ;;
  if (failed : bool) then ret (VDict []) else
  wei <- lift (rbind (get data "result" (VInt 0)) int) ;;
  let total_supply := VFloat (inject_Z wei / inject_Z (10 ^ 18)) in
  data2 <- _make_request ETHERSCAN_URL (params "ethsupply2") "etherscan" ;;
  status2 <- lift (get data2 "status" VNone) ;;
  staking <- (if is_str status2 "1"
              then lift (get data2 "result" (VDict []))
              else ret (VDict [])) ;;
  ret (VDict [ ("total_supply_eth", total_supply);
               ("eth2_staking", staking) ]).

(** *** Multi-chain provider *)

Definition cc_headers (me : Self) : list (string * string) :=
  [("authorization", "Apikey " +:+ key_text (cryptocompare_key me))].

(** [data.get("Response") == "Success" and "Data" in data] *)
Definition is_success (data : pyval) : Res bool :=
  rbind (get data "Response" VNone) (fun r =>
    if is_str r "Success" then contains_key "Data" data else Ok false).

Definition get_on_chain_summary (symbol : string) : M Self pyval :=
  me <- get_self ;;
  if negb (configured (cryptocompare_key me)) then
    ret (key_required "CryptoCompare")
  else
    let url := "https://min-api.cryptocompare.com/data/blockchain/latest" in
    let params := [("fsym", VStr (PyStr.upper symbol))] in
    _rate_limit "cryptocompare" ;;;
    try_except
      (data <- fetch_json w (mkRequest (plain url) params (cc_headers me)) ;;
       success <- lift (is_success data) ;;
       if (success : bool) then lift (getitem data "Data") else ret (VDict []))
      any_exception
      (fun _ => ret (VDict [])).

Definition get_social_stats (symbol : string) : M Self pyval :=
  me <- get_self ;;
  if negb (configured (cryptocompare_key me)) then
    ret (key_required "CryptoCompare")
  else
    let url := "https://min-api.cryptocompare.com/data/social/coin/latest" in
    let params := [("coinId", VInt (_get_cryptocompare_coin_id symbol))] in
    _rate_limit "cryptocompare" ;;;
    try_except
      (data <- fetch_json w (mkRequest (plain url) params (cc_headers me)) ;;
       success <- lift (is_success data) ;;
       if (success : bool) then
         social_data <- lift (getitem data "Data") ;;
         let stat site k :=
           lift (rbind (get social_data site (VDict [])) (fun d => get d k (VInt 0))) in
         subscribers <- stat "Reddit" "subscribers" ;;
         active <- stat "Reddit" "active_users" ;;
         posts <- stat "Reddit" "posts_per_day" ;;
         followers <- stat "Twitter" "followers" ;;
         statuses <- stat "Twitter" "statuses" ;;
         ret (VDict [ ("reddit_subscribers", subscribers);
                      ("reddit_active_users", active);
                      ("reddit_posts_per_day", posts);
                      ("twitter_followers", followers);
                      ("twitter_statuses", statuses) ])
       else ret (VDict []))
      any_exception
      (fun _ => ret (VDict [])).

(** *** Formatted summaries *)

(** One line of the whale list, [i] counting from 1. *)
Definition whale_line (i : Z) (tx : pyval) : Res text :=
  fstring
    [ eol; lit "  "; fld (Ok (VInt i)) ""; lit "."; lit " ";
      fld (getitem tx "value_btc") ".2f"; lit " BTC ($";
      fld (getitem tx "value_usd") ",.0f"; lit ")" ].

Fixpoint whale_lines (i : Z) (txs : list pyval) : Res text :=
  match txs with
  | [] => Ok []
  | tx :: txs' =>
      rbind (whale_line i tx) (fun l =>
        rbind (whale_lines (i + 1) txs') (fun ls => Ok (l ++ ls)))
  end.

Definition bitcoin_metrics (network_stats mempool_info : pyval) : Res text :=
  fstring
    [ eol;
      lit "=== Bitcoin On-Chain Metrics ==="; eol;
      eol;
      lit "Network Health:"; eol;
      lit "  Hash Rate: ";
      fld (rbind (getitem network_stats "hash_rate")
                 (fun v => div v 1000000000)) ".2f";
      lit " EH/s"; eol;
      lit "  Difficulty: "; fld (getitem network_stats "difficulty") ",.0f"; eol;
      lit "  Avg Block Time: ";
      fld (getitem network_stats "minutes_between_blocks") ".1f";
      lit " minutes"; eol;
      lit "  Total BTC Mined: "; fld (getitem network_stats "totalbc") ",.2f";
      lit " BTC"; eol;
      eol;
      lit "Transaction Activity (24h):"; eol;
      lit "  Total Transactions: ";
      fld (getitem network_stats "n_transactions") ","; eol;
      lit "  Volume: $";
      fld (getitem network_stats "estimated_transaction_volume_usd") ",.0f"; eol;
      lit "  Miner Revenue: $";
      fld (getitem network_stats "miners_revenue_usd") ",.0f"; eol;
      eol;
      lit "Mempool Status:"; eol;
      lit "  Unconfirmed Transactions: ";
      fld (get mempool_info "unconfirmed_transactions" (VStr "N/A")) ","; eol;
      lit "  Network Congestion: ";
      fld (get mempool_info "congestion_level" (VStr "Unknown")) ""; eol;
      eol;
      lit "Whale Activity (Recent Large Transactions):"; eol ].

Definition get_bitcoin_onchain_summary : M Self text :=
  network_stats <- get_bitcoin_network_stats ;;
  mempool_info <- get_bitcoin_mempool_info ;;
  large_txs <- get_bitcoin_large_transactions 50 ;;
  if negb (truthy network_stats) then
    ret (plain "Could not fetch Bitcoin on-chain data")
  else
    summary <- lift (bitcoin_metrics network_stats mempool_info) ;;
    whales <- lift (match large_txs with
                    | [] => fstring [eol; lit "  No large transactions detected recently"]
                    | _ => whale_lines 1 (slice_to 5 large_txs)
                    end) ;;
    ret (strip (flatten (summary ++ whales))).

Definition ethereum_metrics (gas_stats supply_stats : pyval) : Res text :=
  fstring
    [ eol;
      lit "=== Ethereum On-Chain Metrics ==="; eol;
      eol;
      lit "Network Activity:"; eol;
      lit "  Gas Prices (Gwei):"; eol;
      lit "    Safe: "; fld (getitem gas_stats "safe_gas_price") ""; eol;
      lit "    Standard: "; fld (getitem gas_stats "propose_gas_price") ""; eol;
      lit "    Fast: "; fld (getitem gas_stats "fast_gas_price") ""; eol;
      lit "  Base Fee: "; fld (getitem gas_stats "suggested_base_fee") ".2f";
      lit " Gwei"; eol;
      lit "  Network Congestion: ";
      fld (getitem gas_stats "network_congestion") ""; eol;
      eol;
      lit "Supply Metrics:"; eol;
      lit "  Total Supply: ";
      fld (get supply_stats "total_supply_eth" (VInt 0)) ",.0f";
      lit " ETH"; eol ].

Definition get_ethereum_onchain_summary : M Self text :=
  gas_stats <- get_ethereum_gas_stats ;;
  supply_stats <- get_ethereum_supply_stats ;;
  unavailable <- lift (contains_key "error" gas_stats) ;;
  if (unavailable : bool) then
    ret (plain "Etherscan API key required for Ethereum on-chain data")
  else
    summary <- lift (ethereum_metrics gas_stats supply_stats) ;;
    ret (strip (flatten summary)).

Definition social_activity (social_data : pyval) : Res text :=
  fstring
    [ eol;
      lit "Social Activity:"; eol;
      lit "  Reddit Subscribers: ";
      fld (get social_data "reddit_subscribers" (VInt 0)) ","; eol;
      lit "  Reddit Active Users: ";
      fld (get social_data "reddit_active_users" (VInt 0)) ","; eol;
      lit "  Twitter Followers: ";
      fld (get social_data "twitter_followers" (VInt 0)) ","; eol ].

Definition get_general_onchain_summary (symbol : string) : M Self text :=
  if String.eqb (PyStr.upper symbol) "BTC" then get_bitcoin_onchain_summary
  else if String.eqb (PyStr.upper symbol) "ETH" then get_ethereum_onchain_summary
  else
    onchain_data <- get_on_chain_summary symbol ;;
    social_data <- get_social_stats symbol ;;
    if negb (truthy onchain_data) && negb (truthy social_data) then
      ret (flatten [Lit "Limited on-chain data available for "; Lit symbol])
    else
      let header :=
        [ Lit "=== "; Lit (PyStr.upper symbol);
          Lit " On-Chain & Social Metrics ==="; Lit nl ] in
      activity <- (if truthy social_data
                   then lift (social_activity social_data)
                   else ret []) ;;
      ret (strip (flatten (header ++ activity))).

End Client.

End OnChain.

(** ** [cryptonews_utils.py]: class [CryptoNewsUtils] *)

Module CryptoNews.
Import Py Net.
Local Open Scope py_scope.

Record Self : Type := mkSelf {
  cryptopanic_key : option string;
  last_request_time : gmap string Q;
  rate_limit_delay : Q
}.

(** [__init__]: [env] is [os.getenv("CRYPTOPANIC_API_KEY")]. *)
Definition init (key env : option string) : Self :=
  {| cryptopanic_key := if configured key then key else env;
     last_request_time := ∅;
     rate_limit_delay := 1 |}.

Definition set_last (source : string) (t : Q) (me : Self) : Self :=
  {| cryptopanic_key := cryptopanic_key me;
     last_request_time := <[source := t]> (last_request_time me);
     rate_limit_delay := rate_limit_delay me |}.

Definition _rate_limit (source : string) : M Self unit :=
  current_time <- time_time ;;
  me <- get_self ;;
  let last_time := default 0%Q (last_request_time me !! source) in
  let time_since_last := (current_time - last_time)%Q in
  (if Qlt_le_dec time_since_last (rate_limit_delay me)
   then time_sleep (rate_limit_delay me - time_since_last)%Q
   else ret tt) ;;;
  now <- time_time ;;
  set_self (set_last source now me).

(** The article dict.  Its text entries are text: a payload that puts
    another kind of value there is outside this data model.  [summary]
    is absent from aggregator articles, the last four entries from
    feed articles. *)
Record Article : Type := mkArticle {
  title : string;
  url : string;
  source : string;
  published_at : string;
  summary : option string;
  domain : option string;
  votes : option (pyval * pyval * pyval);
  kind : option string;
  currencies : option (list pyval)
}.

Definition text_of (v : pyval) : string :=
  match v with VStr s => s | _ => "" end.

Definition or_empty (o : option string) : string := default "" o.

(** The dict built from one feed entry. *)
Definition of_entry (source_name : string) (entry : Entry) : Article :=
  {| title := or_empty (e_title entry);
     url := or_empty (e_link entry);
     source := source_name;
     published_at := or_empty (e_published entry);
     summary := Some (or_empty (e_summary entry));
     domain := None; votes := None; kind := None; currencies := None |}.

(** Python's order on text, by code point. *)
Definition str_le (a b : string) : bool := String.leb a b.

(** [list.sort(key=published_at, reverse=True)]: descending and
    stable, so articles with one key keep their order. *)
Fixpoint insert_desc (a : Article) (sorted : list Article) : list Article :=
  match sorted with
  | [] => [a]
  | b :: rest =>
      if str_le (published_at b) (published_at a) then a :: sorted
      else b :: insert_desc a rest
  end.

Fixpoint sort_desc (l : list Article) : list Article :=
  match l with
  | [] => []
  | a :: l' => insert_desc a (sort_desc l')
  end.

Definition regulatory_keywords : list string :=
  [ "sec"; "regulation"; "regulatory"; "ban"; "legal"; "lawsuit";
    "compliance"; "government"; "legislation"; "policy"; "etf";
    "securities"; "cftc"; "congress"; "senate"; "court" ].

Definition is_regulatory (article : Article) : bool :=
  let title_lower := PyStr.lower (title article) in
  let summary_lower := PyStr.lower (or_empty (summary article)) in
  existsb (fun keyword =>
             PyStr.contains keyword title_lower
             || PyStr.contains keyword summary_lower)
          regulatory_keywords.

(** The filtering loop of [get_regulatory_news]. *)
Definition regulatory_filter (all_news : list Article) : list Article :=
  List.filter is_regulatory all_news.

Section Client.
Variable w : World.

Definition _make_request (url : string) (params : list (string * pyval))
           (source : string) : M Self pyval :=
  _rate_limit source ;;;
  try_except (fetch_json w (mkRequest (plain url) params []))
             only_request_exception
             (fun _ => ret (VDict [])).

Definition key_text (key : option string) : string := default "" key.

(** The dict built from one aggregator post. *)
Definition of_post (item : pyval) : Res Article :=
  let vote k := rbind (get item "votes" (VDict [])) (fun v => get v k (VInt 0)) in
  rbind (get item "title" (VStr "")) (fun title =>
  rbind (get item "url" (VStr "")) (fun url =>
  rbind (rbind (get item "source" (VDict [])) (fun s => get s "title" (VStr "")))
        (fun source =>
  rbind (get item "published_at" (VStr "")) (fun published_at =>
  rbind (get item "domain" (VStr "")) (fun domain =>
  rbind (vote "positive") (fun positive =>
  rbind (vote "negative") (fun negative =>
  rbind (vote "important") (fun important =>
  rbind (get item "kind" (VStr "")) (fun kind =>
  rbind (rbind (get item "currencies" (VList [])) iter) (fun cs =>
  rbind (traverse (fun c => getitem c "code") cs) (fun codes =>
    Ok {| title := text_of title;
          url := text_of url;
          source := text_of source;
          published_at := text_of published_at;
          summary := None;
          domain := Some (text_of domain);
          votes := Some (positive, negative, important);
          kind := Some (text_of kind);
          currencies := Some codes |}))))))))))).

Definition get_cryptopanic_news (symbol : option string) (filter_type : string)
           (limit : Z) : M Self (list Article) :=
  me <- get_self ;;
  if negb (configured (cryptopanic_key me)) then ret [] else
  let params :=
    [ ("auth_token", VStr (key_text (cryptopanic_key me)));
      ("filter", VStr filter_type);
      ("public", VStr "true") ]
    ++ (if configured symbol
        then [("currencies", VStr (PyStr.upper (key_text symbol)))]
        else []) in
  data <- _make_request "https://cryptopanic.com/api/v1/posts/" params
                        "cryptopanic" ;;
  absent <- lift (if negb (truthy data) then Ok true
                  else rbind (contains_key "results" data) (fun c => Ok (negb c))) ;;
  if (absent : bool) then ret [] else
  items <- lift (rbind (getitem data "results") (fun v =>
                   rbind (slice v limit) iter)) ;;
  lift (traverse of_post items).

(** The five feed readers differ in their tag, URL and source name. *)
Definition read_feed (tag url source_name : string) (limit : Z)
  : M Self (list Article) :=
  try_except
    (_rate_limit tag ;;;
     entries <- fetch_feed w url ;;
     ret (map (of_entry source_name) (slice_to limit entries)))
    any_exception
    (fun _ => ret []).

Definition get_cointelegraph_news (limit : Z) : M Self (list Article) :=
  read_feed "cointelegraph" "https://cointelegraph.com/rss" "CoinTelegraph" limit.

Definition get_decrypt_news (limit : Z) : M Self (list Article) :=
  read_feed "decrypt" "https://decrypt.co/feed" "Decrypt" limit.

Definition get_coindesk_news (limit : Z) : M Self (list Article) :=
  read_feed "coindesk" "https://www.coindesk.com/arc/outboundfeeds/rss/"
            "CoinDesk" limit.

Definition get_theblock_news (limit : Z) : M Self (list Article) :=
  read_feed "theblock" "https://www.theblock.co/rss.xml" "The Block" limit.

Definition get_bitcoinmagazine_news (limit : Z) : M Self (list Article) :=
  read_feed "bitcoinmagazine" "https://bitcoinmagazine.com/.rss/full/"
            "Bitcoin Magazine" limit.

Definition is_btc (symbol : option string) : bool :=
  configured symbol && String.eqb (PyStr.upper (key_text symbol)) "BTC".

Definition get_all_crypto_news (symbol : option string) (hours : Z)
           (max_per_source : Z) : M Self (list Article) :=
  me <- get_self ;;
  cryptopanic_news <- (if configured (cryptopanic_key me)
                       then get_cryptopanic_news symbol "hot" max_per_source
                       else ret []) ;;
  cointelegraph <- get_cointelegraph_news max_per_source ;;
  decrypt <- get_decrypt_news max_per_source ;;
  coindesk <- get_coindesk_news max_per_source ;;
  theblock <- get_theblock_news max_per_source ;;
  bitcoinmagazine <- (if is_btc symbol
                      then get_bitcoinmagazine_news max_per_source
                      else ret []) ;;
  let all_news := cryptopanic_news ++ cointelegraph ++ decrypt
                  ++ coindesk ++ theblock ++ bitcoinmagazine in
  ret (sort_desc all_news).

Definition get_regulatory_news (hours : Z) : M Self (list Article) :=
  all_news <- get_all_crypto_news None hours 10 ;;
  ret (regulatory_filter all_news).

End Client.

End CryptoNews.

(** ** [crypto_interface.py]: the tools *)

Module Interface.
Import Py Net.
Local Open Scope py_scope.

(** [_coingecko], [_onchain], [_cryptonews]: the three clients of the
    module, built once at import and shared by every call of a tool. *)
Record Clients : Type := mkClients {
  _coingecko : CoinGecko.Self;
  _onchain : OnChain.Self;
  _cryptonews : CryptoNews.Self
}.

(** The module's import; the arguments are the [os.getenv] readings of
    the three constructors. *)
Definition init (env_cg env_cc env_es env_gn env_cp : option string) : Clients :=
  {| _coingecko := CoinGecko.init None env_cg;
     _onchain := OnChain.init None None None env_cc env_es env_gn;
     _cryptonews := CryptoNews.init None env_cp |}.

(** A method of one client, run on the shared clock and network. *)
Definition on_coingecko {A} (m : M CoinGecko.Self A) : M Clients A :=
  fun st =>
    let (r, st') := m (mkState (_coingecko (self st)) (clock st) (trace st)) in
    (r, mkState (mkClients (self st') (_onchain (self st)) (_cryptonews (self st)))
                (clock st') (trace st')).

Definition on_onchain {A} (m : M OnChain.Self A) : M Clients A :=
  fun st =>
    let (r, st') := m (mkState (_onchain (self st)) (clock st) (trace st)) in
    (r, mkState (mkClients (_coingecko (self st)) (self st') (_cryptonews (self st)))
                (clock st') (trace st')).

Definition on_cryptonews {A} (m : M CryptoNews.Self A) : M Clients A :=
  fun st =>
    let (r, st') := m (mkState (_cryptonews (self st)) (clock st) (trace st)) in
    (r, mkState (mkClients (_coingecko (self st)) (_onchain (self st)) (self st'))
                (clock st') (trace st')).

(** What a tool returns: the text of its body, or the error text
    [f"{prefix}{str(e)}"] for the exception [e] its body raised. *)
Inductive Reply : Type :=
| Said (t : text)
| Failed (prefix : string) (e : exn).

(** [try: return body  except Exception as e: return f"{prefix}{str(e)}"] *)
Definition tool (body : M Clients text) (prefix : string) : M Clients Reply :=
  try_except (t <- body ;; ret (Said t))
             any_exception
             (fun e => ret (Failed prefix e)).

Section Tools.
Variable w : World.

Definition get_global_crypto_market : M Clients Reply :=
  tool (on_coingecko (CoinGecko.get_global_market_summary w))
       "Error fetching global market data: ".

Definition fear_greed_text (fear_greed : pyval) : Res text :=
  fstring
    [ eol;
      lit "=== Crypto Fear & Greed Index ==="; eol;
      eol;
      lit "Current Value: "; fld (getitem fear_greed "value") ""; lit "/100"; eol;
      lit "Classification: ";
      fld (getitem fear_greed "value_classification") ""; eol;
      eol;
      lit "Interpretation:"; eol;
      lit "- This index measures market sentiment on a 0-100 scale"; eol;
      lit "- Current reading suggests: ";
      fld (getitem fear_greed "value_classification") "";
      lit " market conditions"; eol ].

Definition get_crypto_fear_greed_index : M Clients Reply :=
  tool (fear_greed <- on_coingecko (CoinGecko.get_fear_greed_index w) ;;
        t <- lift (fear_greed_text fear_greed) ;;
        ret (flatten t))
       "Error fetching Fear & Greed Index: ".

(** The three lines of one trending coin, [i] counting from 1. *)
Definition trending_line (i : Z) (coin : pyval) : Res text :=
  fstring
    [ fld (Ok (VInt i)) ""; lit ". "; fld (getitem coin "name") "";
      lit " ("; fld (getitem coin "symbol") ""; lit ")"; eol;
      lit "   Market Cap Rank: #"; fld (getitem coin "market_cap_rank") ""; eol;
      lit "   Price (BTC): "; fld (getitem coin "price_btc") ".8f";
      lit " BTC"; eol; eol ].

Fixpoint trending_lines (i : Z) (coins : list pyval) : Res text :=
  match coins with
  | [] => Ok []
  | coin :: coins' =>
      rbind (trending_line i coin) (fun l =>
        rbind (trending_lines (i + 1) coins') (fun ls => Ok (l ++ ls)))
  end.

Definition get_trending_cryptocurrencies (limit : Z) : M Clients Reply :=
  tool (trending <- on_coingecko (CoinGecko.get_trending_coins w limit) ;;
        match trending with
        | [] => ret (plain "No trending coins data available")
        | _ =>
            let header :=
              [ Lit "=== Top "; Fld "" (VInt (Z.of_nat (length trending)));
                Lit " Trending Cryptocurrencies ==="; Lit nl; Lit nl ] in
            lines <- lift (trending_lines 1 trending) ;;
            ret (flatten (header ++ lines))
        end)
       "Error fetching trending coins: ".

Definition get_bitcoin_onchain_metrics : M Clients Reply :=
  tool (on_onchain (OnChain.get_bitcoin_onchain_summary w))
       "Error fetching Bitcoin on-chain data: ".

Definition get_ethereum_onchain_metrics : M Clients Reply :=
  tool (on_onchain (OnChain.get_ethereum_onchain_summary w))
       "Error fetching Ethereum on-chain data: ".

Definition get_onchain_metrics (symbol : string) : M Clients Reply :=
  tool (on_onchain (OnChain.get_general_onchain_summary w symbol))
       ("Error fetching on-chain metrics for " +:+ symbol +:+ ": ").

(** The lines of one article of the regulatory list, [i] counting
    from 1. *)
Definition regulatory_entry (i : Z) (article : CryptoNews.Article) : text :=
  [ Fld "" (VInt i); Lit ". "; Lit (CryptoNews.title article); Lit nl;
    Lit "   Source: "; Lit (CryptoNews.source article) ]
  ++ (if negb (String.eqb (CryptoNews.published_at article) "")
      then [ Lit " | "; Lit (PyStr.take 16 (CryptoNews.published_at article)) ]
      else [])
  ++ [ Lit nl; Lit "   "; Lit (CryptoNews.url article); Lit nl; Lit nl ].

Fixpoint regulatory_entries (i : Z) (articles : list CryptoNews.Article) : text :=
  match articles with
  | [] => []
  | article :: articles' =>
      regulatory_entry i article ++ regulatory_entries (i + 1) articles'
  end.

Definition get_regulatory_news : M Clients Reply :=
  tool (reg_news <- on_cryptonews (CryptoNews.get_regulatory_news w 168) ;;
        match reg_news with
        | [] => ret (plain "No significant regulatory news in the past week")
        | _ =>
            let header :=
              [ Lit "=== Recent Regulatory News (Last 7 Days) ==="; Lit nl; Lit nl ] in
            ret (flatten (header ++ regulatory_entries 1 (slice_to 10 reg_news)))
        end)
       "Error fetching regulatory news: ".

End Tools.

End Interface.

(** ** [crypto_config.py] *)

Module Config.
Import Py.

(** A configuration dict, in insertion order. *)
Definition Dict : Type := list (string * pyval).

(** [d[k] = v] *)
Fixpoint set_item (k : string) (v : pyval) (d : Dict) : Dict :=
  match d with
  | [] => [(k, v)]
  | (k', v') :: d' =>
      if String.eqb k k' then (k', v) :: d' else (k', v') :: set_item k v d'
  end.

(** [d.update(u)] *)
Definition update (d u : Dict) : Dict :=
  fold_left (fun acc kv => set_item (fst kv) (snd kv) acc) u d.

(** [d.get(k)] and [d.get(k, default)] *)
Definition dict_get (d : Dict) (k : string) (default : pyval) : pyval :=
  match lookup k d with
  | Some v => v
  | None => default
  end.

(** [a == b] *)
Fixpoint py_eq (a b : pyval) {struct a} : bool :=
  match a, b with
  | VNone, VNone => true
  | VStr s, VStr t => String.eqb s t
  | VList l, VList m =>
      (fix all2 (l m : list pyval) {struct l} : bool :=
         match l, m with
         | [], [] => true
         | x :: l', y :: m' => py_eq x y && all2 l' m'
         | _, _ => false
         end) l m
  | VDict d, VDict e =>
      (length d =? length e)%nat
      && (fix all (d : list (string * pyval)) : bool :=
            match d with
            | [] => true
            | (k, v) :: d' =>
                match lookup k e with
                | Some v' => py_eq v v'
                | None => false
                end && all d'
            end) d
  | _, _ =>
      match as_number a, as_number b with
      | Some p, Some q => Qeq_bool p q
      | _, _ => false
      end
  end.

(** [x in container] *)
Definition py_in (x container : pyval) : Res bool :=
  match container with
  | VList l => Ok (existsb (py_eq x) l)
  | VStr s =>
      match x with
      | VStr k => Ok (PyStr.contains k s)
      | _ => Raise TypeError
      end
  | VDict d =>
      match x with
      | VStr k => Ok (match lookup k d with Some _ => true | None => false end)
      | VList _ | VDict _ => Raise TypeError
      | _ => Ok false
      end
  | _ => Raise TypeError
  end.

(** An [os.getenv] reading as a value. *)
Definition of_env (o : option string) : pyval :=
  match o with
  | Some s => VStr s
  | None => VNone
  end.

Definition tokens (l : list string) : pyval := VList (map VStr l).

Section Shipped.
(** [DEFAULT_CONFIG] of [default_config.py], and the environment. *)
Variable DEFAULT_CONFIG : Dict.
Variable getenv : string -> option string.

Definition CRYPTO_CONFIG : Dict :=
  update DEFAULT_CONFIG
    [ ("asset_type", VStr "crypto");
      ("supported_tokens",
       tokens [ "BTC"; "ETH"; "SOL"; "MATIC"; "AVAX"; "BNB"; "ADA"; "DOT";
                "LINK"; "UNI" ]);
      ("primary_tokens", tokens [ "BTC"; "ETH"; "SOL" ]);
      ("base_currency", VStr "USDT");
      ("exchanges", tokens [ "binance"; "kraken"; "coinbase" ]);
      ("primary_exchange", VStr "binance");
      ("use_onchain_data", VBool true);
      ("use_defi_metrics", VBool false);
      ("crypto_data_dir", VStr "./crypto_data_cache");
      ("trading_24_7", VBool true);
      ("preferred_analysis_hours", VNone);
      ("volatility_multiplier", VFloat (35 # 10));
      ("use_wider_stops", VBool true);
      ("selected_analysts", tokens [ "market"; "onchain"; "news"; "social" ]);
      ("coingecko_api_key", of_env (getenv "COINGECKO_API_KEY"));
      ("etherscan_api_key", of_env (getenv "ETHERSCAN_API_KEY"));
      ("glassnode_api_key", of_env (getenv "GLASSNODE_API_KEY"));
      ("cryptocompare_api_key", of_env (getenv "CRYPTOCOMPARE_API_KEY"));
      ("cryptopanic_api_key", of_env (getenv "CRYPTOPANIC_API_KEY"));
      ("twitter_bearer_token", of_env (getenv "TWITTER_BEARER_TOKEN"));
      ("use_fear_greed_index", VBool true);
      ("monitor_whale_movements", VBool true);
      ("track_exchange_flows", VBool true);
      ("monitor_funding_rates", VBool false);
      ("max_position_size", VFloat (15 # 100));
      ("max_total_crypto_exposure", VFloat (80 # 100));
      ("min_liquidity_24h", VInt 10000000);
      ("max_debate_rounds", VInt 2);
      ("max_risk_discuss_rounds", VInt 2);
      ("memory_enabled", VBool true);
      ("learn_from_crypto_cycles", VBool true);
      ("track_halving_events", VBool true);
      ("monitor_eth_upgrades", VBool true);
      ("prefer_onchain_over_fundamentals", VBool true);
      ("weight_social_sentiment_higher", VBool true);
      ("consider_network_effects", VBool true);
      ("default_analysis_period_days", VInt 30);
      ("news_lookback_hours", VInt 48);
      ("onchain_metrics_window", VInt 7) ].

Definition get_crypto_analysts : Res pyval :=
  getitem (VDict CRYPTO_CONFIG) "selected_analysts".

(** [config or CRYPTO_CONFIG]: no config and the empty config both
    give way to the shipped one. *)
Definition is_crypto_mode (config : option Dict) : bool :=
  let cfg := match config with
             | Some (_ :: _ as c) => c
             | _ => CRYPTO_CONFIG
             end in
  is_str (dict_get cfg "asset_type" VNone) "crypto".

End Shipped.

(** The loop over the primary tokens: the first one that is not among
    the supported ones, if any. *)
Fixpoint first_missing (primary : list pyval) (supported : pyval)
  : Res (option pyval) :=
  match primary with
  | [] => Ok None
  | token :: rest =>
      rbind (py_in token supported) (fun present =>
        if (present : bool) then first_missing rest supported
        else Ok (Some token))
  end.

(** The verdict, its message, and the warnings printed on the way. *)
Record Verdict : Type := mkVerdict {
  is_valid : bool;
  message : text;
  warnings : list string
}.

Definition validate_crypto_config (config : Dict) : Res Verdict :=
  if negb (is_str (dict_get config "asset_type" VNone) "crypto") then
    Ok (mkVerdict false (plain "asset_type must be 'crypto'") [])
  else if negb (truthy (dict_get config "supported_tokens" VNone)) then
    Ok (mkVerdict false (plain "supported_tokens list is empty") [])
  else if negb (truthy (dict_get config "primary_tokens" VNone)) then
    Ok (mkVerdict false (plain "primary_tokens list is empty") [])
  else
    rbind (iter (dict_get config "primary_tokens" (VList []))) (fun primary =>
    rbind (first_missing primary (dict_get config "supported_tokens" (VList [])))
          (fun missing =>
      match missing with
      | Some token =>
          rbind (fstring [ lit "Primary token "; fld (Ok token) "";
                           lit " not in supported_tokens list" ])
                (fun t => Ok (mkVerdict false t []))
      | None =>
          Ok (mkVerdict true (plain "Configuration valid")
                ((if negb (truthy (dict_get config "coingecko_api_key" VNone))
                  then ["CoinGecko API key not set (using free tier)"] else [])
                 ++ (if negb (truthy (dict_get config "etherscan_api_key" VNone))
                     then ["Etherscan API key not set (Ethereum on-chain data limited)"]
                     else [])))
      end)).

End Config.

(** ** [agents/analysts]: the tools each analyst binds *)

Module Analysts.
Import Py.

(** The attributes of the toolkit the four analysts read. *)
Inductive Tool : Type :=
| get_crypto_price_data
| get_global_crypto_market
| get_crypto_fear_greed_index
| get_trending_cryptocurrencies
| get_bitcoin_onchain_metrics
| get_ethereum_onchain_metrics
| get_onchain_metrics
| get_crypto_news
| get_regulatory_news
| get_crypto_full_analysis
| get_YFin_data_online
| get_stockstats_indicators_report_online
| get_YFin_data
| get_stockstats_indicators_report
| get_global_news_openai
| get_google_news
| get_finnhub_news
| get_reddit_news
| get_stock_news_openai
| get_reddit_stock_info.

(** The registries of [crypto_interface.py]. *)
Definition CRYPTO_TOOLS : list Tool :=
  [ get_crypto_price_data; get_global_crypto_market; get_crypto_fear_greed_index;
    get_trending_cryptocurrencies; get_bitcoin_onchain_metrics;
    get_ethereum_onchain_metrics; get_onchain_metrics; get_crypto_news;
    get_regulatory_news; get_crypto_full_analysis ].

Definition MARKET_DATA_TOOLS : list Tool :=
  [ get_crypto_price_data; get_global_crypto_market; get_crypto_fear_greed_index;
    get_trending_cryptocurrencies ].

Definition ONCHAIN_TOOLS : list Tool :=
  [ get_bitcoin_onchain_metrics; get_ethereum_onchain_metrics; get_onchain_metrics ].

Definition NEWS_TOOLS : list Tool := [ get_crypto_news; get_regulatory_news ].

Definition ANALYSIS_TOOLS : list Tool := [ get_crypto_full_analysis ].

(** [toolkit.config.get("asset_type") == "crypto"] *)
Definition is_crypto (config : Config.Dict) : bool :=
  is_str (Config.dict_get config "asset_type" VNone) "crypto".

(** [toolkit.config["online_tools"]], read for its truth value *)
Definition online_tools (config : Config.Dict) : Res bool :=
  rbind (getitem (VDict config) "online_tools") (fun v => Ok (truthy v)).

Definition market_tools (config : Config.Dict) : Res (list Tool) :=
  if is_crypto config then
    Ok [ get_crypto_price_data; get_global_crypto_market; get_crypto_fear_greed_index ]
  else
    rbind (online_tools config) (fun online =>
      if (online : bool)
      then Ok [ get_YFin_data_online; get_stockstats_indicators_report_online ]
      else Ok [ get_YFin_data; get_stockstats_indicators_report ]).

Definition news_tools (config : Config.Dict) : Res (list Tool) :=
  if is_crypto config then Ok [ get_crypto_news; get_regulatory_news ]
  else
    rbind (online_tools config) (fun online =>
      if (online : bool)
      then Ok [ get_global_news_openai; get_google_news ]
      else Ok [ get_finnhub_news; get_reddit_news; get_google_news ]).

Definition social_tools (config : Config.Dict) : Res (list Tool) :=
  if is_crypto config then Ok [ get_trending_cryptocurrencies; get_crypto_news ]
  else
    rbind (online_tools config) (fun online =>
      if (online : bool)
      then Ok [ get_stock_news_openai ]
      else Ok [ get_reddit_stock_info ]).

(** The on-chain analyst selects by the symbol alone. *)
Definition onchain_tools (crypto_symbol : string) : list Tool :=
  if String.eqb (PyStr.upper crypto_symbol) "BTC" then
    [ get_bitcoin_onchain_metrics; get_crypto_price_data; get_global_crypto_market ]
  else if String.eqb (PyStr.upper crypto_symbol) "ETH" then
    [ get_ethereum_onchain_metrics; get_crypto_price_data; get_global_crypto_market ]
  else
    [ get_onchain_metrics; get_crypto_price_data; get_global_crypto_market ].

End Analysts.

(** * Vocabulary of the properties *)

Import Py Net.

(** The request [get_coin_id] sends for a ticker outside the table. *)
Definition search_request (me : CoinGecko.Self) (ticker : string) : Request :=
  mkRequest (plain "https://api.coingecko.com/api/v3/search")
            [("query", VStr (PyStr.upper ticker))]
            (CoinGecko.auth_headers me).

(** A search that found nothing: the request failed, or its payload is
    empty, or it is an object without matches. *)
Inductive no_match : option pyval -> Prop :=
| request_failed : no_match None
| empty_payload v : truthy v = false -> no_match (Some v)
| no_coins d : lookup "coins" d = None -> no_match (Some (VDict d))
| empty_coins d : lookup "coins" d = Some (VList []) -> no_match (Some (VDict d)).

(** The first match of a search payload and its identifier. *)
Definition first_match_id (payload : option pyval) (id : pyval) : Prop :=
  exists d first rest,
    payload = Some (VDict d)
    /\ lookup "coins" d = Some (VList (first :: rest))
    /\ getitem first "id" = Ok id.

(** What the upstream answered, as [_make_request] hands it on. *)
Definition answer (w : World) (r : Request) : pyval :=
  match http_json w r with
  | Some v => v
  | None => VDict []
  end.

(** The candle request [get_price_history] sends for the resolved
    identifier [id] and the horizon [horizon]. *)
Definition ohlc_request (me : CoinGecko.Self) (id : piece) (vs_currency : string)
           (horizon : Z) : Request :=
  mkRequest (flatten [Lit CoinGecko.BASE_URL; Lit "/coins/"; id; Lit "/ohlc"])
            [("vs_currency", VStr vs_currency); ("days", VInt horizon)]
            (CoinGecko.auth_headers me).

(** [word] occurs in [text] in some letter case. *)
Definition mentions (word text : string) : Prop :=
  exists pre mid post,
    text = pre +:+ mid +:+ post /\ PyStr.lower mid = PyStr.lower word.

(** The clock at which a call is let through, when the tag was last let
    through at [last] and the call arrives at [now]. *)
Definition let_through (last delay now : Q) : Q :=
  if Qlt_le_dec (now - last) delay then (now + (delay - (now - last)))%Q else now.



Definition global_request (me : CoinGecko.Self) : Request :=
  mkRequest (plain "https://api.coingecko.com/api/v3/global") []
            (CoinGecko.auth_headers me).

Definition sentiment_request : Request :=
  mkRequest (plain CoinGecko.FNG_URL) [] [].

(** The dict [get_global_market_data] builds from a payload. *)
Definition aggregates (active markets cap vol change btc eth : pyval) : pyval :=
  VDict [ ("active_cryptocurrencies", active);
          ("markets", markets);
          ("total_market_cap_usd", cap);
          ("total_volume_usd", vol);
          ("market_cap_change_percentage_24h", change);
          ("btc_dominance", btc);
          ("eth_dominance", eth) ].

Definition is_number (v : pyval) : bool :=
  match as_number v with Some _ => true | None => false end.

(** The overview, as returned: the market figures under their format
    specs, then the sentiment value and its classification. *)
Definition overview (active markets cap vol change btc eth : pyval)
           (value : Z) (classification : string) : text :=
  [ Lit ("=== Global Crypto Market Overview ===" +:+ nl +:+ nl
         +:+ "Total Market Cap: $");
    Fld ",.0f" cap;
    Lit (nl +:+ "24h Market Cap Change: ");
    Fld "+.2f" change;
    Lit ("%" +:+ nl +:+ "Total 24h Volume: $");
    Fld ",.0f" vol;
    Lit (nl +:+ nl +:+ "Market Dominance:" +:+ nl +:+ "  Bitcoin: ");
    Fld ".2f" btc;
    Lit ("%" +:+ nl +:+ "  Ethereum: ");
    Fld ".2f" eth;
    Lit ("%" +:+ nl +:+ nl +:+ "Active Cryptocurrencies: ");
    Fld "," active;
    Lit (nl +:+ "Active Markets: ");
    Fld "," markets;
    Lit (nl +:+ nl +:+ "Fear & Greed Index: ");
    Fld "" (VInt value);
    Lit ("/100 (" +:+ classification +:+ ")") ].




(** The number of sources an aggregation reads: the four feeds, the
    aggregator when its credential is configured, and the fifth feed for
    BTC. *)
Definition sources_queried (me : CryptoNews.Self) (symbol : option string) : Z :=
  4 + (if configured (CryptoNews.cryptopanic_key me) then 1 else 0)
    + (if CryptoNews.is_btc symbol then 1 else 0).

(** [a] may stand before [b] in the output of the sort: its timestamp,
    compared as text, is not below that of [b]. *)
Definition text_not_below (a b : CryptoNews.Article) : Prop :=
  CryptoNews.str_le (CryptoNews.published_at b) (CryptoNews.published_at a) = true.

(** The horizon as a function of [days], interval by interval. *)
Definition horizon_of (days : Z) : Z :=
  if days <=? 4 then 1
  else if days <=? 10 then 7
  else if days <=? 22 then 14
  else if days <=? 60 then 30
  else if days <=? 135 then 90
  else if days <=? 272 then 180
  else 365.

(** The volume request [get_price_history] sends after the candles. *)
Definition volume_request (me : CoinGecko.Self) (id : piece) (vs_currency : string)
           (days : Z) : Request :=
  mkRequest (flatten [Lit CoinGecko.BASE_URL; Lit "/coins/"; id; Lit "/market_chart"])
            [("vs_currency", VStr vs_currency); ("days", VInt (Z.min days 365))]
            (CoinGecko.auth_headers me).

(** No two volume points carry the same timestamp. *)
Definition distinct_timestamps (volume_df : list (Q * CoinGecko.cell)) : Prop :=
  ForallOrdPairs (fun a b => Qeq_bool (fst a) (fst b) = false) volume_df.

(** The volume a candle gets from a frame of volume points: that of the
    first point at its timestamp, NaN when there is none. *)
Definition volume_at (volume_df : list (Q * CoinGecko.cell)) (c : CoinGecko.Candle)
  : CoinGecko.cell :=
  match List.find (fun tv => Qeq_bool (fst tv) (CoinGecko.timestamp c)) volume_df with
  | Some tv => snd tv
  | None => CoinGecko.NaN
  end.

(** The state a price client is in once a request [r] has been let
    through at [t] and answered. *)
Definition after_coingecko (w : World) (t : Q) (r : Request)
           (st : State CoinGecko.Self) : State CoinGecko.Self :=
  mkState (CoinGecko.set_last t (self st))
          (t + seconds (latency w r))%Q
          (trace st ++ [mkDispatch t r]).

(** The state an on-chain client is in once a request [r] tagged [tag]
    has been let through at [t] and answered. *)
Definition after_onchain (w : World) (tag : string) (t : Q) (r : Request)
           (st : State OnChain.Self) : State OnChain.Self :=
  mkState (OnChain.set_last tag t (self st))
          (t + seconds (latency w r))%Q
          (trace st ++ [mkDispatch t r]).

Definition stats_request : Request :=
  mkRequest (plain "https://blockchain.info/stats?format=json") [] [].

Definition unconfirmed_request : Request :=
  mkRequest (plain "https://blockchain.info/unconfirmed-transactions?format=json")
            [] [].

Definition mempool_request : Request :=
  mkRequest (plain OnChain.MEMPOOL_URL) [] [].

(** The dict [get_bitcoin_mempool_info] builds for a count [n]. *)
Definition mempool_info (n : Z) (level : string) : pyval :=
  VDict [ ("unconfirmed_transactions", VInt n);
          ("mempool_size_mb", VFloat (inject_Z n * (5 # 10000)));
          ("congestion_level", VStr level) ].

(** The dict [get_ethereum_gas_stats] builds from an oracle answer. *)
Definition gas_stats (safe propose fast : Z) (fee : Q) (ratio : pyval) : pyval :=
  VDict [ ("safe_gas_price", VInt safe);
          ("propose_gas_price", VInt propose);
          ("fast_gas_price", VInt fast);
          ("suggested_base_fee", VFloat fee);
          ("gas_used_ratio", ratio);
          ("network_congestion", OnChain.congestion fast 50 20) ].

(** An entry of the whale list is at or above the threshold [min]. *)
Definition at_least (min : Q) (entry : pyval) : Prop :=
  rbind (getitem entry "value_btc") (fun v => OnChain.ge v min) = Ok true.

(** What one feed contributes to the aggregation: its first [limit]
    entries, nothing when the feed cannot be read. *)
Definition feed_articles (w : World) (address source_name : string) (limit : Z)
  : list CryptoNews.Article :=
  match feed_entries w address with
  | Some entries => map (CryptoNews.of_entry source_name) (slice_to limit entries)
  | None => []
  end.

(** The feeds the aggregation reads for [symbol], in the order it reads
    them: address and source name. *)
Definition feeds_read (symbol : option string) : list (string * string) :=
  [ ("https://cointelegraph.com/rss", "CoinTelegraph");
    ("https://decrypt.co/feed", "Decrypt");
    ("https://www.coindesk.com/arc/outboundfeeds/rss/", "CoinDesk");
    ("https://www.theblock.co/rss.xml", "The Block") ]
  ++ (if CryptoNews.is_btc symbol
      then [("https://bitcoinmagazine.com/.rss/full/", "Bitcoin Magazine")]
      else []).

Definition feed_request (address : string) : Request :=
  mkRequest (plain address) [] [].

(** The article mentions one of the regulatory keywords, in its title or
    in its summary. *)
Definition regulatory (article : CryptoNews.Article) : Prop :=
  exists keyword,
    In keyword CryptoNews.regulatory_keywords
    /\ (mentions keyword (CryptoNews.title article)
        \/ mentions keyword (CryptoNews.or_empty (CryptoNews.summary article))).

(** The request [get_trending_coins] sends. *)
Definition trending_request (me : CoinGecko.Self) : Request :=
  mkRequest (plain "https://api.coingecko.com/api/v3/search/trending") []
            (CoinGecko.auth_headers me).

(** [v] is a dict with exactly the keys [keys], in this order. *)
Definition has_keys (keys : list string) (v : pyval) : Prop :=
  exists d, v = VDict d /\ map fst d = keys.

Definition trending_keys : list string :=
  [ "symbol"; "name"; "market_cap_rank"; "price_btc" ].

Definition price_keys : list string :=
  [ "symbol"; "name"; "current_price"; "market_cap"; "market_cap_rank";
    "total_volume"; "price_change_24h"; "price_change_percentage_24h";
    "price_change_percentage_7d"; "price_change_percentage_30d";
    "circulating_supply"; "total_supply"; "max_supply"; "ath";
    "ath_change_percentage"; "ath_date"; "atl"; "atl_change_percentage";
    "atl_date" ].

(** No request to a JSON endpoint is answered. *)
Definition unreachable (w : World) : Prop :=
  forall r, http_json w r = None.

(** The text of the sentiment tool for an index [value] and a
    rendered [classification]. *)
Definition fear_greed_report (value : Z) (classification : piece) : text :=
  flatten
    [ Lit nl; Lit "=== Crypto Fear & Greed Index ==="; Lit nl; Lit nl;
      Lit "Current Value: "; Fld "" (VInt value); Lit "/100"; Lit nl;
      Lit "Classification: "; classification; Lit nl; Lit nl;
      Lit "Interpretation:"; Lit nl;
      Lit "- This index measures market sentiment on a 0-100 scale"; Lit nl;
      Lit "- Current reading suggests: "; classification;
      Lit " market conditions"; Lit nl ].

(** The first line of the trending tool for [n] coins. *)
Definition trending_header (n : Z) : text :=
  [ Lit "=== Top "; Fld "" (VInt n); Lit " Trending Cryptocurrencies ===";
    Lit nl; Lit nl ].

(** What the regulatory tool says when it has nothing to list. *)
Definition no_regulatory_news : text :=
  plain "No significant regulatory news in the past week".

(** The warnings of the validator, by the two credentials it looks
    at. *)
Definition key_warnings (coingecko etherscan : option string) : list string :=
  (if configured coingecko then []
   else ["CoinGecko API key not set (using free tier)"])
  ++ (if configured etherscan then []
      else ["Etherscan API key not set (Ethereum on-chain data limited)"]).

(** The message of the validator about a primary token [t]. *)
Definition missing_token (t : string) : text :=
  [ Lit "Primary token "; Lit t; Lit " not in supported_tokens list" ].

(** ** Scenarios: concrete upstreams and client states *)

Module Scenario.

Definition url_is (r : Request) (u : string) : bool :=
  match url r with
  | [Lit s] => String.eqb s u
  | _ => false
  end.

Definition has_param (r : Request) (k : string) (v : pyval) : bool :=
  match lookup k (params r), v with
  | Some (VStr a), VStr b => String.eqb a b
  | Some (VInt a), VInt b => Z.eqb a b
  | _, _ => false
  end.

Definition silent_text : Request -> option string := fun _ => None.
Definition no_feed : string -> option (list Entry) := fun _ => None.
Definition instant : Request -> N := fun _ => 0%N.

(** Every upstream is unreachable. *)
Definition w_down : World :=
  mkWorld (fun _ => None) silent_text no_feed instant.

(** A price client without key, at second 1000 of the clock. *)
Definition cg0 : State CoinGecko.Self :=
  mkState (CoinGecko.init None None) 1000 [].


(** An on-chain client without credentials, one with the gas-oracle
    credential, one with the multi-chain credential. *)
Definition oc0 : State OnChain.Self :=
  mkState (OnChain.init None None None None None None) 1000 [].

Definition oc_etherscan : State OnChain.Self :=
  mkState (OnChain.init None (Some "KEY") None None None None) 1000 [].


(** The network statistics answer; the mempool count and the
    unconfirmed transactions do not. *)
Definition w_mempool_down : World :=
  mkWorld
    (fun r =>
       if url_is r "https://blockchain.info/stats?format=json"
       then Some (VDict [ ("market_price_usd", VInt 60000);
                          ("hash_rate", VInt 500000000000);
                          ("difficulty", VInt 90000000000000);
                          ("n_tx", VInt 400000);
                          ("minutes_between_blocks", VInt 10);
                          ("totalbc", VInt 1970000000000000) ])
       else None)
    silent_text no_feed instant.

(** Two candles; the volume endpoint has a point for the first
    timestamp only. *)
Definition w_candles : World :=
  mkWorld
    (fun r =>
       if url_is r "https://api.coingecko.com/api/v3/coins/bitcoin/ohlc" then
         Some (VList [ VList [VInt 1000; VInt 10; VInt 12; VInt 9; VInt 11];
                       VList [VInt 2000; VInt 11; VInt 13; VInt 10; VInt 12] ])
       else if url_is r "https://api.coingecko.com/api/v3/coins/bitcoin/market_chart" then
         Some (VDict [("total_volumes",
                       VList [ VList [VInt 1000; VInt 500];
                               VList [VInt 1500; VInt 600] ])])
       else None)
    silent_text no_feed instant.

Definition candle_1000 : CoinGecko.Candle :=
  CoinGecko.mkCandle 1000 (CoinGecko.Val (VInt 10)) (CoinGecko.Val (VInt 12))
                     (CoinGecko.Val (VInt 9)) (CoinGecko.Val (VInt 11)).

Definition candle_2000 : CoinGecko.Candle :=
  CoinGecko.mkCandle 2000 (CoinGecko.Val (VInt 11)) (CoinGecko.Val (VInt 13))
                     (CoinGecko.Val (VInt 10)) (CoinGecko.Val (VInt 12)).

(** A news client without aggregator credential. *)
Definition news0 : State CryptoNews.Self :=
  mkState (CryptoNews.init None None) 1000 [].

(** One feed answers, with two entries a day apart, newest first. *)
Definition entry_thursday : Entry :=
  mkEntry (Some "Newer") (Some "https://example.org/2")
          (Some "Thu, 06 Nov 2025 09:00:00 +0000") (Some "second").

Definition entry_wednesday : Entry :=
  mkEntry (Some "Older") (Some "https://example.org/1")
          (Some "Wed, 05 Nov 2025 09:00:00 +0000") (Some "first").

Definition w_feed : World :=
  mkWorld (fun _ => None) silent_text
          (fun u => if String.eqb u "https://cointelegraph.com/rss"
                    then Some [entry_thursday; entry_wednesday]
                    else None)
          instant.

(** The market aggregates are unreachable; the sentiment index
    answers 30, Fear. *)
Definition w_market_down : World :=
  mkWorld
    (fun r =>
       if url_is r CoinGecko.FNG_URL
       then Some (VDict [("data",
                          VList [VDict [ ("value", VStr "30");
                                         ("value_classification", VStr "Fear") ]])])
       else None)
    silent_text no_feed instant.

(** The market aggregates answer; the sentiment index is unreachable. *)
Definition w_sentiment_down : World :=
  mkWorld
    (fun r =>
       if url_is r "https://api.coingecko.com/api/v3/global"
       then Some (VDict [("data",
              VDict [ ("active_cryptocurrencies", VInt 9000);
                      ("markets", VInt 800);
                      ("total_market_cap", VDict [("usd", VInt 2500000000000)]);
                      ("total_volume", VDict [("usd", VInt 100000000000)]);
                      ("market_cap_change_percentage_24h_usd", VFloat (-3 # 2));
                      ("market_cap_percentage",
                       VDict [("btc", VFloat (521 # 10));
                              ("eth", VFloat (173 # 10))]) ])])
       else None)
    silent_text no_feed instant.

(** The multi-chain provider answers the social query for coin 0. *)
Definition w_coin_zero : World :=
  mkWorld
    (fun r =>
       if url_is r "https://min-api.cryptocompare.com/data/social/coin/latest"
          && has_param r "coinId" (VInt 0)
       then Some (VDict [ ("Response", VStr "Success");
                          ("Data",
                           VDict [ ("Reddit", VDict [("subscribers", VInt 1234);
                                                     ("active_users", VInt 56)]);
                                   ("Twitter", VDict [("followers", VInt 789)]) ]) ])
       else None)
    silent_text no_feed instant.

(** Two feed articles: one about the regulator, one about prices. *)
Definition article_sec : CryptoNews.Article :=
  CryptoNews.of_entry "CoinDesk"
    (mkEntry (Some "Sec sues exchange") (Some "https://example.org/3")
             (Some "Thu, 06 Nov 2025 10:00:00 +0000") (Some "A filing")).

Definition article_price : CryptoNews.Article :=
  CryptoNews.of_entry "Decrypt"
    (mkEntry (Some "Bitcoin rallies") (Some "https://example.org/4")
             (Some "Thu, 06 Nov 2025 11:00:00 +0000") (Some "Up again")).

(** The candles answer; the volume endpoint does not. *)
Definition w_candles_only : World :=
  mkWorld
    (fun r =>
       if url_is r "https://api.coingecko.com/api/v3/coins/bitcoin/ohlc" then
         Some (VList [ VList [VInt 1000; VInt 10; VInt 12; VInt 9; VInt 11];
                       VList [VInt 2000; VInt 11; VInt 13; VInt 10; VInt 12] ])
       else None)
    silent_text no_feed instant.

Definition volume_points : list (Q * CoinGecko.cell) :=
  [ (1000%Q, CoinGecko.Val (VInt 500)); (1500%Q, CoinGecko.Val (VInt 600)) ].

(** The gas oracle answers. *)
Definition w_gas : World :=
  mkWorld
    (fun r =>
       if url_is r OnChain.ETHERSCAN_URL && has_param r "action" (VStr "gasoracle")
       then Some (VDict [ ("status", VStr "1");
                          ("result",
                           VDict [ ("SafeGasPrice", VStr "20");
                                   ("ProposeGasPrice", VStr "22");
                                   ("FastGasPrice", VStr "25");
                                   ("suggestBaseFee", VStr "19.5");
                                   ("gasUsedRatio", VStr "0.4,0.5") ]) ])
       else None)
    silent_text no_feed instant.

(** Two unconfirmed transactions, of 60 BTC and of 1 BTC, and a price. *)
Definition w_whale : World :=
  mkWorld
    (fun r =>
       if url_is r "https://blockchain.info/unconfirmed-transactions?format=json"
       then Some (VDict [("txs",
                          VList [ VDict [ ("hash", VStr "aa");
                                          ("out", VList [VDict [("value", VInt 6000000000)]]);
                                          ("time", VInt 1762400000);
                                          ("size", VInt 250) ];
                                  VDict [ ("hash", VStr "bb");
                                          ("out", VList [VDict [("value", VInt 100000000)]]) ] ])])
       else if url_is r "https://blockchain.info/stats?format=json"
       then Some (VDict [("market_price_usd", VInt 100000)])
       else None)
    silent_text no_feed instant.

(** The CoinDesk feed answers with an article about the regulator and
    one about prices; the other feeds cannot be read. *)
Definition w_regulatory : World :=
  mkWorld (fun _ => None) silent_text
          (fun u => if String.eqb u "https://www.coindesk.com/arc/outboundfeeds/rss/"
                    then Some [ mkEntry (Some "Bitcoin rallies")
                                        (Some "https://example.org/4")
                                        (Some "Thu, 06 Nov 2025 11:00:00 +0000")
                                        (Some "Up again");
                                mkEntry (Some "Sec sues exchange")
                                        (Some "https://example.org/3")
                                        (Some "Thu, 06 Nov 2025 10:00:00 +0000")
                                        (Some "A filing") ]
                    else None)
          instant.

(** The trending endpoint lists three coins. *)
Definition w_trending : World :=
  mkWorld
    (fun r =>
       if url_is r "https://api.coingecko.com/api/v3/search/trending"
       then Some (VDict [("coins",
                          VList [ VDict [("item", VDict [ ("symbol", VStr "PEPE");
                                                          ("name", VStr "Pepe");
                                                          ("market_cap_rank", VInt 40);
                                                          ("price_btc", VFloat (1 # 1000)) ])];
                                  VDict [("item", VDict [ ("symbol", VStr "WIF") ])];
                                  VDict [] ])])
       else None)
    silent_text no_feed instant.

(** The coin endpoint answers for bitcoin, with a price and no maximum
    supply. *)
Definition w_coin : World :=
  mkWorld
    (fun r =>
       if url_is r "https://api.coingecko.com/api/v3/coins/bitcoin"
       then Some (VDict [ ("name", VStr "Bitcoin");
                          ("market_data",
                           VDict [ ("current_price", VDict [("usd", VInt 100000)]);
                                   ("max_supply", VNone) ]) ])
       else None)
    silent_text no_feed instant.

(** A price client that has sent a request a quarter of a second
    ago. *)
Definition cg_busy : State CoinGecko.Self :=
  mkState (CoinGecko.set_last (3999 # 4) (CoinGecko.init None None)) 1000 [].

(** The tools' clients right after import, without any credential in
    the environment, at second 1000 of the clock. *)
Definition tools0 : State Interface.Clients :=
  mkState (Interface.init None None None None None) 1000 [].

(** The shipped configuration over an empty default one and an empty
    environment, and the one the test script derives from it. *)
Definition shipped : Config.Dict := Config.CRYPTO_CONFIG [] (fun _ => None).

Definition test_config : Config.Dict :=
  Config.set_item "online_tools" (VBool false)
    (Config.set_item "max_debate_rounds" (VInt 2)
       (Config.set_item "quick_think_llm" (VStr "gpt-4o-mini")
          (Config.set_item "deep_think_llm" (VStr "gpt-4o")
             (Config.set_item "llm_provider" (VStr "openai") shipped)))).

End Scenario.

(** * Properties *)

(** ** Letter case *)

Section LetterCase.

Local Ltac by_cases c := destruct c as [[] [] [] [] [] [] [] []]; reflexivity.

Lemma lower_char_idem c : PyStr.lower_char (PyStr.lower_char c) = PyStr.lower_char c.
Proof. by_cases c. Qed.

Lemma upper_char_idem c : PyStr.upper_char (PyStr.upper_char c) = PyStr.upper_char c.
Proof. by_cases c. Qed.

Lemma upper_lower_char c : PyStr.upper_char (PyStr.lower_char c) = PyStr.upper_char c.
Proof. by_cases c. Qed.

Lemma lower_upper_char c : PyStr.lower_char (PyStr.upper_char c) = PyStr.lower_char c.
Proof. by_cases c. Qed.

Lemma upper_char_ascii c :
  PyStr.is_ascii_char (PyStr.upper_char c) = PyStr.is_ascii_char c.
Proof. by_cases c. Qed.

Lemma lower_char_ascii c :
  PyStr.is_ascii_char (PyStr.lower_char c) = PyStr.is_ascii_char c.
Proof. by_cases c. Qed.

(** On an ASCII character [upper] works byte by byte. *)
Lemma upper_cons_ascii c s :
  PyStr.is_ascii_char c = true ->
  PyStr.upper (String c s) = String (PyStr.upper_char c) (PyStr.upper s).
Proof.
  destruct c as [b0 b1 b2 b3 b4 b5 b6 b7]. simpl PyStr.is_ascii_char.
  destruct b7; [discriminate|]. intros _.
  destruct b0, b1, b2, b3, b4, b5, b6; reflexivity.
Qed.

Lemma lower_ascii s : PyStr.is_ascii (PyStr.lower s) = PyStr.is_ascii s.
Proof.
  induction s as [|c s IH]; [reflexivity|].
  cbn [PyStr.lower PyStr.is_ascii]. rewrite lower_char_ascii, IH. reflexivity.
Qed.

Lemma upper_ascii s :
  PyStr.is_ascii s = true -> PyStr.is_ascii (PyStr.upper s) = true.
Proof.
  induction s as [|c s IH]; [reflexivity|]. cbn [PyStr.is_ascii].
  intros H. apply andb_prop in H. destruct H as [Hc Hs].
  rewrite (upper_cons_ascii c s Hc). cbn [PyStr.is_ascii].
  rewrite upper_char_ascii, Hc, (IH Hs). reflexivity.
Qed.

Lemma upper_upper_ascii s :
  PyStr.is_ascii s = true -> PyStr.upper (PyStr.upper s) = PyStr.upper s.
Proof.
  induction s as [|c s IH]; [reflexivity|]. cbn [PyStr.is_ascii].
  intros H. apply andb_prop in H. destruct H as [Hc Hs].
  rewrite (upper_cons_ascii c s Hc).
  rewrite upper_cons_ascii by (rewrite upper_char_ascii; exact Hc).
  rewrite upper_char_idem, (IH Hs). reflexivity.
Qed.

Lemma upper_lower_ascii s :
  PyStr.is_ascii s = true -> PyStr.upper (PyStr.lower s) = PyStr.upper s.
Proof.
  induction s as [|c s IH]; [reflexivity|]. cbn [PyStr.is_ascii PyStr.lower].
  intros H. apply andb_prop in H. destruct H as [Hc Hs].
  rewrite (upper_cons_ascii c s Hc).
  rewrite upper_cons_ascii by (rewrite lower_char_ascii; exact Hc).
  rewrite upper_lower_char, (IH Hs). reflexivity.
Qed.

Lemma lower_upper_ascii s :
  PyStr.is_ascii s = true -> PyStr.lower (PyStr.upper s) = PyStr.lower s.
Proof.
  induction s as [|c s IH]; [reflexivity|]. cbn [PyStr.is_ascii].
  intros H. apply andb_prop in H. destruct H as [Hc Hs].
  rewrite (upper_cons_ascii c s Hc). cbn [PyStr.lower].
  rewrite lower_upper_char, (IH Hs). reflexivity.
Qed.

Local Ltac pointwise s lem :=
  induction s as [|c s IH]; simpl; [reflexivity | rewrite lem, IH; reflexivity].

Lemma lower_idem s : PyStr.lower (PyStr.lower s) = PyStr.lower s.
Proof. pointwise s lower_char_idem. Qed.

Lemma lower_app a b : PyStr.lower (a +:+ b) = PyStr.lower a +:+ PyStr.lower b.
Proof. induction a as [|c a IH]; simpl; [reflexivity | now rewrite IH]. Qed.

(** A text whose lowercase form splits in two splits the same way. *)
Lemma lower_split x : forall t y,
  PyStr.lower t = x +:+ y ->
  exists t1 t2, t = t1 +:+ t2 /\ PyStr.lower t1 = x /\ PyStr.lower t2 = y.
Proof.
  induction x as [|c x IH]; intros t y H.
  - exists EmptyString, t. auto.
  - destruct t as [|d t]; simpl in H; [discriminate|].
    injection H as Hc Ht.
    destruct (IH _ _ Ht) as (t1 & t2 & -> & <- & <-).
    exists (String d t1), t2. simpl. rewrite Hc. auto.
Qed.

End LetterCase.

Section SymbolResolution.
Variable w : World.

(** [get_coin_id] reads its argument only through [upper]. *)
Lemma get_coin_id_upper s t :
  PyStr.upper s = PyStr.upper t ->
  CoinGecko.get_coin_id w s = CoinGecko.get_coin_id w t.
Proof. unfold CoinGecko.get_coin_id. intros ->. reflexivity. Qed.

(** [_make_request] never raises; its request is stamped with the
    clock it was dispatched at and is the one entry it adds to the
    trace, whatever the upstream answers. *)
Lemma cg_make_request_run endpoint params st :
  let r := mkRequest (flatten (Lit CoinGecko.BASE_URL :: endpoint)) params
                     (CoinGecko.auth_headers (self st)) in
  exists st',
    CoinGecko._make_request w endpoint params st = (Ok (answer w r), st')
    /\ exists t, trace st' = trace st ++ [mkDispatch t r].
Proof.
  unfold answer, CoinGecko._make_request, CoinGecko._rate_limit, bind, time_time,
    get_self, set_self, time_sleep, ret, try_except, fetch_json, dispatch, raise.
  simpl.
  destruct (Qlt_le_dec _ _); simpl;
    destruct (http_json w _); simpl; eexists; split; try reflexivity;
    eexists; reflexivity.
Qed.

(** The three ways of a resolution, as the code takes them: the table
    is looked up under the uppercased ticker; on a miss one request, the
    search for the uppercased ticker, is dispatched; the identifier of the
    first match is returned, and when there is none the uppercased ticker
    in lower case is. *)
Lemma get_coin_id_run (symbol : string) (st : State CoinGecko.Self) :
  (forall id,
      CoinGecko.SYMBOL_TO_ID !! PyStr.upper symbol = Some id ->
      CoinGecko.get_coin_id w symbol st = (Ok (VStr id), st))
  /\ (CoinGecko.SYMBOL_TO_ID !! PyStr.upper symbol = None ->
      let search := search_request (self st) symbol in
      let run := CoinGecko.get_coin_id w symbol st in
      (exists t, trace (snd run) = trace st ++ [mkDispatch t search])
      /\ (forall id, first_match_id (http_json w search) id -> fst run = Ok id)
      /\ (no_match (http_json w search) ->
          fst run = Ok (VStr (PyStr.lower (PyStr.upper symbol))))).
Proof.
  unfold CoinGecko.get_coin_id. split.
  - intros id ->. reflexivity.
  - intros ->. cbv zeta.
    destruct (cg_make_request_run (plain "/search")
                [("query", VStr (PyStr.upper symbol))] st)
      as (st' & Hrun & t & Htrace).
    change (mkRequest _ _ _) with (search_request (self st) symbol) in Hrun, Htrace.
    unfold bind, lift, ret. rewrite Hrun. repeat split.
    + exists t. rewrite <- Htrace.
      destruct (CoinGecko.has_items _ _) as [[|]|]; reflexivity.
    + intros id (d & first & rest & Hp & Hcoins & Hid).
      unfold answer. rewrite Hp.
      unfold CoinGecko.has_items, contains_key, getitem, len, rbind, truthy.
      destruct d as [|kv d]; [discriminate|].
      rewrite Hcoins. simpl. exact Hid.
    + intros Hnone. unfold answer.
      inversion Hnone as [Hp | v Hfalsy Hp | d Hcoins Hp | d Hcoins Hp];
        [reflexivity | | |].
      * unfold CoinGecko.has_items. rewrite Hfalsy. reflexivity.
      * unfold CoinGecko.has_items, contains_key, truthy, rbind.
        rewrite Hcoins. destruct d; reflexivity.
      * unfold CoinGecko.has_items, contains_key, getitem, len, truthy, rbind.
        rewrite Hcoins. destruct d; reflexivity.
Qed.


(** C10, amended.  For a ticker [s] of ASCII text, resolution does not
    depend on the letter case: each of [s], [s] in upper case and [s] in
    lower case runs as [s] does (result, dispatched requests, final
    state); the table is looked up under [s] in upper case; on a miss the
    one request is the search for [s] in upper case, the identifier of
    its first match is returned, and when it finds nothing [s] in lower
    case is. *)
Theorem get_coin_id_case_insensitive (s s' : string) (st : State CoinGecko.Self) :
  PyStr.is_ascii s = true ->
  In s' [s; PyStr.upper s; PyStr.lower s] ->
  let run := CoinGecko.get_coin_id w s' st in
  run = CoinGecko.get_coin_id w s st
  /\ (forall id,
        CoinGecko.SYMBOL_TO_ID !! PyStr.upper s = Some id ->
        run = (Ok (VStr id), st))
  /\ (CoinGecko.SYMBOL_TO_ID !! PyStr.upper s = None ->
      let search := search_request (self st) s in
      (exists t, trace (snd run) = trace st ++ [mkDispatch t search])
      /\ (forall id, first_match_id (http_json w search) id -> fst run = Ok id)
      /\ (no_match (http_json w search) -> fst run = Ok (VStr (PyStr.lower s)))).
Proof.
  intros Hascii Hin. cbv zeta.
  assert (Hupper : PyStr.upper s' = PyStr.upper s).
  { destruct Hin as [<-|[<-|[<-|[]]]].
    - reflexivity.
    - apply upper_upper_ascii. exact Hascii.
    - apply upper_lower_ascii. exact Hascii. }
  rewrite (get_coin_id_upper s' s Hupper).
  destruct (get_coin_id_run s st) as [Hhit Hmiss].
  split; [reflexivity|]. split; [exact Hhit|]. intros Hnone.
  destruct (Hmiss Hnone) as (Htrace & Hfirst & Hfallback). cbv zeta in *.
  split; [exact Htrace|]. split; [exact Hfirst|].
  intros Hno. rewrite (Hfallback Hno), (lower_upper_ascii s Hascii). reflexivity.
Qed.

End SymbolResolution.


(** C10, as stated, fails at tickers outside ASCII.  LIN followed by
    the Kelvin sign is not a key of the table in upper case and is
    searched for, while its lowercase form, link, resolves from the table
    without a request.  And for long s followed by trk the fallback is
    strk, which is not that ticker in lower case. *)
Lemma resolution_case_dependent :
  CoinGecko.SYMBOL_TO_ID !! PyStr.upper ("LIN" +:+ PyStr.kelvin_sign) = None
  /\ (exists t,
        trace (snd (CoinGecko.get_coin_id Scenario.w_down
                      ("LIN" +:+ PyStr.kelvin_sign) Scenario.cg0))
        = [mkDispatch t (search_request (self Scenario.cg0)
                           ("LIN" +:+ PyStr.kelvin_sign))])
  /\ CoinGecko.get_coin_id Scenario.w_down "link" Scenario.cg0
     = (Ok (VStr "chainlink"), Scenario.cg0)
  /\ fst (CoinGecko.get_coin_id Scenario.w_down (PyStr.long_s +:+ "trk") Scenario.cg0)
     = Ok (VStr "strk")
  /\ PyStr.lower (PyStr.long_s +:+ "trk") = PyStr.long_s +:+ "trk"
  /\ PyStr.long_s +:+ "trk" <> "strk".
Proof.
  split; [vm_compute; reflexivity|].
  split; [eexists; vm_compute; reflexivity|].
  split; [vm_compute; reflexivity|].
  split; [vm_compute; reflexivity|].
  split; [reflexivity | discriminate].
Qed.


(** In the scenario where the search is down: the ticker PePe, given in
    lower case, falls back to pepe after the search for PEPE, as PePe
    itself does. *)
Lemma get_coin_id_case_insensitive_witness :
  CoinGecko.get_coin_id Scenario.w_down "pepe" Scenario.cg0
  = CoinGecko.get_coin_id Scenario.w_down "PePe" Scenario.cg0
  /\ (exists t,
        trace (snd (CoinGecko.get_coin_id Scenario.w_down "pepe" Scenario.cg0))
        = trace Scenario.cg0
          ++ [mkDispatch t (search_request (self Scenario.cg0) "PePe")])
  /\ fst (CoinGecko.get_coin_id Scenario.w_down "pepe" Scenario.cg0)
     = Ok (VStr "pepe").
Proof.
  destruct (get_coin_id_case_insensitive Scenario.w_down "PePe" "pepe" Scenario.cg0)
    as (Hrun & _ & Hmiss).
  - reflexivity.
  - right. right. left. reflexivity.
  - destruct Hmiss as (Htrace & _ & Hfallback); [vm_compute; reflexivity|].
    split; [exact Hrun|]. split; [exact Htrace|].
    apply Hfallback. apply request_failed.
Defined.

(** ** Candle horizon *)

Section Horizon.

Context {A : Type} (key : A -> Z).

(** [min_from] returns the first element of least key: every element
    before it has a strictly greater key, every element after it a key
    at least as great. *)
Lemma min_from_first xs : forall best,
  exists before after,
    best :: xs = before ++ CoinGecko.min_from key best xs :: after
    /\ Forall (fun x => key (CoinGecko.min_from key best xs) < key x) before
    /\ Forall (fun x => key (CoinGecko.min_from key best xs) <= key x) after.
Proof.
  induction xs as [|x xs IH]; intros best; simpl.
  - exists [], []. repeat split; constructor.
  - destruct (Z.ltb_spec (key x) (key best)) as [Hlt | Hge].
    + destruct (IH x) as (before & after & Heq & Hb & Ha).
      set (r := CoinGecko.min_from key x xs) in *. clearbody r.
      exists (best :: before), after.
      split; [rewrite Heq; reflexivity|]. split; [|exact Ha].
      constructor; [|exact Hb].
      assert (Hx : key r <= key x).
      { assert (Hin : In x (before ++ r :: after))
          by (rewrite <- Heq; left; reflexivity).
        apply in_app_or in Hin. destruct Hin as [Hin | [Hr | Hin]].
        - apply Z.lt_le_incl. exact (proj1 (List.Forall_forall _ _) Hb _ Hin).
        - rewrite Hr. apply Z.le_refl.
        - exact (proj1 (List.Forall_forall _ _) Ha _ Hin). }
      lia.
    + destruct (IH best) as (before & after & Heq & Hb & Ha).
      set (r := CoinGecko.min_from key best xs) in *. clearbody r.
      destruct before as [|b before]; simpl in Heq.
      * injection Heq as Hbest Hxs. subst r xs.
        exists [], (x :: after).
        split; [reflexivity|]. split; [constructor|].
        constructor; [exact Hge | exact Ha].
      * injection Heq as Hbest Hxs. subst b xs.
        exists (best :: x :: before), after.
        split; [reflexivity|]. split; [|exact Ha].
        inversion Hb as [|? ? Hb1 Hb2]; subst.
        constructor; [exact Hb1|]. constructor; [lia | exact Hb2].
Qed.

End Horizon.

(** The empty format spec accepts every value. *)
Lemma format_plain v : exists p, format v "" = Ok p.
Proof. destruct v; eexists; reflexivity. Qed.




(** ** Regulatory filter *)

Section Regulatory.

Lemma append_cons c a b : String c a +:+ b = String c (a +:+ b).
Proof. reflexivity. Qed.

Lemma startswith_spec p : forall s,
  PyStr.startswith p s = true <-> exists post, s = p +:+ post.
Proof.
  induction p as [|a p IH]; intros s.
  - split; [intros _; exists s; reflexivity | reflexivity].
  - destruct s as [|b s]; simpl.
    + split; [discriminate | intros (post & H); discriminate H].
    + destruct (Ascii.eqb_spec a b) as [<- | Hne].
      * rewrite IH. split; intros (post & H); exists post.
        -- rewrite append_cons, H. reflexivity.
        -- rewrite append_cons in H. injection H as H. exact H.
      * split; [discriminate|]. intros (post & H).
        rewrite append_cons in H. injection H as Hb _. congruence.
Qed.

Lemma contains_spec needle : forall hay,
  PyStr.contains needle hay = true
  <-> exists pre post, hay = pre +:+ needle +:+ post.
Proof.
  induction hay as [|c hay IH]; simpl; rewrite orb_true_iff, startswith_spec.
  - split.
    + intros [(post & H) | H]; [|discriminate]. exists EmptyString, post. exact H.
    + intros (pre & post & H). left. destruct pre as [|d pre]; [|discriminate H].
      exists post. exact H.
  - rewrite IH. split.
    + intros [(post & H) | (pre & post & H)].
      * exists EmptyString, post. exact H.
      * exists (String c pre), post. rewrite append_cons, H. reflexivity.
    + intros (pre & post & H). destruct pre as [|d pre].
      * left. exists post. exact H.
      * right. rewrite append_cons in H. injection H as _ H.
        exists pre, post. exact H.
Qed.

(** The test the filter runs, [lower word in lower text], is the
    case-blind occurrence of [word] in [text]. *)
Lemma mentions_iff word text :
  mentions word text
  <-> PyStr.contains (PyStr.lower word) (PyStr.lower text) = true.
Proof.
  rewrite contains_spec. split.
  - intros (pre & mid & post & -> & Hmid).
    exists (PyStr.lower pre), (PyStr.lower post).
    rewrite !lower_app, Hmid. reflexivity.
  - intros (pre & post & H).
    destruct (lower_split _ _ _ H) as (t1 & t2 & -> & _ & H2).
    destruct (lower_split _ _ _ H2) as (mid & t3 & -> & Hmid & _).
    exists t1, mid, t3. split; [reflexivity | exact Hmid].
Qed.

Lemma keywords_lowercase :
  Forall (fun k => PyStr.lower k = k) CryptoNews.regulatory_keywords.
Proof. repeat (constructor 2; [reflexivity|]). constructor 1. Qed.

Lemma is_regulatory_iff article :
  CryptoNews.is_regulatory article = true
  <-> exists k, In k CryptoNews.regulatory_keywords
                /\ (mentions k (CryptoNews.title article)
                    \/ mentions k (CryptoNews.or_empty (CryptoNews.summary article))).
Proof.
  unfold CryptoNews.is_regulatory. rewrite existsb_exists.
  pose proof (proj1 (List.Forall_forall _ _) keywords_lowercase) as Hlow.
  split; intros (k & Hin & H); exists k; (split; [exact Hin|]).
  - rewrite !mentions_iff, (Hlow _ Hin). apply orb_true_iff. exact H.
  - rewrite !mentions_iff, (Hlow _ Hin) in H. apply orb_true_iff. exact H.
Qed.

(** C8. Whatever the list handed to the filter, an article of it whose
    title contains SEC in any letter case is in the output, and an
    article whose title and summary contain none of the keywords, in any
    letter case, is not. *)
Theorem regulatory_filter_keywords
        (all_news : list CryptoNews.Article) (article : CryptoNews.Article) :
  In article all_news ->
  (mentions "SEC" (CryptoNews.title article) ->
   In article (CryptoNews.regulatory_filter all_news))
  /\ ((forall k, In k CryptoNews.regulatory_keywords ->
                 ~ mentions k (CryptoNews.title article)
                 /\ ~ mentions k (CryptoNews.or_empty (CryptoNews.summary article))) ->
      ~ In article (CryptoNews.regulatory_filter all_news)).
Proof.
  intros Hin. unfold CryptoNews.regulatory_filter. split.
  - intros Hsec. apply filter_In. split; [exact Hin|].
    apply is_regulatory_iff. exists "sec". split; [left; reflexivity|].
    left. destruct Hsec as (pre & mid & post & Ht & Hmid).
    exists pre, mid, post. split; [exact Ht | exact Hmid].
  - intros Hnone Hout. apply filter_In in Hout. destruct Hout as [_ Hreg].
    apply is_regulatory_iff in Hreg. destruct Hreg as (k & Hk & [H | H]).
    + exact (proj1 (Hnone k Hk) H).
    + exact (proj2 (Hnone k Hk) H).
Qed.

End Regulatory.

(** In the scenario: the article about the regulator passes the filter,
    the one about prices does not. *)
Lemma regulatory_filter_keywords_witness :
  In Scenario.article_sec
     (CryptoNews.regulatory_filter [Scenario.article_price; Scenario.article_sec])
  /\ ~ In Scenario.article_price
          (CryptoNews.regulatory_filter [Scenario.article_price; Scenario.article_sec]).
Proof.
  split.
  - apply (regulatory_filter_keywords
             [Scenario.article_price; Scenario.article_sec] Scenario.article_sec).
    + right. left. reflexivity.
    + exists "", "Sec", " sues exchange". split; reflexivity.
  - apply (regulatory_filter_keywords
             [Scenario.article_price; Scenario.article_sec] Scenario.article_price).
    + left. reflexivity.
    + intros k Hk. split; intros Hm; apply mentions_iff in Hm;
        simpl in Hk;
        repeat (destruct Hk as [<- | Hk]; [vm_compute in Hm; discriminate Hm|]);
        exact Hk.
Defined.

(** ** Request pacing *)

Section Pacing.



Ltac run_rate_limit :=
  unfold bind, time_time, get_self, set_self, time_sleep, ret, let_through;
  simpl; destruct (Qlt_le_dec _ _); reflexivity.

Lemma cg_rate_limit_run st :
  let t := let_through (CoinGecko.last_request_time (self st))
                       (CoinGecko.rate_limit_delay (self st)) (clock st) in
  CoinGecko._rate_limit st
  = (Ok tt, mkState (CoinGecko.set_last t (self st)) t (trace st)).
Proof. unfold CoinGecko._rate_limit. run_rate_limit. Qed.

Lemma onchain_rate_limit_run tag st :
  let t := let_through (default 0%Q (OnChain.last_request_time (self st) !! tag))
                       (OnChain.rate_limit_delay (self st)) (clock st) in
  OnChain._rate_limit tag st
  = (Ok tt, mkState (OnChain.set_last tag t (self st)) t (trace st)).
Proof. unfold OnChain._rate_limit. run_rate_limit. Qed.

Lemma news_rate_limit_run tag st :
  let t := let_through (default 0%Q (CryptoNews.last_request_time (self st) !! tag))
                       (CryptoNews.rate_limit_delay (self st)) (clock st) in
  CryptoNews._rate_limit tag st
  = (Ok tt, mkState (CryptoNews.set_last tag t (self st)) t (trace st)).
Proof. unfold CryptoNews._rate_limit. run_rate_limit. Qed.










End Pacing.



(** ** Behaviour on failing upstreams *)

(** C1 (the code departs from the claim).  With a gas-oracle credential
    and the gas oracle unreachable, [get_ethereum_onchain_summary] raises
    [KeyError]; with the network statistics answering and the mempool
    count unreachable, [get_bitcoin_onchain_summary] raises
    [ValueError]. *)
Theorem onchain_summaries_raise :
  fst (OnChain.get_ethereum_onchain_summary Scenario.w_down Scenario.oc_etherscan)
  = Raise (KeyError "safe_gas_price")
  /\ fst (OnChain.get_ethereum_gas_stats Scenario.w_down Scenario.oc_etherscan)
     = Ok (VDict [])
  /\ fst (OnChain.get_bitcoin_onchain_summary Scenario.w_mempool_down Scenario.oc0)
     = Raise ValueError
  /\ fst (OnChain.get_bitcoin_mempool_info Scenario.w_mempool_down Scenario.oc0)
     = Ok (VDict []).
Proof. repeat split; vm_compute; reflexivity. Qed.

(** ** Volume merge *)

(** A candle whose timestamp has no volume point gets NaN from the
    join. *)
Lemma join_left_unmatched df volume_df c :
  In c df ->
  (forall tv, In tv volume_df ->
              Qeq_bool (fst tv) (CoinGecko.timestamp c) = false) ->
  In (CoinGecko.mkRow c CoinGecko.NaN) (CoinGecko.join_left df volume_df).
Proof.
  intros Hin Hno. unfold CoinGecko.join_left. apply in_flat_map.
  exists c. split; [exact Hin|].
  assert (Hf : List.filter (fun tv => Qeq_bool (fst tv) (CoinGecko.timestamp c))
                           volume_df = []).
  { induction volume_df as [|tv rest IH]; [reflexivity|]. simpl.
    rewrite (Hno tv (or_introl eq_refl)). apply IH.
    intros tv' H. apply Hno. right. exact H. }
  rewrite Hf. left. reflexivity.
Qed.

(** C3 (the code departs from the claim).  With candles at 1000 and
    2000 and volume points at 1000 and 1500, the candle fetch succeeds
    and the row of 2000 has NaN for volume, not zero. *)
Theorem price_history_unmatched_volume :
  fst (CoinGecko.get_price_history Scenario.w_candles "BTC" 1 "usd" Scenario.cg0)
  = Ok [ CoinGecko.mkRow Scenario.candle_1000 (CoinGecko.Val (VInt 500));
         CoinGecko.mkRow Scenario.candle_2000 CoinGecko.NaN ].
Proof. vm_compute. reflexivity. Qed.

(** ** News aggregation *)

Section Aggregation.
Variable w : World.

Lemma slice_to_length {A : Type} (n : Z) (l : list A) :
  0 <= n -> (length (slice_to n l) <= Z.to_nat n)%nat.
Proof.
  intros Hn. unfold slice_to.
  destruct (Z.ltb_spec n 0) as [Hneg|_]; [lia|]. apply firstn_le_length.
Qed.

Lemma traverse_length {A B : Type} (f : A -> Res B) xs : forall ys,
  traverse f xs = Ok ys -> length ys = length xs.
Proof.
  induction xs as [|x xs IH]; simpl; intros ys H.
  - injection H as <-. reflexivity.
  - destruct (f x) as [y|e]; simpl in H; [|discriminate].
    destruct (traverse f xs) as [ys'|e]; simpl in H; [|discriminate].
    injection H as <-. simpl. rewrite (IH ys' eq_refl). reflexivity.
Qed.

Lemma insert_desc_length a l :
  length (CryptoNews.insert_desc a l) = S (length l).
Proof.
  induction l as [|b l IH]; simpl; [reflexivity|].
  destruct (CryptoNews.str_le _ _); simpl; [reflexivity | now rewrite IH].
Qed.

Lemma sort_desc_length l : length (CryptoNews.sort_desc l) = length l.
Proof.
  induction l as [|a l IH]; simpl; [reflexivity|].
  rewrite insert_desc_length, IH. reflexivity.
Qed.

(** What the sort does establish: each article stands before one whose
    timestamp, as text, is not above its own. *)
Lemma insert_desc_sorted a l :
  Sorted text_not_below l -> Sorted text_not_below (CryptoNews.insert_desc a l).
Proof.
  induction l as [|b l IH]; simpl; intros Hs.
  - repeat constructor.
  - destruct (CryptoNews.str_le (CryptoNews.published_at b)
                                (CryptoNews.published_at a)) eqn:Hle.
    + constructor; [exact Hs|]. constructor. exact Hle.
    + assert (Hba : text_not_below b a).
      { unfold text_not_below, CryptoNews.str_le in *.
        destruct (String.leb_total (CryptoNews.published_at a)
                                   (CryptoNews.published_at b)) as [H|H];
          [exact H | congruence]. }
      inversion Hs as [|? ? Hs' Hhd]; subst.
      constructor; [apply IH; exact Hs'|].
      destruct l as [|c l]; simpl.
      * constructor. exact Hba.
      * destruct (CryptoNews.str_le (CryptoNews.published_at c)
                                    (CryptoNews.published_at a));
          constructor; [exact Hba | inversion Hhd; assumption].
Qed.

Lemma sort_desc_sorted l : Sorted text_not_below (CryptoNews.sort_desc l).
Proof.
  induction l as [|a l IH]; simpl; [constructor|].
  apply insert_desc_sorted. exact IH.
Qed.

(** A feed reader never raises and returns at most [limit] articles. *)
Lemma read_feed_cap tag url source_name limit st :
  0 <= limit ->
  exists l st',
    CryptoNews.read_feed w tag url source_name limit st = (Ok l, st')
    /\ (length l <= Z.to_nat limit)%nat.
Proof.
  intros Hlimit.
  unfold CryptoNews.read_feed, try_except, bind. rewrite news_rate_limit_run.
  unfold fetch_feed, bind, dispatch, ret, raise. simpl.
  destruct (feed_entries w url) as [entries|]; simpl; eexists _, _;
    (split; [reflexivity|]).
  - rewrite length_map. apply slice_to_length. exact Hlimit.
  - simpl. lia.
Qed.

Lemma sliced_items_length v limit items :
  0 <= limit ->
  rbind (slice v limit) iter = Ok items ->
  (length items <= Z.to_nat limit)%nat.
Proof.
  intros Hlimit H. destruct v; simpl in H; try discriminate; injection H as <-.
  - rewrite length_map. unfold chars.
    rewrite list_ascii_of_string_of_list_ascii. apply slice_to_length. exact Hlimit.
  - apply slice_to_length. exact Hlimit.
Qed.

(** When the aggregator reader returns, it returns at most [limit]
    articles. *)
Lemma cryptopanic_cap symbol filter_type limit st l st' :
  0 <= limit ->
  CryptoNews.get_cryptopanic_news w symbol filter_type limit st = (Ok l, st') ->
  (length l <= Z.to_nat limit)%nat.
Proof.
  intros Hlimit.
  unfold CryptoNews.get_cryptopanic_news, bind at 1, get_self.
  destruct (negb _); [intros H; injection H as <- _; simpl; lia|].
  unfold bind at 1.
  destruct (CryptoNews._make_request _ _ _ _ _) as [[data|e] st1]; [|discriminate].
  unfold bind at 1, lift at 1.
  match goal with |- context [if negb (truthy data) then ?a else ?b] =>
    destruct (if negb (truthy data) then a else b) as [[|]|e] end;
    try discriminate.
  - intros H. injection H as <- _. simpl. lia.
  - unfold bind, lift.
    destruct (rbind (getitem data "results") _) as [items|e] eqn:Hitems;
      [|discriminate].
    destruct (traverse CryptoNews.of_post items) as [arts|e] eqn:Harts;
      [|discriminate].
    intros H. injection H as <- _.
    rewrite (traverse_length _ _ _ Harts).
    unfold getitem in Hitems. destruct data; try discriminate.
    destruct (lookup "results" d) as [v|]; [|discriminate].
    exact (sliced_items_length v limit items Hlimit Hitems).
Qed.

(** For a cap that is not negative, an aggregation that returns has at
    most (sources read) times (cap) articles, in descending order of the
    timestamps as text. *)
Lemma aggregation_cap symbol hours max_per_source st l :
  0 <= max_per_source ->
  fst (CryptoNews.get_all_crypto_news w symbol hours max_per_source st) = Ok l ->
  Z.of_nat (length l) <= sources_queried (self st) symbol * max_per_source
  /\ Sorted text_not_below l.
Proof.
  intros Hcap. unfold CryptoNews.get_all_crypto_news, sources_queried.
  unfold bind at 1, get_self. unfold bind at 1.
  assert (Hpanic : exists r st0,
             (if configured (CryptoNews.cryptopanic_key (self st))
              then CryptoNews.get_cryptopanic_news w symbol "hot" max_per_source
              else ret []) st = (r, st0)
             /\ match r with
                | Ok l0 => Z.of_nat (length l0)
                           <= (if configured (CryptoNews.cryptopanic_key (self st))
                               then 1 else 0) * max_per_source
                | Raise _ => True
                end).
  { destruct (configured _).
    - destruct (CryptoNews.get_cryptopanic_news _ _ _ _ _) as [[l0|e] st0] eqn:E.
      + eexists _, _. split; [reflexivity|].
        pose proof (cryptopanic_cap _ _ _ _ _ _ Hcap E). cbv iota. lia.
      + eexists _, _. split; [reflexivity | exact I].
    - eexists _, _. split; [reflexivity|]. simpl. lia. }
  destruct Hpanic as (r & st0 & -> & Hr). destruct r as [l0|e]; [|discriminate].
  unfold CryptoNews.get_cointelegraph_news, CryptoNews.get_decrypt_news,
    CryptoNews.get_coindesk_news, CryptoNews.get_theblock_news,
    CryptoNews.get_bitcoinmagazine_news.
  unfold bind at 1.
  destruct (read_feed_cap "cointelegraph" "https://cointelegraph.com/rss"
              "CoinTelegraph" max_per_source st0 Hcap) as (l1 & st1 & -> & H1).
  unfold bind at 1.
  destruct (read_feed_cap "decrypt" "https://decrypt.co/feed"
              "Decrypt" max_per_source st1 Hcap) as (l2 & st2 & -> & H2).
  unfold bind at 1.
  destruct (read_feed_cap "coindesk"
              "https://www.coindesk.com/arc/outboundfeeds/rss/"
              "CoinDesk" max_per_source st2 Hcap) as (l3 & st3 & -> & H3).
  unfold bind at 1.
  destruct (read_feed_cap "theblock" "https://www.theblock.co/rss.xml"
              "The Block" max_per_source st3 Hcap) as (l4 & st4 & -> & H4).
  unfold bind at 1.
  assert (Hmag : exists l5 st5,
             (if CryptoNews.is_btc symbol
              then CryptoNews.read_feed w "bitcoinmagazine"
                     "https://bitcoinmagazine.com/.rss/full/" "Bitcoin Magazine"
                     max_per_source
              else ret []) st4 = (Ok l5, st5)
             /\ Z.of_nat (length l5)
                <= (if CryptoNews.is_btc symbol then 1 else 0) * max_per_source).
  { destruct (CryptoNews.is_btc symbol).
    - destruct (read_feed_cap "bitcoinmagazine"
                  "https://bitcoinmagazine.com/.rss/full/" "Bitcoin Magazine"
                  max_per_source st4 Hcap) as (l5 & st5 & -> & H5).
      eexists _, _. split; [reflexivity | cbv iota; lia].
    - eexists _, _. split; [reflexivity|]. simpl. lia. }
  destruct Hmag as (l5 & st5 & -> & H5).
  unfold ret. simpl. intros H. injection H as <-.
  split; [|apply sort_desc_sorted].
  rewrite sort_desc_length, !length_app. lia.
Qed.

End Aggregation.

(** C5 (the code departs from the claim).  A feed that lists an article
    of Thursday 6 November before one of Wednesday 5 November comes out
    of the aggregation with the older article first: the sort compares
    the timestamps as text. *)
Theorem news_order_by_text :
  option_map (map CryptoNews.published_at)
    (match fst (CryptoNews.get_all_crypto_news Scenario.w_feed None 24 5
                  Scenario.news0) with
     | Ok l => Some l
     | Raise _ => None
     end)
  = Some [ "Wed, 05 Nov 2025 09:00:00 +0000";
           "Thu, 06 Nov 2025 09:00:00 +0000" ].
Proof. vm_compute. reflexivity. Qed.

(** ** Global market snapshot *)

Section GlobalSnapshot.
Variable w : World.

Lemma format_number v spec :
  is_number v = true -> format v spec = Ok (Fld spec v).
Proof. destruct v; try discriminate; reflexivity. Qed.

(** A [try] whose handler catches everything and returns, returns. *)
Lemma try_except_any {Self A : Type} (body : M Self A) (a0 : A) st :
  exists a st', try_except body any_exception (fun _ => ret a0) st = (Ok a, st').
Proof.
  unfold try_except. destruct (body st) as [[a|e] st']; simpl; eexists _, _; reflexivity.
Qed.

(** The sentiment call never raises. *)
Lemma fear_greed_total st :
  exists fg st', CoinGecko.get_fear_greed_index w st = (Ok fg, st').
Proof.
  unfold CoinGecko.get_fear_greed_index, bind at 1.
  match goal with |- context [try_except ?body any_exception (fun _ => ret ?a0) st] =>
    destruct (try_except_any body a0 st) as (a & st' & ->) end.
  destruct a; eexists _, _; reflexivity.
Qed.

(** When its request fails it answers the neutral default. *)
Lemma fear_greed_neutral st :
  http_json w sentiment_request = None ->
  exists st', CoinGecko.get_fear_greed_index w st
              = (Ok CoinGecko.neutral_fear_greed, st').
Proof.
  intros Hdown.
  unfold CoinGecko.get_fear_greed_index, bind, try_except, fetch_json, bind,
    dispatch, raise.
  fold sentiment_request. rewrite Hdown. simpl. eexists. reflexivity.
Qed.

Lemma global_market_data_down st :
  http_json w (global_request (self st)) = None ->
  exists st', CoinGecko.get_global_market_data w st = (Ok (VDict []), st').
Proof.
  intros Hdown. unfold CoinGecko.get_global_market_data.
  destruct (cg_make_request_run w (plain "/global") [] st) as (st' & Hrun & _).
  change (mkRequest _ _ _) with (global_request (self st)) in Hrun.
  unfold answer in Hrun. rewrite Hdown in Hrun.
  unfold bind. rewrite Hrun. simpl. eexists. reflexivity.
Qed.

(** C2, amended.  When the market-aggregates request fails, the
    operation returns the placeholder text, whatever the sentiment call
    answers.  When the market call has produced its figures and the
    sentiment request fails, the operation returns the overview with
    those figures, sentiment value 50 and classification Neutral. *)
Theorem global_summary_degrades (st : State CoinGecko.Self) :
  (http_json w (global_request (self st)) = None ->
   fst (CoinGecko.get_global_market_summary w st)
   = Ok (plain "Could not fetch global market data"))
  /\ (forall st1 active markets cap vol change btc eth,
         CoinGecko.get_global_market_data w st
         = (Ok (aggregates active markets cap vol change btc eth), st1) ->
         forallb is_number [active; markets; cap; vol; change; btc; eth] = true ->
         http_json w sentiment_request = None ->
         fst (CoinGecko.get_global_market_summary w st)
         = Ok (overview active markets cap vol change btc eth 50 "Neutral")).
Proof.
  split.
  - intros Hdown.
    destruct (global_market_data_down st Hdown) as (st1 & Hdata).
    destruct (fear_greed_total st1) as (fg & st2 & Hfg).
    unfold CoinGecko.get_global_market_summary, bind. rewrite Hdata, Hfg.
    reflexivity.
  - intros st1 active markets cap vol change btc eth Hdata Hnum Hdown.
    destruct (fear_greed_neutral st1 Hdown) as (st2 & Hfg).
    unfold CoinGecko.get_global_market_summary, bind. rewrite Hdata, Hfg.
    simpl in Hnum. repeat (apply andb_prop in Hnum; destruct Hnum as [? Hnum]).
    unfold aggregates, CoinGecko.global_overview, CoinGecko.neutral_fear_greed,
      lift, ret, fstring, fld, lit, eol, getitem, rbind. simpl.
    rewrite !format_number by assumption. reflexivity.
Qed.

End GlobalSnapshot.

(** C2, as stated, fails when the market call is the one that fails:
    the sentiment index answers (30, Fear), and the operation returns
    the placeholder, not a snapshot with default market figures. *)
Lemma global_summary_market_down :
  fst (CoinGecko.get_fear_greed_index Scenario.w_market_down Scenario.cg0)
  = Ok (VDict [ ("value", VInt 30); ("value_classification", VStr "Fear");
                ("timestamp", VStr ""); ("time_until_update", VStr "") ])
  /\ fst (CoinGecko.get_global_market_summary Scenario.w_market_down Scenario.cg0)
     = Ok [Lit "Could not fetch global market data"].
Proof. split; vm_compute; reflexivity. Qed.

(** In the scenarios: the placeholder when the market call is down, the
    overview with 50 and Neutral when the sentiment call is. *)
Lemma global_summary_degrades_witness :
  fst (CoinGecko.get_global_market_summary Scenario.w_market_down Scenario.cg0)
  = Ok (plain "Could not fetch global market data")
  /\ fst (CoinGecko.get_global_market_summary Scenario.w_sentiment_down Scenario.cg0)
     = Ok (overview (VInt 9000) (VInt 800) (VInt 2500000000000)
                    (VInt 100000000000) (VFloat (-3 # 2))
                    (VFloat (521 # 10)) (VFloat (173 # 10)) 50 "Neutral").
Proof.
  split.
  - apply (global_summary_degrades Scenario.w_market_down Scenario.cg0).
    vm_compute. reflexivity.
  - apply (proj2 (global_summary_degrades Scenario.w_sentiment_down Scenario.cg0)
                 (snd (CoinGecko.get_global_market_data Scenario.w_sentiment_down
                                                        Scenario.cg0))).
    + vm_compute. reflexivity.
    + vm_compute. reflexivity.
    + vm_compute. reflexivity.
Defined.

(** ** Generic on-chain fetch *)

Section GenericOnChain.
Variable w : World.







End GenericOnChain.




(** * Further properties of the clients *)

(** ** Price client *)

Section PriceClient.
Variable w : World.

(** [_make_request] never raises: it hands on the payload, or the empty
    dict when the exchange failed, and leaves the state of a request let
    through at the clock [_rate_limit] allowed. *)
Lemma cg_make_request_state endpoint params st :
  CoinGecko._make_request w endpoint params st
  = (Ok (answer w (mkRequest (flatten (Lit CoinGecko.BASE_URL :: endpoint)) params
                             (CoinGecko.auth_headers (self st)))),
     after_coingecko w
       (let_through (CoinGecko.last_request_time (self st))
                    (CoinGecko.rate_limit_delay (self st)) (clock st))
       (mkRequest (flatten (Lit CoinGecko.BASE_URL :: endpoint)) params
                  (CoinGecko.auth_headers (self st)))
       st).
Proof.
  unfold CoinGecko._make_request, bind. rewrite cg_rate_limit_run. simpl.
  unfold try_except, fetch_json, bind, dispatch, ret, raise, get_self, answer,
    after_coingecko. simpl.
  destruct (http_json w _); reflexivity.
Qed.

(** The nearest supported horizon never raises; it is [horizon_of]. *)
Lemma days_param_horizon (days : Z) :
  CoinGecko.days_param days = Ok (horizon_of days).
Proof.
  unfold CoinGecko.days_param, CoinGecko.min_by, CoinGecko.valid_days. f_equal.
  destruct (min_from_first (fun x => Z.abs (x - days)) [7; 14; 30; 90; 180; 365] 1)
    as (before & after & Heq & Hb & Ha).
  set (h := CoinGecko.min_from _ _ _) in *. clearbody h.
  unfold horizon_of.
  repeat (destruct before as [|? before]; simpl in Heq;
          [ injection Heq as <- <-;
            repeat match goal with
                   | H : Forall _ (_ :: _) |- _ => inversion H; clear H; subst
                   | H : Forall _ [] |- _ => clear H
                   end;
            cbv beta in *;
            repeat match goal with
                   | |- context [Z.leb ?a ?b] => destruct (Z.leb_spec a b)
                   end; lia
          | injection Heq as <- Heq ]).
  destruct before; simpl in Heq; discriminate Heq.
Qed.

(** The horizon is 1 up to 4 days (zero and negative counts included),
    7 up to 10, 14 up to 22, 30 up to 60, 90 up to 135, 180 up to 272,
    and 365 from 273 days on. *)
Theorem days_param_intervals (days : Z) :
  CoinGecko.days_param days = Ok (horizon_of days).
Proof. exact (days_param_horizon days). Qed.

(** More days never give a shorter horizon. *)
Theorem days_param_monotone (d1 d2 h1 h2 : Z) :
  d1 <= d2 ->
  CoinGecko.days_param d1 = Ok h1 ->
  CoinGecko.days_param d2 = Ok h2 ->
  h1 <= h2.
Proof.
  intros Hle H1 H2. rewrite days_param_horizon in H1, H2.
  injection H1 as <-. injection H2 as <-. unfold horizon_of.
  repeat match goal with
         | |- context [Z.leb ?a ?b] => destruct (Z.leb_spec a b)
         end; lia.
Qed.

End PriceClient.

Lemma days_param_monotone_witness :
  CoinGecko.days_param 5 = Ok 7 /\ CoinGecko.days_param 100 = Ok 90 /\ 7 <= 90.
Proof.
  assert (H1 : CoinGecko.days_param 5 = Ok 7) by reflexivity.
  assert (H2 : CoinGecko.days_param 100 = Ok 90) by reflexivity.
  split; [exact H1|]. split; [exact H2|].
  apply (days_param_monotone 5 100 7 90); [lia | exact H1 | exact H2].
Defined.

Section PriceHistory.
Variable w : World.

Ltac run_cg_request :=
  match goal with
  | |- context [CoinGecko._make_request ?w' ?e ?ps ?st] =>
      rewrite (cg_make_request_state w' e ps st)
  end.

(** The answer of the sentiment call, for the callers below. *)
Lemma fear_greed_answer (st : State CoinGecko.Self) :
  exists value classification stamp until st',
    CoinGecko.get_fear_greed_index w st
    = (Ok (VDict [ ("value", VInt value);
                   ("value_classification", classification);
                   ("timestamp", stamp);
                   ("time_until_update", until) ]), st')
    /\ trace st' = trace st ++ [mkDispatch (clock st) sentiment_request].
Proof.
  unfold CoinGecko.get_fear_greed_index, bind, try_except, fetch_json, bind,
    dispatch, raise, lift, ret, CoinGecko.neutral_fear_greed.
  fold sentiment_request.
  destruct (http_json w sentiment_request) as [data|]; simpl;
    [|eexists _, _, _, _, _; split; reflexivity].
  destruct (CoinGecko.has_items data "data") as [[|]|e]; simpl;
    try (eexists _, _, _, _, _; split; reflexivity).
  destruct (rbind (getitem data "data") getitem0) as [latest|e]; simpl;
    try (eexists _, _, _, _, _; split; reflexivity).
  destruct (rbind (get latest "value" (VInt 50)) int) as [value|e]; simpl;
    try (eexists _, _, _, _, _; split; reflexivity).
  destruct (get latest "value_classification" (VStr "Neutral")) as [c|e]; simpl;
    try (eexists _, _, _, _, _; split; reflexivity).
  destruct (get latest "timestamp" (VStr "")) as [ts|e]; simpl;
    try (eexists _, _, _, _, _; split; reflexivity).
  destruct (get latest "time_until_update" (VStr "")) as [u|e]; simpl;
    eexists _, _, _, _, _; split; reflexivity.
Qed.

(** The sentiment call never raises and is not paced: it dispatches its
    one request at the clock it is called at, and its answer always has
    the four keys, with an integer under [value]. *)
Theorem fear_greed_shape (st : State CoinGecko.Self) :
  exists value classification stamp until st',
    CoinGecko.get_fear_greed_index w st
    = (Ok (VDict [ ("value", VInt value);
                   ("value_classification", classification);
                   ("timestamp", stamp);
                   ("time_until_update", until) ]), st')
    /\ trace st' = trace st ++ [mkDispatch (clock st) sentiment_request].
Proof. exact (fear_greed_answer st). Qed.

(** When the candle request fails or its payload is empty, the history
    is the empty frame and the volume endpoint is not asked. *)
Theorem price_history_no_candles symbol days vs_currency st id st1 p :
  CoinGecko.get_coin_id w symbol st = (Ok id, st1) ->
  format id "" = Ok p ->
  truthy (answer w (ohlc_request (self st1) p vs_currency (horizon_of days))) = false ->
  exists t,
    CoinGecko.get_price_history w symbol days vs_currency st
    = (Ok [], after_coingecko w t
                (ohlc_request (self st1) p vs_currency (horizon_of days)) st1).
Proof.
  intros Hid Hp Hempty. unfold CoinGecko.get_price_history.
  unfold bind at 1. rewrite Hid.
  unfold bind at 1, lift at 1. rewrite days_param_horizon.
  unfold bind at 1, lift at 1. rewrite Hp.
  unfold bind at 1. run_cg_request.
  change (mkRequest _ _ _)
    with (ohlc_request (self st1) p vs_currency (horizon_of days)).
  rewrite Hempty. simpl. eexists. reflexivity.
Qed.

(** When the candles arrive and the volume request fails, the history
    has one row per candle, in order, each with volume zero. *)
Theorem price_history_zero_volume symbol days vs_currency st id st1 p df :
  CoinGecko.get_coin_id w symbol st = (Ok id, st1) ->
  format id "" = Ok p ->
  truthy (answer w (ohlc_request (self st1) p vs_currency (horizon_of days))) = true ->
  CoinGecko.ohlc_frame
    (answer w (ohlc_request (self st1) p vs_currency (horizon_of days))) = Ok df ->
  http_json w (volume_request (self st1) p vs_currency days) = None ->
  fst (CoinGecko.get_price_history w symbol days vs_currency st)
  = Ok (CoinGecko.with_zero_volume df).
Proof.
  intros Hid Hp Hdata Hdf Hdown. unfold CoinGecko.get_price_history.
  unfold bind at 1. rewrite Hid.
  unfold bind at 1, lift at 1. rewrite days_param_horizon.
  unfold bind at 1, lift at 1. rewrite Hp.
  unfold bind at 1. run_cg_request.
  change (mkRequest (flatten (Lit CoinGecko.BASE_URL :: [Lit "/coins/"; p; Lit "/ohlc"]))
                    _ _)
    with (ohlc_request (self st1) p vs_currency (horizon_of days)).
  cbv beta iota. rewrite Hdata. change (negb true) with false. cbv beta iota.
  unfold bind at 1, lift at 1. rewrite Hdf. cbv beta iota.
  unfold bind at 1. run_cg_request.
  change (mkRequest (flatten _) _ (CoinGecko.auth_headers _))
    with (volume_request (self st1) p vs_currency days).
  unfold answer at 1. rewrite Hdown. reflexivity.
Qed.

Lemma filter_at_most_one (volume_df : list (Q * CoinGecko.cell)) (t : Q) :
  distinct_timestamps volume_df ->
  List.filter (fun tv => Qeq_bool (fst tv) t) volume_df
  = match List.find (fun tv => Qeq_bool (fst tv) t) volume_df with
    | Some tv => [tv]
    | None => []
    end.
Proof.
  unfold distinct_timestamps.
  induction volume_df as [|a rest IH]; intros Hd; [reflexivity|].
  inversion Hd as [|? ? Ha Hrest]; subst. simpl.
  destruct (Qeq_bool (fst a) t) eqn:Hat.
  - f_equal.
    assert (Hnone : List.filter (fun tv => Qeq_bool (fst tv) t) rest = []).
    { clear IH Hrest Hd. induction rest as [|b rest IHr]; [reflexivity|].
      inversion Ha as [|? ? Hab Ha']; subst. simpl.
      destruct (Qeq_bool (fst b) t) eqn:Hbt.
      - exfalso. apply Qeq_bool_iff in Hat, Hbt.
        assert (Heq : Qeq_bool (fst a) (fst b) = true).
        { apply Qeq_bool_iff. rewrite Hat, Hbt. reflexivity. }
        congruence.
      - apply IHr. exact Ha'. }
    exact Hnone.
  - apply IH. exact Hrest.
Qed.

(** The left join, when no two volume points share a timestamp: one row
    per candle, in the order of the candles, with the volume of the point
    at the candle's timestamp, or NaN. *)
Lemma join_left_lookup df volume_df :
  distinct_timestamps volume_df ->
  CoinGecko.join_left df volume_df
  = map (fun c => CoinGecko.mkRow c (volume_at volume_df c)) df.
Proof.
  intros Hd. induction df as [|c df IH]; [reflexivity|].
  change (CoinGecko.join_left (c :: df) volume_df)
    with (match List.filter (fun tv => Qeq_bool (fst tv) (CoinGecko.timestamp c))
                            volume_df with
          | [] => [CoinGecko.mkRow c CoinGecko.NaN]
          | matches => map (fun tv => CoinGecko.mkRow c (snd tv)) matches
          end ++ CoinGecko.join_left df volume_df).
  rewrite IH, (filter_at_most_one volume_df (CoinGecko.timestamp c) Hd).
  unfold volume_at. simpl map.
  destruct (List.find _ volume_df); reflexivity.
Qed.

(** When the candles and the volume points both arrive, and no two
    volume points share a timestamp, the history has one row per candle,
    in the order of the candles, each with the volume of the point at
    its timestamp, or NaN when there is none. *)
Theorem price_history_joined symbol days vs_currency st id st1 p df payload points
        volume_df :
  CoinGecko.get_coin_id w symbol st = (Ok id, st1) ->
  format id "" = Ok p ->
  truthy (answer w (ohlc_request (self st1) p vs_currency (horizon_of days))) = true ->
  CoinGecko.ohlc_frame
    (answer w (ohlc_request (self st1) p vs_currency (horizon_of days))) = Ok df ->
  http_json w (volume_request (self st1) p vs_currency days) = Some (VDict payload) ->
  lookup "total_volumes" payload = Some points ->
  CoinGecko.volume_frame points = Ok volume_df ->
  distinct_timestamps volume_df ->
  fst (CoinGecko.get_price_history w symbol days vs_currency st)
  = Ok (map (fun c => CoinGecko.mkRow c (volume_at volume_df c)) df).
Proof.
  intros Hid Hp Hdata Hdf Hvol Hpoints Hframe Hdistinct. unfold CoinGecko.get_price_history.
  unfold bind at 1. rewrite Hid.
  unfold bind at 1, lift at 1. rewrite days_param_horizon.
  unfold bind at 1, lift at 1. rewrite Hp.
  unfold bind at 1. run_cg_request.
  change (mkRequest (flatten (Lit CoinGecko.BASE_URL :: [Lit "/coins/"; p; Lit "/ohlc"]))
                    _ _)
    with (ohlc_request (self st1) p vs_currency (horizon_of days)).
  cbv beta iota. rewrite Hdata. change (negb true) with false. cbv beta iota.
  unfold bind at 1, lift at 1. rewrite Hdf. cbv beta iota.
  unfold bind at 1. run_cg_request.
  change (mkRequest (flatten _) _ (CoinGecko.auth_headers _))
    with (volume_request (self st1) p vs_currency days).
  unfold answer. rewrite Hvol. cbv beta iota.
  assert (Htruthy : truthy (VDict payload) = true)
    by (destruct payload; [discriminate | reflexivity]).
  unfold bind at 1, lift at 1. rewrite Htruthy.
  unfold contains_key, getitem. rewrite Hpoints. cbv beta iota.
  unfold bind at 1, lift at 1. unfold rbind at 1.
  rewrite Hframe. cbv beta iota. unfold ret. simpl fst.
  rewrite (join_left_lookup df volume_df Hdistinct). reflexivity.
Qed.
End PriceHistory.

Lemma price_history_no_candles_witness :
  exists t,
    CoinGecko.get_price_history Scenario.w_down "BTC" 5 "usd" Scenario.cg0
    = (Ok [], after_coingecko Scenario.w_down t
                (ohlc_request (self Scenario.cg0) (Lit "bitcoin") "usd" 7)
                Scenario.cg0).
Proof.
  apply (price_history_no_candles Scenario.w_down "BTC" 5 "usd" Scenario.cg0
           (VStr "bitcoin") Scenario.cg0 (Lit "bitcoin"));
    vm_compute; reflexivity.
Defined.

Lemma price_history_zero_volume_witness :
  fst (CoinGecko.get_price_history Scenario.w_candles_only "BTC" 5 "usd" Scenario.cg0)
  = Ok (CoinGecko.with_zero_volume [Scenario.candle_1000; Scenario.candle_2000]).
Proof.
  apply (price_history_zero_volume Scenario.w_candles_only "BTC" 5 "usd" Scenario.cg0
           (VStr "bitcoin") Scenario.cg0 (Lit "bitcoin"));
    vm_compute; reflexivity.
Defined.

Lemma price_history_joined_witness :
  fst (CoinGecko.get_price_history Scenario.w_candles "BTC" 5 "usd" Scenario.cg0)
  = Ok (map (fun c => CoinGecko.mkRow c (volume_at Scenario.volume_points c))
            [Scenario.candle_1000; Scenario.candle_2000]).
Proof.
  apply (price_history_joined Scenario.w_candles "BTC" 5 "usd" Scenario.cg0
           (VStr "bitcoin") Scenario.cg0 (Lit "bitcoin")
           [Scenario.candle_1000; Scenario.candle_2000]
           [("total_volumes",
             VList [ VList [VInt 1000; VInt 500]; VList [VInt 1500; VInt 600] ])]
           (VList [ VList [VInt 1000; VInt 500]; VList [VInt 1500; VInt 600] ])
           Scenario.volume_points);
    try (vm_compute; reflexivity).
  repeat constructor.
Defined.

(** ** On-chain client *)

Section OnChainClient.
Variable w : World.

(** [_make_request] never raises: it hands on the payload, or the empty
    dict when the exchange failed. *)
Lemma onchain_make_request_state url params tag st :
  OnChain._make_request w url params tag st
  = (Ok (answer w (mkRequest (plain url) params [])),
     after_onchain w tag
       (let_through (default 0%Q (OnChain.last_request_time (self st) !! tag))
                    (OnChain.rate_limit_delay (self st)) (clock st))
       (mkRequest (plain url) params []) st).
Proof.
  unfold OnChain._make_request, bind. rewrite onchain_rate_limit_run. simpl.
  unfold try_except, fetch_json, bind, dispatch, ret, raise, answer,
    after_onchain. simpl.
  destruct (http_json w _); reflexivity.
Qed.

Ltac run_onchain_request :=
  match goal with
  | |- context [OnChain._make_request ?w' ?u ?ps ?tag ?st] =>
      rewrite (onchain_make_request_state u ps tag st)
  end.

(** The mempool reading never raises and sends one request, unpaced. *)
Lemma mempool_info_total (st : State OnChain.Self) :
  exists r st',
    OnChain.get_bitcoin_mempool_info w st = (Ok r, st')
    /\ trace st' = trace st ++ [mkDispatch (clock st) mempool_request].
Proof.
  unfold OnChain.get_bitcoin_mempool_info, try_except, bind, fetch_text, bind,
    dispatch, raise, lift, ret.
  fold mempool_request.
  destruct (http_text w mempool_request) as [body|]; simpl;
    [|eexists _, _; split; reflexivity].
  destruct (PyStr.parse_int body) as [n|]; simpl; eexists _, _; split; reflexivity.
Qed.

(** The mempool reading never raises and is not paced.  It is the empty
    dict, or the count with its level: High above 10000 unconfirmed
    transactions, Low below 2000, Medium from 2000 to 10000. *)
Theorem mempool_info_levels (st : State OnChain.Self) :
  exists r st',
    OnChain.get_bitcoin_mempool_info w st = (Ok r, st')
    /\ trace st' = trace st ++ [mkDispatch (clock st) mempool_request]
    /\ (r = VDict []
        \/ exists n level,
             r = mempool_info n level
             /\ (10000 < n -> level = "High")
             /\ (n < 2000 -> level = "Low")
             /\ (2000 <= n <= 10000 -> level = "Medium")).
Proof.
  unfold OnChain.get_bitcoin_mempool_info, try_except, bind, fetch_text, bind,
    dispatch, raise, lift, ret.
  fold mempool_request.
  destruct (http_text w mempool_request) as [body|]; simpl;
    [|eexists _, _; repeat split; left; reflexivity].
  destruct (PyStr.parse_int body) as [n|]; simpl;
    [|eexists _, _; repeat split; left; reflexivity].
  eexists _, _. split; [reflexivity|]. split; [reflexivity|].
  right. exists n. eexists. split; [reflexivity|].
  unfold OnChain.congestion.
  destruct (Z.ltb_spec 10000 n); [repeat split; intros; (reflexivity || lia)|].
  destruct (Z.ltb_spec n 2000); repeat split; intros; (reflexivity || lia).
Qed.

(** Without the gas-oracle credential the two Ethereum readers answer
    their error dict, the summary is the text naming the missing key, and
    nothing is dispatched: the state is the one before the call. *)
Theorem ethereum_without_credential (st : State OnChain.Self) :
  configured (OnChain.etherscan_key (self st)) = false ->
  OnChain.get_ethereum_gas_stats w st
  = (Ok (VDict [("error", VStr "Etherscan API key required")]), st)
  /\ OnChain.get_ethereum_supply_stats w st
     = (Ok (VDict [("error", VStr "Etherscan API key required")]), st)
  /\ OnChain.get_ethereum_onchain_summary w st
     = (Ok [Lit "Etherscan API key required for Ethereum on-chain data"], st).
Proof.
  intros Hkey.
  assert (Hgas : OnChain.get_ethereum_gas_stats w st
                 = (Ok (VDict [("error", VStr "Etherscan API key required")]), st)).
  { unfold OnChain.get_ethereum_gas_stats, bind, get_self. simpl.
    rewrite Hkey. destruct st; reflexivity. }
  assert (Hsupply : OnChain.get_ethereum_supply_stats w st
                    = (Ok (VDict [("error", VStr "Etherscan API key required")]), st)).
  { unfold OnChain.get_ethereum_supply_stats, bind, get_self. simpl.
    rewrite Hkey. destruct st; reflexivity. }
  split; [exact Hgas|]. split; [exact Hsupply|].
  unfold OnChain.get_ethereum_onchain_summary, bind. rewrite Hgas, Hsupply.
  reflexivity.
Qed.

(** Without the multi-chain credential the generic summary dispatches
    nothing and reports 0 for each of the three social figures, under
    the header of the uppercased symbol. *)
Theorem generic_summary_without_credential (symbol : string)
        (st : State OnChain.Self) :
  configured (OnChain.cryptocompare_key (self st)) = false ->
  String.eqb (PyStr.upper symbol) "BTC" = false ->
  String.eqb (PyStr.upper symbol) "ETH" = false ->
  OnChain.get_general_onchain_summary w symbol st
  = (Ok [ Lit ("=== " +:+ PyStr.upper symbol +:+ " On-Chain & Social Metrics ==="
               +:+ nl +:+ nl +:+ "Social Activity:" +:+ nl
               +:+ "  Reddit Subscribers: ");
          Fld "," (VInt 0);
          Lit (nl +:+ "  Reddit Active Users: ");
          Fld "," (VInt 0);
          Lit (nl +:+ "  Twitter Followers: ");
          Fld "," (VInt 0) ], st).
Proof.
  intros Hkey Hbtc Heth. unfold OnChain.get_general_onchain_summary.
  rewrite Hbtc, Heth. destruct st as [me now tr]. simpl in Hkey.
  unfold OnChain.get_on_chain_summary, OnChain.get_social_stats, bind, get_self.
  simpl. rewrite Hkey. simpl. rewrite Hkey. reflexivity.
Qed.

(** Every call of the network statistics dispatches exactly one
    request, whether it returns or raises. *)
Lemma network_stats_trace st :
  exists t,
    trace (snd (OnChain.get_bitcoin_network_stats w st))
    = trace st ++ [mkDispatch t stats_request].
Proof.
  unfold OnChain.get_bitcoin_network_stats, bind at 1. run_onchain_request.
  fold stats_request. eexists.
  destruct (negb (truthy (answer w stats_request))); [reflexivity|].
  unfold bind, lift, ret.
  repeat match goal with
         | |- context [match ?r with Ok _ => _ | Raise _ => _ end] => destruct r
         end; reflexivity.
Qed.

Lemma network_stats_down st :
  http_json w stats_request = None ->
  exists t,
    OnChain.get_bitcoin_network_stats w st
    = (Ok (VDict []), after_onchain w "blockchain.com" t stats_request st).
Proof.
  intros Hdown. unfold OnChain.get_bitcoin_network_stats, bind at 1.
  run_onchain_request. fold stats_request. unfold answer. rewrite Hdown.
  eexists. reflexivity.
Qed.

Lemma large_transactions_down min st :
  http_json w unconfirmed_request = None ->
  exists t,
    OnChain.get_bitcoin_large_transactions w min st
    = (Ok [], after_onchain w "blockchain.com" t unconfirmed_request st).
Proof.
  intros Hdown. unfold OnChain.get_bitcoin_large_transactions, bind at 1.
  run_onchain_request. fold unconfirmed_request. unfold answer. rewrite Hdown.
  eexists. reflexivity.
Qed.

(** When the two JSON endpoints of the statistics provider fail, the
    Bitcoin summary is the placeholder text, whatever the mempool count
    answers, after one request to each of the three endpoints. *)
Theorem bitcoin_summary_unavailable (st : State OnChain.Self) :
  http_json w stats_request = None ->
  http_json w unconfirmed_request = None ->
  fst (OnChain.get_bitcoin_onchain_summary w st)
  = Ok [Lit "Could not fetch Bitcoin on-chain data"]
  /\ map request (trace (snd (OnChain.get_bitcoin_onchain_summary w st)))
     = map request (trace st)
       ++ [stats_request; mempool_request; unconfirmed_request].
Proof.
  intros Hstats Htxs.
  destruct (network_stats_down st Hstats) as (t1 & H1).
  set (st1 := after_onchain w "blockchain.com" t1 stats_request st) in H1.
  destruct (mempool_info_total st1) as (r & st2 & H2 & Htrace2).
  destruct (large_transactions_down 50 st2 Htxs) as (t3 & H3).
  assert (Hrun : OnChain.get_bitcoin_onchain_summary w st
                 = (Ok [Lit "Could not fetch Bitcoin on-chain data"],
                    after_onchain w "blockchain.com" t3 unconfirmed_request st2)).
  { unfold OnChain.get_bitcoin_onchain_summary.
    unfold bind at 1. rewrite H1. cbv beta iota.
    unfold bind at 1. rewrite H2. cbv beta iota.
    unfold bind at 1. rewrite H3. reflexivity. }
  rewrite Hrun. split; [reflexivity|].
  simpl. rewrite Htrace2. subst st1. simpl.
  rewrite !map_app. simpl. rewrite <- !app_assoc. reflexivity.
Qed.

(** When the gas reader returns, its answer is the error dict of the
    missing credential, the empty dict, or the dict with all six entries
    the summary reads, the three prices being integers and the level
    High above 50 Gwei, Low below 20, Medium between. *)
Theorem gas_stats_shape (st st' : State OnChain.Self) (r : pyval) :
  OnChain.get_ethereum_gas_stats w st = (Ok r, st') ->
  r = OnChain.key_required "Etherscan"
  \/ r = VDict []
  \/ exists safe propose fast fee ratio, r = gas_stats safe propose fast fee ratio.
Proof.
  unfold OnChain.get_ethereum_gas_stats, bind at 1, get_self.
  destruct (negb (configured _));
    [intros H; injection H as <- _; left; reflexivity|].
  unfold bind at 1. run_onchain_request. cbv beta iota.
  unfold bind, lift, ret.
  destruct (OnChain.not_status_1 _) as [[|]|e]; try discriminate;
    [intros H; injection H as <- _; right; left; reflexivity|].
  destruct (get _ "result" _) as [result|e]; [|discriminate].
  destruct (rbind (get result "SafeGasPrice" _) int) as [safe|e]; [|discriminate].
  destruct (rbind (get result "ProposeGasPrice" _) int) as [propose|e];
    [|discriminate].
  destruct (rbind (get result "FastGasPrice" _) int) as [fast|e]; [|discriminate].
  destruct (rbind (get result "suggestBaseFee" _) float) as [fee|e];
    [|discriminate].
  destruct (get result "gasUsedRatio" _) as [ratio|e]; [|discriminate].
  intros H. injection H as <- _. right. right.
  exists safe, propose, fast, fee, ratio. reflexivity.
Qed.

(** A loop that appends at most one checked entry and dispatches one
    request per entry keeps count. *)
Lemma for_append_count {A : Type} (Q : pyval -> Prop)
      (body : A -> M OnChain.Self (list pyval)) :
  (forall x st ys st',
      body x st = (Ok ys, st') ->
      (length ys <= 1)%nat
      /\ length (trace st') = (length (trace st) + length ys)%nat
      /\ Forall Q ys) ->
  forall xs acc st l st',
    for_append xs acc body st = (Ok l, st') ->
    exists added,
      l = acc ++ added
      /\ (length added <= length xs)%nat
      /\ length (trace st') = (length (trace st) + length added)%nat
      /\ Forall Q added.
Proof.
  intros Hbody. induction xs as [|x xs IH]; intros acc st l st' Hrun.
  - injection Hrun as <- <-. exists []. rewrite app_nil_r.
    repeat split; [simpl; lia | simpl; lia | constructor 1].
  - simpl in Hrun. unfold bind at 1 in Hrun.
    destruct (body x st) as [[ys|e] st1] eqn:Hx; [|discriminate].
    destruct (Hbody _ _ _ _ Hx) as (Hlen & Htrace & Hq).
    destruct (IH _ _ _ _ Hrun) as (added & -> & Hlen' & Htrace' & Hq').
    exists (ys ++ added). rewrite app_assoc. split; [reflexivity|].
    rewrite length_app. repeat split; [simpl; lia | lia |].
    apply Forall_app. split; assumption.
Qed.

(** The whale scan looks at the first 20 unconfirmed transactions: when
    it returns, it returns at most 20 entries, each at or above the
    threshold, and it has dispatched one request for the transactions and
    one more, for the price, per entry returned. *)
Theorem large_transactions_count (min : Q) (st st' : State OnChain.Self)
        (l : list pyval) :
  OnChain.get_bitcoin_large_transactions w min st = (Ok l, st') ->
  (length l <= 20)%nat
  /\ length (trace st') = (length (trace st) + 1 + length l)%nat
  /\ Forall (at_least min) l.
Proof.
  unfold OnChain.get_bitcoin_large_transactions, bind at 1.
  run_onchain_request. cbv beta iota. fold unconfirmed_request.
  set (st1 := after_onchain _ _ _ _ _).
  assert (Hst1 : length (trace st1) = (length (trace st) + 1)%nat)
    by (subst st1; simpl; rewrite length_app; reflexivity).
  unfold bind at 1, lift at 1.
  match goal with |- context [if negb (truthy ?d) then ?a else ?b] =>
    destruct (if negb (truthy d) then a else b) as [[|]|e] end;
    try discriminate.
  - intros H. injection H as <- <-.
    repeat split; [simpl; lia | rewrite Hst1; simpl; lia | constructor 1].
  - unfold bind at 1, lift at 1.
    destruct (rbind (get _ "txs" _) _) as [txs|e] eqn:Htxs; [|discriminate].
    assert (Hcap : (length txs <= 20)%nat).
    { unfold get in Htxs. destruct (answer w unconfirmed_request);
        try discriminate. simpl in Htxs.
      exact (sliced_items_length _ 20 txs ltac:(lia) Htxs). }
    intros Hrun.
    apply (for_append_count (at_least min)) in Hrun.
    + destruct Hrun as (added & -> & Hlen & Htrace & Hq). simpl.
      repeat split; [lia | rewrite Htrace, Hst1; lia | exact Hq].
    + clear. intros tx st ys st'. unfold bind at 1, lift at 1.
      destruct (OnChain.first_output_btc tx) as [value_btc|e]; [|discriminate].
      unfold bind at 1, lift at 1.
      destruct (OnChain.ge value_btc min) as [[|]|e] eqn:Hge; try discriminate.
      * unfold bind at 1, lift at 1.
        destruct (get tx "hash" _) as [hash|e]; [|discriminate].
        unfold bind at 1.
        destruct (network_stats_trace st) as (t & Ht).
        destruct (OnChain.get_bitcoin_network_stats w st) as [[stats|e] st1];
          [|discriminate].
        simpl in Ht. unfold bind, lift, ret.
        destruct (rbind (get stats "market_price_usd" _) _) as [usd|e];
          [|discriminate].
        destruct (rbind (get tx "time" _) _) as [time|e]; [|discriminate].
        destruct (get tx "size" _) as [size|e]; [|discriminate].
        intros H. injection H as <- <-. rewrite Ht, length_app. simpl.
        repeat split; [lia|]. constructor 2; [|constructor 1].
        unfold at_least. simpl. exact Hge.
      * intros H. injection H as <- <-. simpl.
        repeat split; [lia | lia | constructor 1].
Qed.

End OnChainClient.

Lemma ethereum_without_credential_witness :
  OnChain.get_ethereum_onchain_summary Scenario.w_gas Scenario.oc0
  = (Ok [Lit "Etherscan API key required for Ethereum on-chain data"], Scenario.oc0).
Proof.
  apply (ethereum_without_credential Scenario.w_gas Scenario.oc0). reflexivity.
Defined.

Lemma generic_summary_without_credential_witness :
  fst (OnChain.get_general_onchain_summary Scenario.w_coin_zero "doge" Scenario.oc0)
  = Ok [ Lit ("=== DOGE On-Chain & Social Metrics ===" +:+ nl +:+ nl
              +:+ "Social Activity:" +:+ nl +:+ "  Reddit Subscribers: ");
         Fld "," (VInt 0);
         Lit (nl +:+ "  Reddit Active Users: ");
         Fld "," (VInt 0);
         Lit (nl +:+ "  Twitter Followers: ");
         Fld "," (VInt 0) ].
Proof.
  rewrite (generic_summary_without_credential Scenario.w_coin_zero "doge"
             Scenario.oc0); reflexivity.
Defined.

Lemma bitcoin_summary_unavailable_witness :
  fst (OnChain.get_bitcoin_onchain_summary Scenario.w_down Scenario.oc0)
  = Ok [Lit "Could not fetch Bitcoin on-chain data"].
Proof.
  apply (bitcoin_summary_unavailable Scenario.w_down Scenario.oc0); reflexivity.
Defined.

Lemma gas_stats_shape_witness :
  fst (OnChain.get_ethereum_gas_stats Scenario.w_gas Scenario.oc_etherscan)
  = Ok (gas_stats 20 22 25 (195 # 10) (VStr "0.4,0.5"))
  /\ (gas_stats 20 22 25 (195 # 10) (VStr "0.4,0.5") = OnChain.key_required "Etherscan"
      \/ gas_stats 20 22 25 (195 # 10) (VStr "0.4,0.5") = VDict []
      \/ exists safe propose fast fee ratio,
           gas_stats 20 22 25 (195 # 10) (VStr "0.4,0.5")
           = gas_stats safe propose fast fee ratio).
Proof.
  split; [vm_compute; reflexivity|].
  apply (gas_stats_shape Scenario.w_gas Scenario.oc_etherscan
           (snd (OnChain.get_ethereum_gas_stats Scenario.w_gas Scenario.oc_etherscan))).
  vm_compute. reflexivity.
Defined.

Lemma large_transactions_count_witness :
  exists entry,
    fst (OnChain.get_bitcoin_large_transactions Scenario.w_whale 50 Scenario.oc0)
    = Ok [entry]
    /\ length (trace (snd (OnChain.get_bitcoin_large_transactions
                             Scenario.w_whale 50 Scenario.oc0))) = 2%nat
    /\ at_least 50 entry.
Proof.
  eexists. split; [vm_compute; reflexivity|].
  match goal with |- context [at_least 50 ?e] =>
    destruct (large_transactions_count Scenario.w_whale 50 Scenario.oc0
                (snd (OnChain.get_bitcoin_large_transactions
                        Scenario.w_whale 50 Scenario.oc0)) [e])
      as (_ & Htrace & Hall)
  end.
  - vm_compute. reflexivity.
  - split; [exact Htrace|]. inversion Hall; assumption.
Defined.

(** ** The news client *)

Section NewsClient.
Variable w : World.

(** One feed reader: it never raises, it asks for its feed once, it
    leaves the credential alone, and it returns what the feed
    contributes. *)
Lemma read_feed_run tag address source_name limit st :
  exists st',
    CryptoNews.read_feed w tag address source_name limit st
    = (Ok (feed_articles w address source_name limit), st')
    /\ CryptoNews.cryptopanic_key (self st') = CryptoNews.cryptopanic_key (self st)
    /\ map request (trace st') = map request (trace st) ++ [feed_request address].
Proof.
  unfold CryptoNews.read_feed, try_except, bind, feed_articles.
  rewrite news_rate_limit_run.
  unfold fetch_feed, bind, dispatch, ret, raise. simpl.
  destruct (feed_entries w address) as [entries|]; simpl; eexists;
    (split; [reflexivity|]); simpl; (split; [reflexivity|]);
    rewrite map_app; reflexivity.
Qed.

Lemma insert_desc_permutation a l :
  Permutation (CryptoNews.insert_desc a l) (a :: l).
Proof.
  induction l as [|b l IH]; simpl; [reflexivity|].
  destruct (CryptoNews.str_le _ _); [reflexivity|].
  rewrite IH. apply perm_swap.
Qed.

Lemma sort_desc_permutation l : Permutation (CryptoNews.sort_desc l) l.
Proof.
  induction l as [|a l IH]; simpl; [reflexivity|].
  rewrite insert_desc_permutation, IH. reflexivity.
Qed.

(** The sort is stable: a list already in descending order of the
    timestamps as text, articles of one timestamp included, is returned
    as it is. *)
Theorem sort_desc_stable (l : list CryptoNews.Article) :
  Sorted text_not_below l -> CryptoNews.sort_desc l = l.
Proof.
  induction l as [|a l IH]; intros Hs; [reflexivity|].
  inversion Hs as [|? ? Hs' Hhd]; subst. simpl. rewrite (IH Hs').
  destruct l as [|b l]; [reflexivity|]. simpl.
  inversion Hhd as [|? ? Hab]; subst. unfold text_not_below in Hab.
  rewrite Hab. reflexivity.
Qed.

(** Without the aggregator credential the aggregation is the sort of
    what the feeds contribute, and one request goes to each feed. *)
Lemma aggregation_feeds_run (symbol : option string) (hours cap : Z)
      (st : State CryptoNews.Self) :
  configured (CryptoNews.cryptopanic_key (self st)) = false ->
  exists st',
    CryptoNews.get_all_crypto_news w symbol hours cap st
    = (Ok (CryptoNews.sort_desc
             (flat_map (fun f => feed_articles w (fst f) (snd f) cap)
                       (feeds_read symbol))), st')
    /\ map request (trace st')
       = map request (trace st) ++ map (fun f => feed_request (fst f)) (feeds_read symbol).
Proof.
  intros Hkey. unfold CryptoNews.get_all_crypto_news, feeds_read.
  unfold bind at 1, get_self. rewrite Hkey. unfold bind at 1, ret at 1.
  unfold CryptoNews.get_cointelegraph_news, CryptoNews.get_decrypt_news,
    CryptoNews.get_coindesk_news, CryptoNews.get_theblock_news,
    CryptoNews.get_bitcoinmagazine_news.
  unfold bind at 1.
  destruct (read_feed_run "cointelegraph" "https://cointelegraph.com/rss"
              "CoinTelegraph" cap st) as (st1 & -> & _ & T1).
  unfold bind at 1.
  destruct (read_feed_run "decrypt" "https://decrypt.co/feed"
              "Decrypt" cap st1) as (st2 & -> & _ & T2).
  unfold bind at 1.
  destruct (read_feed_run "coindesk"
              "https://www.coindesk.com/arc/outboundfeeds/rss/"
              "CoinDesk" cap st2) as (st3 & -> & _ & T3).
  unfold bind at 1.
  destruct (read_feed_run "theblock" "https://www.theblock.co/rss.xml"
              "The Block" cap st3) as (st4 & -> & _ & T4).
  unfold bind at 1.
  destruct (CryptoNews.is_btc symbol).
  - destruct (read_feed_run "bitcoinmagazine"
                "https://bitcoinmagazine.com/.rss/full/" "Bitcoin Magazine"
                cap st4) as (st5 & -> & _ & T5).
    unfold ret. eexists. split.
    + simpl. rewrite app_nil_r. reflexivity.
    + rewrite T5, T4, T3, T2, T1. simpl. rewrite <- !app_assoc. reflexivity.
  - unfold ret. eexists. split.
    + simpl. rewrite !app_nil_r. reflexivity.
    + rewrite T4, T3, T2, T1. simpl. rewrite <- !app_assoc. reflexivity.
Qed.

(** Without the aggregator credential the aggregation never raises,
    whatever the feeds do and whatever the cap is.  It asks for the four
    feeds, and for the Bitcoin feed when the symbol is BTC, once each and
    in that order, and for nothing else; what it returns is what these
    feeds contribute, every article once, reordered only. *)
Theorem news_without_credential (symbol : option string) (hours cap : Z)
        (st : State CryptoNews.Self) :
  configured (CryptoNews.cryptopanic_key (self st)) = false ->
  exists l st',
    CryptoNews.get_all_crypto_news w symbol hours cap st = (Ok l, st')
    /\ Permutation l
         (flat_map (fun f => feed_articles w (fst f) (snd f) cap) (feeds_read symbol))
    /\ map request (trace st')
       = map request (trace st) ++ map (fun f => feed_request (fst f)) (feeds_read symbol).
Proof.
  intros Hkey.
  destruct (aggregation_feeds_run symbol hours cap st Hkey) as (st' & Hrun & Htrace).
  eexists _, st'. split; [exact Hrun|]. split; [|exact Htrace].
  apply sort_desc_permutation.
Qed.

(** Whatever the upstreams answer, regulatory news that is returned has
    at most fifty articles, and each of them mentions a regulatory
    keyword in its title or in its summary. *)
Theorem regulatory_news_bounded (hours : Z) (st : State CryptoNews.Self)
        (l : list CryptoNews.Article) :
  fst (CryptoNews.get_regulatory_news w hours st) = Ok l ->
  (length l <= 50)%nat /\ Forall regulatory l.
Proof.
  unfold CryptoNews.get_regulatory_news, bind.
  destruct (CryptoNews.get_all_crypto_news w None hours 10 st)
    as [[all_news|e] st'] eqn:Hall; [|discriminate].
  unfold ret. simpl. intros H. injection H as <-.
  destruct (aggregation_cap w None hours 10 st all_news) as [Hlen _];
    [lia | rewrite Hall; reflexivity |].
  unfold sources_queried in Hlen. simpl in Hlen.
  unfold CryptoNews.regulatory_filter. split.
  - pose proof (filter_length_le CryptoNews.is_regulatory all_news) as Hle.
    destruct (configured _); lia.
  - apply List.Forall_forall. intros a Ha. apply filter_In in Ha.
    apply is_regulatory_iff. exact (proj2 Ha).
Qed.

(** Without the aggregator credential, regulatory news never raises
    and is exactly the articles among the first ten of each of the four
    feeds that mention a regulatory keyword; the Bitcoin feed is not
    read. *)
Theorem regulatory_news_sources (hours : Z) (st : State CryptoNews.Self) :
  configured (CryptoNews.cryptopanic_key (self st)) = false ->
  exists l st',
    CryptoNews.get_regulatory_news w hours st = (Ok l, st')
    /\ (forall a,
          In a l
          <-> regulatory a
              /\ exists f, In f (feeds_read None)
                           /\ In a (feed_articles w (fst f) (snd f) 10))
    /\ map request (trace st')
       = map request (trace st) ++ map (fun f => feed_request (fst f)) (feeds_read None).
Proof.
  intros Hkey. unfold CryptoNews.get_regulatory_news, bind.
  destruct (aggregation_feeds_run None hours 10 st Hkey) as (st' & -> & Htrace).
  pose proof (sort_desc_permutation
                (flat_map (fun f => feed_articles w (fst f) (snd f) 10)
                          (feeds_read None))) as Hperm.
  set (all_news := CryptoNews.sort_desc _) in *.
  unfold ret. eexists _, _. split; [reflexivity|]. split; [|exact Htrace].
  intros a. unfold CryptoNews.regulatory_filter. rewrite filter_In.
  rewrite is_regulatory_iff. fold (regulatory a).
  assert (Hin : In a all_news
                <-> exists f, In f (feeds_read None)
                              /\ In a (feed_articles w (fst f) (snd f) 10)).
  { split.
    - intros Ha. apply (Permutation_in _ Hperm) in Ha.
      apply in_flat_map in Ha. exact Ha.
    - intros Ha. apply (Permutation_in _ (Permutation_sym Hperm)).
      apply in_flat_map. exact Ha. }
  rewrite Hin. tauto.
Qed.

End NewsClient.

Lemma sort_desc_stable_witness :
  CryptoNews.sort_desc [Scenario.article_price; Scenario.article_sec]
  = [Scenario.article_price; Scenario.article_sec].
Proof.
  apply (sort_desc_stable [Scenario.article_price; Scenario.article_sec]).
  repeat constructor.
Defined.

Lemma news_without_credential_witness :
  exists l st',
    CryptoNews.get_all_crypto_news Scenario.w_feed (Some "btc") 24 5 Scenario.news0
    = (Ok l, st')
    /\ Permutation l
         (flat_map (fun f => feed_articles Scenario.w_feed (fst f) (snd f) 5)
                   (feeds_read (Some "btc")))
    /\ map request (trace st')
       = map request (trace Scenario.news0)
         ++ map (fun f => feed_request (fst f)) (feeds_read (Some "btc")).
Proof.
  apply (news_without_credential Scenario.w_feed (Some "btc") 24 5 Scenario.news0).
  reflexivity.
Defined.

Lemma regulatory_news_bounded_witness :
  fst (CryptoNews.get_regulatory_news Scenario.w_regulatory 168 Scenario.news0)
  = Ok [Scenario.article_sec]
  /\ (length [Scenario.article_sec] <= 50)%nat
  /\ Forall regulatory [Scenario.article_sec].
Proof.
  split; [vm_compute; reflexivity|].
  apply (regulatory_news_bounded Scenario.w_regulatory 168 Scenario.news0).
  vm_compute. reflexivity.
Defined.

Lemma regulatory_news_sources_witness :
  exists l st',
    CryptoNews.get_regulatory_news Scenario.w_regulatory 168 Scenario.news0
    = (Ok l, st')
    /\ (forall a,
          In a l
          <-> regulatory a
              /\ exists f, In f (feeds_read None)
                           /\ In a (feed_articles Scenario.w_regulatory
                                                  (fst f) (snd f) 10))
    /\ map request (trace st')
       = map request (trace Scenario.news0)
         ++ map (fun f => feed_request (fst f)) (feeds_read None).
Proof.
  apply (regulatory_news_sources Scenario.w_regulatory 168 Scenario.news0).
  reflexivity.
Defined.

(** ** Market data of one coin, trending coins *)

Section MarketClient.
Variable w : World.

Ltac run_cg_request :=
  match goal with
  | |- context [CoinGecko._make_request ?w' ?e ?ps ?st] =>
      rewrite (cg_make_request_state w' e ps st)
  end.

Lemma traverse_forall {A B : Type} (f : A -> Res B) (P : B -> Prop) :
  (forall x y, f x = Ok y -> P y) ->
  forall xs ys, traverse f xs = Ok ys -> Forall P ys.
Proof.
  intros Hf. induction xs as [|x xs IH]; simpl; intros ys H.
  - injection H as <-. constructor 1.
  - destruct (f x) as [y|e] eqn:Hy; simpl in H; [|discriminate].
    destruct (traverse f xs) as [ys'|e]; simpl in H; [|discriminate].
    injection H as <-. constructor 2; [exact (Hf x y Hy) | exact (IH ys' eq_refl)].
Qed.

Lemma trending_entry_keys item entry :
  CoinGecko.trending_entry item = Ok entry -> has_keys trending_keys entry.
Proof.
  unfold CoinGecko.trending_entry. intros H.
  destruct (get item "item" (VDict [])) as [coin|e]; simpl in H; [|discriminate].
  destruct (get coin "symbol" (VStr "")) as [a|e]; simpl in H; [|discriminate].
  destruct (get coin "name" (VStr "")) as [b|e]; simpl in H; [|discriminate].
  destruct (get coin "market_cap_rank" (VInt 0)) as [c|e]; simpl in H; [|discriminate].
  destruct (get coin "price_btc" (VInt 0)) as [d|e]; simpl in H; [|discriminate].
  injection H as <-. eexists. split; reflexivity.
Qed.

(** The run of the trending call, for the callers below. *)
Lemma trending_coins_run (limit : Z) (st st' : State CoinGecko.Self)
        (l : list pyval) :
  0 <= limit ->
  CoinGecko.get_trending_coins w limit st = (Ok l, st') ->
  (length l <= Z.to_nat limit)%nat
  /\ Forall (has_keys trending_keys) l
  /\ map request (trace st') = map request (trace st) ++ [trending_request (self st)].
Proof.
  intros Hlimit. unfold CoinGecko.get_trending_coins.
  unfold bind at 1. run_cg_request. cbv beta iota.
  change (mkRequest _ _ _) with (trending_request (self st)).
  set (data := answer w (trending_request (self st))).
  set (st1 := after_coingecko w _ _ st).
  assert (Htrace : map request (trace st1)
                   = map request (trace st) ++ [trending_request (self st)]).
  { unfold st1, after_coingecko. simpl. rewrite map_app. reflexivity. }
  clearbody st1.
  unfold bind at 1, lift at 1.
  destruct (if negb (truthy data) then Ok true
            else rbind (contains_key "coins" data) (fun c => Ok (negb c)))
    as [[|]|e]; cbv beta iota.
  - unfold ret. intros H. injection H as <- <-.
    repeat split; [simpl; lia | constructor 1 | exact Htrace].
  - unfold bind, lift.
    destruct (rbind (getitem data "coins") _) as [items|e] eqn:Hitems;
      [|discriminate].
    destruct (traverse CoinGecko.trending_entry items) as [entries|e] eqn:Hentries;
      [|discriminate].
    intros H. injection H as <- <-.
    repeat split; [| | exact Htrace].
    + rewrite (traverse_length _ _ _ Hentries).
      unfold getitem in Hitems. destruct data as [| | | | | |d]; try discriminate.
      destruct (lookup "coins" d) as [v|]; [|discriminate].
      exact (sliced_items_length v limit items Hlimit Hitems).
    + exact (traverse_forall _ _ trending_entry_keys _ _ Hentries).
  - discriminate.
Qed.

(** For a limit that is not negative, trending coins that are returned
    are at most [limit], each a dict with exactly the four keys symbol,
    name, market_cap_rank and price_btc; one request was sent. *)
Theorem trending_coins_cap (limit : Z) (st st' : State CoinGecko.Self)
        (l : list pyval) :
  0 <= limit ->
  CoinGecko.get_trending_coins w limit st = (Ok l, st') ->
  (length l <= Z.to_nat limit)%nat
  /\ Forall (has_keys trending_keys) l
  /\ map request (trace st') = map request (trace st) ++ [trending_request (self st)].
Proof. exact (trending_coins_run limit st st' l). Qed.

Lemma get_coin_id_unreachable symbol st :
  unreachable w ->
  exists id st1,
    CoinGecko.get_coin_id w symbol st = (Ok (VStr id), st1)
    /\ (length (trace st1) <= length (trace st) + 1)%nat.
Proof.
  intros Hdown. unfold CoinGecko.get_coin_id.
  destruct (CoinGecko.SYMBOL_TO_ID !! PyStr.upper symbol) as [id|].
  - eexists _, _. split; [reflexivity|]. lia.
  - unfold bind at 1. run_cg_request. cbv beta iota.
    unfold answer. rewrite Hdown. simpl.
    eexists _, _. split; [reflexivity|]. simpl. rewrite length_app. simpl. lia.
Qed.

(** When the price service is unreachable, the market summary of every
    symbol is the text that says so and names the symbol as it was
    given; the method does not raise, and it has sent at most two
    requests. *)
Theorem market_summary_unreachable (symbol : string) (days : Z)
        (st : State CoinGecko.Self) :
  unreachable w ->
  exists st',
    CoinGecko.get_market_data_summary w symbol days st
    = (Ok [Lit ("Could not fetch market data for " +:+ symbol)], st')
    /\ (length (trace st') <= length (trace st) + 2)%nat.
Proof.
  intros Hdown. unfold CoinGecko.get_market_data_summary, CoinGecko.get_current_price.
  destruct (get_coin_id_unreachable symbol st Hdown) as (id & st1 & Hid & Hlen).
  unfold bind at 1. unfold bind at 1. rewrite Hid. cbv beta iota.
  unfold bind at 1, lift at 1. simpl format. cbv beta iota.
  unfold bind at 1. run_cg_request. cbv beta iota.
  unfold answer. rewrite Hdown. simpl.
  eexists. split; [reflexivity|]. simpl. rewrite length_app. simpl. lia.
Qed.

Lemma price_data_keys symbol vs_currency data market_data r :
  CoinGecko.price_data symbol vs_currency data market_data = Ok r ->
  has_keys price_keys r /\ getitem r "symbol" = Ok (VStr (PyStr.upper symbol)).
Proof.
  unfold CoinGecko.price_data. intros H.
  repeat match type of H with
         | rbind ?x _ = Ok _ =>
             destruct x; simpl rbind in H; [|discriminate]
         end.
  injection H as <-. split; [eexists; split; reflexivity | reflexivity].
Qed.

(** The price dict that is returned is empty, or it has exactly the
    nineteen keys of the method, and its symbol is the given one in upper
    case. *)
Theorem current_price_shape (symbol vs_currency : string)
        (st st' : State CoinGecko.Self) (r : pyval) :
  CoinGecko.get_current_price w symbol vs_currency st = (Ok r, st') ->
  r = VDict []
  \/ (has_keys price_keys r /\ getitem r "symbol" = Ok (VStr (PyStr.upper symbol))).
Proof.
  unfold CoinGecko.get_current_price.
  unfold bind at 1.
  destruct (CoinGecko.get_coin_id w symbol st) as [[coin_id|e] st1]; [|discriminate].
  unfold bind at 1, lift at 1.
  destruct (format coin_id "") as [id|e]; [|discriminate]. cbv beta iota.
  unfold bind at 1. run_cg_request. cbv beta iota.
  set (data := answer w _). set (st2 := after_coingecko w _ _ st1). clearbody st2.
  unfold bind at 1, lift at 1.
  destruct (if negb (truthy data) then Ok true
            else rbind (contains_key "market_data" data) (fun c => Ok (negb c)))
    as [[|]|e]; cbv beta iota; [| |discriminate].
  - unfold ret. intros H. injection H as <- _. left. reflexivity.
  - unfold bind, lift.
    destruct (getitem data "market_data") as [market_data|e]; [|discriminate].
    destruct (CoinGecko.price_data symbol vs_currency data market_data)
      as [r0|e] eqn:Hr; [|discriminate].
    intros H. injection H as <- _. right.
    exact (price_data_keys _ _ _ _ _ Hr).
Qed.

(** The first request of a price lookup goes on the wire at the clock
    the pacing of the client it runs on allows. *)
Lemma current_price_first_dispatch symbol vs_currency st :
  exists r rest,
    trace (snd (CoinGecko.get_current_price w symbol vs_currency st))
    = trace st
      ++ mkDispatch (let_through (CoinGecko.last_request_time (self st))
                                 (CoinGecko.rate_limit_delay (self st)) (clock st)) r
         :: rest.
Proof.
  unfold CoinGecko.get_current_price, CoinGecko.get_coin_id.
  destruct (CoinGecko.SYMBOL_TO_ID !! PyStr.upper symbol) as [id|].
  - unfold bind at 1. unfold ret at 1. cbv beta iota.
    unfold bind at 1, lift at 1. simpl format. cbv beta iota.
    unfold bind at 1. run_cg_request. cbv beta iota.
    set (data := answer w _).
    unfold bind at 1, lift at 1.
    destruct (if negb (truthy data) then Ok true
              else rbind (contains_key "market_data" data) (fun c => Ok (negb c)))
      as [[|]|e]; cbv beta iota; try (eexists _, []; reflexivity).
    unfold bind, lift.
    destruct (getitem data "market_data") as [market_data|e];
      [|eexists _, []; reflexivity].
    destruct (CoinGecko.price_data _ _ _ _); eexists _, []; reflexivity.
  - unfold bind at 1. unfold bind at 1. run_cg_request. cbv beta iota.
    set (data := answer w _).
    set (st1 := after_coingecko w _ _ st).
    assert (H1 : exists r, trace st1 = trace st ++ [mkDispatch (let_through (CoinGecko.last_request_time (self st))
                                 (CoinGecko.rate_limit_delay (self st)) (clock st)) r]).
    { eexists. reflexivity. }
    destruct H1 as (r & H1). clearbody st1.
    unfold bind at 1, lift at 1.
    destruct (CoinGecko.has_items data "coins") as [found|e]; cbv beta iota;
      [|exists r, []; exact H1].
    assert (Hid : exists res, (if found
                  then lift (rbind (getitem data "coins") (fun coins =>
                         rbind (getitem0 coins) (fun first => getitem first "id")))
                  else ret (VStr (PyStr.lower (PyStr.upper symbol)))) st1 = (res, st1)).
    { destruct found; eexists; reflexivity. }
    destruct Hid as (res & ->). destruct res as [coin_id|e]; [|exists r, []; exact H1].
    unfold bind at 1, lift at 1.
    destruct (format coin_id "") as [id|e]; [|exists r, []; exact H1]. cbv beta iota.
    unfold bind at 1. run_cg_request. cbv beta iota.
    set (data2 := answer w _).
    unfold bind at 1, lift at 1.
    destruct (if negb (truthy data2) then Ok true
              else rbind (contains_key "market_data" data2) (fun c => Ok (negb c)))
      as [[|]|e]; cbv beta iota;
      try (simpl; rewrite H1, <- app_assoc; eexists _, [_]; reflexivity).
    unfold bind, lift.
    destruct (getitem data2 "market_data") as [market_data|e];
      [|simpl; rewrite H1, <- app_assoc; eexists _, [_]; reflexivity].
    destruct (CoinGecko.price_data _ _ _ _);
      simpl; rewrite H1, <- app_assoc; eexists _, [_]; reflexivity.
Qed.
Lemma market_summary_trace symbol days st :
  trace (snd (CoinGecko.get_market_data_summary w symbol days st))
  = trace (snd (CoinGecko.get_current_price w symbol "usd" st)).
Proof.
  unfold CoinGecko.get_market_data_summary, bind.
  destruct (CoinGecko.get_current_price w symbol "usd" st) as [[pd|e] st1];
    [|reflexivity].
  destruct (negb (truthy pd)); [reflexivity|].
  unfold lift, ret. destruct (CoinGecko.market_overview pd); reflexivity.
Qed.

(** The convenience functions for the current price and the market
    summary build a client of their own at each call, so nothing of
    earlier calls paces them: on a clock of at least 1.2 seconds their
    first request is dispatched at the clock of the call. *)
Theorem convenience_not_paced (env : option string) (symbol : string)
        (st : State CoinGecko.Self) :
  (12 # 10 <= clock st)%Q ->
  (exists r rest,
     trace (snd (CoinGecko.get_crypto_current_price w env symbol st))
     = trace st ++ mkDispatch (clock st) r :: rest)
  /\ (exists r rest,
        trace (snd (CoinGecko.get_crypto_market_summary w env symbol st))
        = trace st ++ mkDispatch (clock st) r :: rest).
Proof.
  intros Hclock.
  unfold CoinGecko.get_crypto_current_price, CoinGecko.get_crypto_market_summary,
    CoinGecko.fresh.
  rewrite market_summary_trace.
  destruct (current_price_first_dispatch symbol "usd"
              (mkState (CoinGecko.init None env) (clock st) (trace st)))
    as (r & rest & H).
  unfold let_through in H.
  cbn [self clock trace CoinGecko.init CoinGecko.last_request_time
         CoinGecko.rate_limit_delay] in H.
  destruct (Qlt_le_dec (clock st - 0) (12 # 10)) as [Hlt|_]; [lra|].
  split; exists r, rest; exact H.
Qed.

End MarketClient.

Lemma trending_coins_cap_witness :
  exists l,
    fst (CoinGecko.get_trending_coins Scenario.w_trending 2 Scenario.cg0) = Ok l
    /\ (length l <= 2)%nat
    /\ Forall (has_keys trending_keys) l.
Proof.
  eexists. split; [vm_compute; reflexivity|].
  match goal with |- (length ?l <= _)%nat /\ _ =>
    destruct (trending_coins_cap Scenario.w_trending 2 Scenario.cg0
                (snd (CoinGecko.get_trending_coins Scenario.w_trending 2 Scenario.cg0))
                l) as (Hlen & Hkeys & _)
  end.
  - lia.
  - vm_compute. reflexivity.
  - split; [exact Hlen | exact Hkeys].
Defined.

Lemma market_summary_unreachable_witness :
  exists st',
    CoinGecko.get_market_data_summary Scenario.w_down "btc" 7 Scenario.cg0
    = (Ok [Lit "Could not fetch market data for btc"], st')
    /\ (length (trace st') <= length (trace Scenario.cg0) + 2)%nat.
Proof.
  apply (market_summary_unreachable Scenario.w_down "btc" 7 Scenario.cg0).
  intros r. reflexivity.
Defined.

Lemma current_price_shape_witness :
  exists r,
    fst (CoinGecko.get_current_price Scenario.w_coin "btc" "usd" Scenario.cg0) = Ok r
    /\ (r = VDict []
        \/ (has_keys price_keys r /\ getitem r "symbol" = Ok (VStr "BTC"))).
Proof.
  eexists. split; [vm_compute; reflexivity|].
  apply (current_price_shape Scenario.w_coin "btc" "usd" Scenario.cg0
           (snd (CoinGecko.get_current_price Scenario.w_coin "btc" "usd" Scenario.cg0))).
  vm_compute. reflexivity.
Defined.

Lemma convenience_not_paced_witness :
  (exists r rest,
     trace (snd (CoinGecko.get_crypto_current_price Scenario.w_coin None "btc"
                   Scenario.cg_busy))
     = trace Scenario.cg_busy ++ mkDispatch (clock Scenario.cg_busy) r :: rest)
  /\ (exists r rest,
        trace (snd (CoinGecko.get_crypto_market_summary Scenario.w_coin None "btc"
                      Scenario.cg_busy))
        = trace Scenario.cg_busy ++ mkDispatch (clock Scenario.cg_busy) r :: rest).
Proof.
  apply (convenience_not_paced Scenario.w_coin None "btc" Scenario.cg_busy).
  vm_compute. discriminate.
Defined.

(** ** The tools *)

Section ToolProps.
Variable w : World.

(** The sentiment tool never answers its error text: whatever the
    sentiment service does, the tool returns the index text, with an
    integer value. *)
Theorem fear_greed_tool_total (st : State Interface.Clients) :
  exists value classification st',
    Interface.get_crypto_fear_greed_index w st
    = (Ok (Interface.Said (fear_greed_report value classification)), st').
Proof.
  unfold Interface.get_crypto_fear_greed_index, Interface.tool, try_except.
  unfold bind at 1. unfold bind at 1. unfold Interface.on_coingecko.
  destruct (fear_greed_answer w
              (mkState (Interface._coingecko (self st)) (clock st) (trace st)))
    as (value & c & stamp & until & st1 & -> & _).
  cbv beta iota.
  unfold bind at 1, lift at 1.
  destruct (format_plain c) as (p & Hp).
  unfold Interface.fear_greed_text, fld, getitem. simpl lookup. cbv beta iota.
  unfold fstring, rbind, lit, eol. simpl format. rewrite Hp. cbv beta iota.
  unfold ret. exists value, p. eexists. reflexivity.
Qed.
(** For a limit that is not negative, a text of the trending tool is
    the one saying that no data is available, or it is headed by the
    number of coins listed, which is at least one and at most the
    limit. *)
Theorem trending_tool_cap (limit : Z) (st st' : State Interface.Clients) (t : text) :
  0 <= limit ->
  Interface.get_trending_cryptocurrencies w limit st = (Ok (Interface.Said t), st') ->
  t = plain "No trending coins data available"
  \/ exists n lines, t = flatten (trending_header n ++ lines) /\ 1 <= n <= limit.
Proof.
  intros Hlimit.
  unfold Interface.get_trending_cryptocurrencies, Interface.tool, try_except.
  unfold bind at 1. unfold bind at 1. unfold Interface.on_coingecko.
  destruct (CoinGecko.get_trending_coins w limit _) as [[l|e] st1] eqn:Hrun;
    cbv beta iota; [|unfold ret; discriminate].
  destruct (trending_coins_run w limit _ st1 l Hlimit Hrun) as (Hlen & _ & _).
  destruct l as [|coin l].
  - unfold ret. intros H. injection H as <- _. left. reflexivity.
  - unfold bind at 1, lift at 1.
    destruct (Interface.trending_lines 1 (coin :: l)) as [lines|e];
      cbv beta iota; unfold ret; [|discriminate].
    intros H. injection H as <- _. right.
    exists (Z.of_nat (length (coin :: l))), lines.
    split; [reflexivity|]. simpl length in *. lia.
Qed.

Lemma regulatory_entries_head i a l :
  exists rest, Interface.regulatory_entries i (a :: l)
               = Fld "" (VInt i) :: Lit ". " :: rest.
Proof. simpl. unfold Interface.regulatory_entry. simpl. eexists. reflexivity. Qed.

(** Without the aggregator credential the regulatory tool never
    answers its error text, and it says that there is no significant news
    exactly when no article among the first ten of each of the four feeds
    mentions a regulatory keyword. *)
Theorem regulatory_tool_without_credential (st : State Interface.Clients) :
  configured (CryptoNews.cryptopanic_key (Interface._cryptonews (self st))) = false ->
  exists t st',
    Interface.get_regulatory_news w st = (Ok (Interface.Said t), st')
    /\ (t = no_regulatory_news
        <-> forall f a, In f (feeds_read None) ->
                        In a (feed_articles w (fst f) (snd f) 10) ->
                        ~ regulatory a).
Proof.
  intros Hkey.
  unfold Interface.get_regulatory_news, Interface.tool, try_except.
  unfold bind at 1. unfold bind at 1. unfold Interface.on_cryptonews.
  unfold CryptoNews.get_regulatory_news. unfold bind at 1.
  destruct (aggregation_feeds_run w None 168 10
              (mkState (Interface._cryptonews (self st)) (clock st) (trace st)) Hkey)
    as (st1 & -> & _).
  pose proof (sort_desc_permutation
                (flat_map (fun f => feed_articles w (fst f) (snd f) 10)
                          (feeds_read None))) as Hperm.
  set (all_news := CryptoNews.sort_desc _) in *.
  unfold ret at 1. cbv beta iota.
  assert (Hall : forall a, In a (CryptoNews.regulatory_filter all_news)
                 <-> regulatory a
                     /\ exists f, In f (feeds_read None)
                                  /\ In a (feed_articles w (fst f) (snd f) 10)).
  { intros a. unfold CryptoNews.regulatory_filter. rewrite filter_In.
    rewrite is_regulatory_iff. fold (regulatory a).
    split.
    - intros [Ha Hr]. split; [exact Hr|].
      apply (Permutation_in _ Hperm) in Ha. apply in_flat_map in Ha. exact Ha.
    - intros [Hr Ha]. split; [|exact Hr].
      apply (Permutation_in _ (Permutation_sym Hperm)). apply in_flat_map. exact Ha. }
  destruct (CryptoNews.regulatory_filter all_news) as [|a l] eqn:Hl.
  - unfold ret. eexists _, _. split; [reflexivity|]. split; [|reflexivity].
    intros _ f a Hf Ha Hr.
    apply (proj2 (Hall a)); split; [exact Hr | exists f; split; assumption].
  - unfold ret. eexists _, _. split; [reflexivity|]. split.
    + intros Heq. exfalso.
      assert (Hs : exists l', slice_to 10 (a :: l) = a :: l').
      { unfold slice_to. simpl. eexists. reflexivity. }
      destruct Hs as (l' & Hs). rewrite Hs in Heq.
      destruct (regulatory_entries_head 1 a l') as (rest & Hrest).
      rewrite Hrest in Heq. simpl in Heq. discriminate.
    + intros Hnone. exfalso.
      destruct (proj1 (Hall a) (or_introl eq_refl)) as (Hr & f & Hf & Ha).
      exact (Hnone f a Hf Ha Hr).
Qed.

End ToolProps.

Lemma trending_tool_cap_witness :
  exists t,
    fst (Interface.get_trending_cryptocurrencies Scenario.w_trending 2 Scenario.tools0)
    = Ok (Interface.Said t)
    /\ (t = plain "No trending coins data available"
        \/ exists n lines, t = flatten (trending_header n ++ lines) /\ 1 <= n <= 2).
Proof.
  eexists. split; [vm_compute; reflexivity|].
  apply (trending_tool_cap Scenario.w_trending 2 Scenario.tools0
           (snd (Interface.get_trending_cryptocurrencies Scenario.w_trending 2
                   Scenario.tools0))); [lia|].
  vm_compute. reflexivity.
Defined.

Lemma regulatory_tool_without_credential_witness :
  exists t st',
    Interface.get_regulatory_news Scenario.w_regulatory Scenario.tools0
    = (Ok (Interface.Said t), st')
    /\ (t = no_regulatory_news
        <-> forall f a, In f (feeds_read None) ->
                        In a (feed_articles Scenario.w_regulatory (fst f) (snd f) 10) ->
                        ~ regulatory a).
Proof.
  apply (regulatory_tool_without_credential Scenario.w_regulatory Scenario.tools0).
  reflexivity.
Defined.

(** ** Configuration and tool selection *)

Section ConfigProps.

Lemma lookup_set_item k k' v d :
  lookup k (Config.set_item k' v d)
  = if String.eqb k k' then Some v else lookup k d.
Proof.
  induction d as [|[k'' v''] d IH]; simpl.
  - destruct (String.eqb k k'); reflexivity.
  - destruct (String.eqb_spec k' k'') as [->|Hne]; simpl.
    + destruct (String.eqb k k''); reflexivity.
    + rewrite IH. destruct (String.eqb_spec k k'') as [->|Hne'];
        [|reflexivity].
      destruct (String.eqb_spec k'' k') as [->|_]; [contradiction|reflexivity].
Qed.

Lemma lookup_app k d e :
  lookup k (d ++ e) = match lookup k d with Some v => Some v | None => lookup k e end.
Proof.
  induction d as [|[k' v'] d IH]; simpl; [reflexivity|].
  destruct (String.eqb k k'); [reflexivity | exact IH].
Qed.

Lemma lookup_update k u : forall d,
  lookup k (Config.update d u)
  = match lookup k (rev u) with Some v => Some v | None => lookup k d end.
Proof.
  unfold Config.update.
  induction u as [|[k1 v1] u IH]; intros d; simpl; [reflexivity|].
  rewrite IH, lookup_app, lookup_set_item. simpl.
  destruct (lookup k (rev u)); [reflexivity|].
  destruct (String.eqb k k1); reflexivity.
Qed.

Lemma truthy_of_env o : truthy (Config.of_env o) = configured o.
Proof. destruct o; reflexivity. Qed.

(** Whatever the default configuration and the environment hold, the
    shipped configuration is accepted by the validator, with a warning for
    each of the two credentials that is not set; its analysts are market,
    onchain, news and social; and with no configuration or an empty one
    the mode test answers for the shipped one: crypto. *)
Theorem shipped_config_valid (DEFAULT_CONFIG : Config.Dict)
        (getenv : string -> option string) :
  Config.validate_crypto_config (Config.CRYPTO_CONFIG DEFAULT_CONFIG getenv)
  = Ok (Config.mkVerdict true (plain "Configuration valid")
          (key_warnings (getenv "COINGECKO_API_KEY") (getenv "ETHERSCAN_API_KEY")))
  /\ Config.get_crypto_analysts DEFAULT_CONFIG getenv
     = Ok (Config.tokens ["market"; "onchain"; "news"; "social"])
  /\ Config.is_crypto_mode DEFAULT_CONFIG getenv None = true
  /\ Config.is_crypto_mode DEFAULT_CONFIG getenv (Some []) = true.
Proof.
  unfold Config.validate_crypto_config, Config.get_crypto_analysts,
    Config.is_crypto_mode, Config.dict_get, getitem, Config.CRYPTO_CONFIG.
  rewrite !lookup_update. simpl rev. simpl lookup. cbv beta iota.
  rewrite !truthy_of_env. unfold key_warnings.
  repeat split.
  destruct (configured (getenv "COINGECKO_API_KEY")),
    (configured (getenv "ETHERSCAN_API_KEY")); reflexivity.
Qed.

Lemma dict_get_set_item k k' v d default :
  k <> k' ->
  Config.dict_get (Config.set_item k' v d) k default = Config.dict_get d k default.
Proof.
  intros Hne. unfold Config.dict_get. rewrite lookup_set_item.
  destruct (String.eqb_spec k k'); [contradiction | reflexivity].
Qed.

(** The validator reads five entries of the configuration and no
    other. *)
Theorem validate_reads_five_keys (config : Config.Dict) (k : string) (v : pyval) :
  ~ In k [ "asset_type"; "supported_tokens"; "primary_tokens";
           "coingecko_api_key"; "etherscan_api_key" ] ->
  Config.validate_crypto_config (Config.set_item k v config)
  = Config.validate_crypto_config config.
Proof.
  intros Hk. unfold Config.validate_crypto_config.
  rewrite !dict_get_set_item by (intros <-; apply Hk; simpl; tauto).
  reflexivity.
Qed.

(** A configuration the validator accepts puts the analysts in crypto
    mode: the market, news and social analysts bind their crypto tools
    without reading the online_tools entry, and whatever the symbol, the
    on-chain analyst binds tools of the crypto registry only. *)
Theorem validated_config_crypto_tools (config : Config.Dict) (v : Config.Verdict) :
  Config.validate_crypto_config config = Ok v ->
  Config.is_valid v = true ->
  Analysts.market_tools config
  = Ok [ Analysts.get_crypto_price_data; Analysts.get_global_crypto_market;
         Analysts.get_crypto_fear_greed_index ]
  /\ Analysts.news_tools config
     = Ok [ Analysts.get_crypto_news; Analysts.get_regulatory_news ]
  /\ Analysts.social_tools config
     = Ok [ Analysts.get_trending_cryptocurrencies; Analysts.get_crypto_news ]
  /\ forall symbol, incl (Analysts.onchain_tools symbol) Analysts.CRYPTO_TOOLS.
Proof.
  unfold Config.validate_crypto_config, Analysts.market_tools, Analysts.news_tools,
    Analysts.social_tools, Analysts.is_crypto.
  destruct (is_str (Config.dict_get config "asset_type" VNone) "crypto").
  - intros _ _. repeat split.
    intros symbol. unfold Analysts.onchain_tools.
    destruct (String.eqb _ "BTC"); [|destruct (String.eqb _ "ETH")];
      intros t Ht; simpl in Ht; simpl; intuition (subst; tauto).
  - simpl. intros H. injection H as <-. simpl. discriminate.
Qed.

Lemma py_in_tokens t ss :
  Config.py_in (VStr t) (Config.tokens ss) = Ok (existsb (String.eqb t) ss).
Proof.
  unfold Config.py_in, Config.tokens. f_equal.
  induction ss as [|s ss IH]; [reflexivity|].
  cbn [map existsb]. rewrite IH. reflexivity.
Qed.

Lemma first_missing_tokens ss : forall ps,
  Config.first_missing (map VStr ps) (Config.tokens ss)
  = Ok (option_map VStr
          (List.find (fun t => negb (existsb (String.eqb t) ss)) ps)).
Proof.
  induction ps as [|p ps IH]; [reflexivity|].
  cbn [map Config.first_missing List.find]. rewrite py_in_tokens. cbn [rbind].
  destruct (existsb (String.eqb p) ss); cbn [negb]; [exact IH | reflexivity].
Qed.

Lemma existsb_eqb_In t ss : existsb (String.eqb t) ss = true <-> In t ss.
Proof.
  rewrite existsb_exists. split.
  - intros (x & Hx & Heq). apply String.eqb_eq in Heq. subst. exact Hx.
  - intros H. exists t. split; [exact H | apply String.eqb_refl].
Qed.

Lemma find_first {A : Type} (f : A -> bool) (l : list A) (x : A) :
  List.find f l = Some x ->
  exists before after,
    l = before ++ x :: after /\ (forall y, In y before -> f y = false) /\ f x = true.
Proof.
  induction l as [|a l IH]; [discriminate|]. cbn [List.find].
  destruct (f a) eqn:Ha.
  - intros H. injection H as <-. exists [], l.
    split; [reflexivity|]. split; [intros y []|exact Ha].
  - intros H. destruct (IH H) as (before & after & -> & Hb & Hx).
    exists (a :: before), after. split; [reflexivity|]. split; [|exact Hx].
    intros y [<-|Hy]; [exact Ha | exact (Hb y Hy)].
Qed.

(** For token lists of text the validator never raises.  It accepts
    exactly the configurations of asset type crypto whose two lists are not
    empty and whose primary tokens are all supported; when a primary token
    is not supported, the message names the first such token. *)
Theorem validate_tokens_iff (config : Config.Dict) (ss ps : list string) :
  lookup "supported_tokens" config = Some (Config.tokens ss) ->
  lookup "primary_tokens" config = Some (Config.tokens ps) ->
  exists v,
    Config.validate_crypto_config config = Ok v
    /\ (Config.is_valid v = true
        <-> Analysts.is_crypto config = true
            /\ ss <> [] /\ ps <> [] /\ incl ps ss)
    /\ (forall t, Config.message v = missing_token t ->
                  exists before after,
                    ps = before ++ t :: after
                    /\ incl before ss /\ ~ In t ss).
Proof.
  intros Hs Hp. unfold Config.validate_crypto_config, Config.dict_get, Analysts.is_crypto.
  rewrite Hs, Hp. unfold Config.dict_get.
  destruct (is_str _ "crypto"); simpl negb; cbv iota.
  2:{ eexists. split; [reflexivity|]. split.
      - simpl. split; [discriminate | intros [H _]; discriminate].
      - simpl. unfold missing_token, plain. discriminate. }
  destruct ss as [|s ss].
  { eexists. split; [reflexivity|]. split.
    - simpl. split; [discriminate | intros (_ & H & _); congruence].
    - simpl. unfold missing_token, plain. discriminate. }
  destruct ps as [|p ps].
  { eexists. split; [reflexivity|]. split.
    - simpl. split; [discriminate | intros (_ & _ & H & _); congruence].
    - simpl. unfold missing_token, plain. discriminate. }
  change (truthy (Config.tokens (s :: ss))) with true.
  change (truthy (Config.tokens (p :: ps))) with true.
  simpl negb. cbv iota.
  change (iter (Config.tokens (p :: ps))) with (Ok (map VStr (p :: ps))).
  unfold rbind at 1. rewrite first_missing_tokens.
  set (S := s :: ss). set (P := p :: ps).
  destruct (List.find (fun t => negb (existsb (String.eqb t) S)) P) as [t|] eqn:Hfind.
  - simpl. eexists. split; [reflexivity|]. split.
    + simpl. split; [discriminate|]. intros (_ & _ & _ & Hincl). exfalso.
      apply find_some in Hfind. destruct Hfind as [Hin Hno].
      apply negb_true_iff in Hno.
      rewrite (proj2 (existsb_eqb_In t S) (Hincl t Hin)) in Hno. discriminate.
    + simpl. unfold missing_token. intros t' Heq. injection Heq as <-.
      destruct (find_first _ _ _ Hfind) as (before & after & HP & Hb & Ht).
      exists before, after. split; [exact HP|]. split.
      * intros x Hx. apply (proj1 (existsb_eqb_In x S)).
        apply negb_false_iff. exact (Hb x Hx).
      * intros Hin. pose proof (proj2 (existsb_eqb_In t S) Hin) as He.
        apply negb_true_iff in Ht. congruence.
  - simpl. eexists. split; [reflexivity|]. split.
    + simpl. split; [|reflexivity]. intros _.
      repeat split; try discriminate.
      intros t Hin. apply existsb_eqb_In.
      pose proof (find_none _ _ Hfind t Hin) as Hno.
      apply negb_false_iff in Hno. exact Hno.
    + simpl. unfold missing_token, plain. discriminate.
Qed.

End ConfigProps.

Lemma validate_reads_five_keys_witness :
  Config.validate_crypto_config
    (Config.set_item "online_tools" (VBool false) Scenario.shipped)
  = Config.validate_crypto_config Scenario.shipped.
Proof.
  apply (validate_reads_five_keys Scenario.shipped "online_tools" (VBool false)).
  simpl. intuition discriminate.
Defined.

Lemma validated_config_crypto_tools_witness :
  Analysts.market_tools Scenario.test_config
  = Ok [ Analysts.get_crypto_price_data; Analysts.get_global_crypto_market;
         Analysts.get_crypto_fear_greed_index ]
  /\ Analysts.news_tools Scenario.test_config
     = Ok [ Analysts.get_crypto_news; Analysts.get_regulatory_news ]
  /\ Analysts.social_tools Scenario.test_config
     = Ok [ Analysts.get_trending_cryptocurrencies; Analysts.get_crypto_news ]
  /\ forall symbol, incl (Analysts.onchain_tools symbol) Analysts.CRYPTO_TOOLS.
Proof.
  apply (validated_config_crypto_tools Scenario.test_config
           (Config.mkVerdict true (plain "Configuration valid")
              (key_warnings None None))); reflexivity.
Defined.

Lemma validate_tokens_iff_witness :
  exists v,
    Config.validate_crypto_config Scenario.shipped = Ok v
    /\ (Config.is_valid v = true
        <-> Analysts.is_crypto Scenario.shipped = true
            /\ [ "BTC"; "ETH"; "SOL"; "MATIC"; "AVAX"; "BNB"; "ADA"; "DOT";
                 "LINK"; "UNI" ] <> []
            /\ [ "BTC"; "ETH"; "SOL" ] <> []
            /\ incl [ "BTC"; "ETH"; "SOL" ]
                    [ "BTC"; "ETH"; "SOL"; "MATIC"; "AVAX"; "BNB"; "ADA"; "DOT";
                      "LINK"; "UNI" ])
    /\ (forall t, Config.message v = missing_token t ->
                  exists before after,
                    [ "BTC"; "ETH"; "SOL" ] = before ++ t :: after
                    /\ incl before
                            [ "BTC"; "ETH"; "SOL"; "MATIC"; "AVAX"; "BNB"; "ADA";
                              "DOT"; "LINK"; "UNI" ]
                    /\ ~ In t [ "BTC"; "ETH"; "SOL"; "MATIC"; "AVAX"; "BNB"; "ADA";
                                "DOT"; "LINK"; "UNI" ]).
Proof.
  apply (validate_tokens_iff Scenario.shipped
           [ "BTC"; "ETH"; "SOL"; "MATIC"; "AVAX"; "BNB"; "ADA"; "DOT"; "LINK"; "UNI" ]
           [ "BTC"; "ETH"; "SOL" ]); reflexivity.
Defined.
